(** * Asistencia-alumnos: validation, list filters and the store contract

    A shallow embedding of the student-attendance register
    (src/components/StudentForm.tsx, StudentList.tsx, AttendanceForm.tsx,
    AttendanceList.tsx, lib/supabase.ts and the SQL migration) together
    with the properties its specification states about them.

    Conventions
    - A JavaScript string is a [string]: each [ascii] stands for one code
      unit in the range U+0000..U+00FF, so accented Latin-1 letters are
      single characters, written with their decimal code ("243" is
      o-acute).
    - A [Record<string, string>] is a [gmap string string].
    - An event handler is a function from its props, its component state
      and the answer of the gateway to the list of effects it performs,
      in program order.
    - A number is a [Z]: the integers a JavaScript number holds exactly
      ([Js.isSafeInteger]).
    - The relational store is a pair of row lists; every statement of the
      migration that constrains a row is a check of the corresponding
      operation.  Texts of the [uuid], [date] and [time] columns are taken
      in the form the server writes them ([Pg.isUuid], [Pg.isDate],
      [Pg.isTime]); properties that depend on such a column say so. *)

From Stdlib Require Import ZArith NArith Bool Ascii String List Permutation Sorted.
From Stdlib Require Import DecimalString.
From stdpp Require Import gmap strings list fin_maps.
Import ListNotations.

Local Open Scope string_scope.
Local Open Scope Z_scope.

(** ** The JavaScript string operations the components call *)

Module Js.

Definition code (c : ascii) : N := N_of_ascii c.

(** WhiteSpace and LineTerminator code units below U+0100: TAB, LF, VT,
    FF, CR, SP and NBSP.  [trim] strips them and [\s] matches them. *)
Definition isWhiteSpace (c : ascii) : bool :=
  let n := code c in
  ((9 <=? n) && (n <=? 13) || (n =? 32) || (n =? 160))%N.

(** [\d] *)
Definition isDigit (c : ascii) : bool :=
  let n := code c in ((48 <=? n) && (n <=? 57))%N.

Fixpoint trimStart (s : string) : string :=
  match s with
  | EmptyString => EmptyString
  | String c s' => if isWhiteSpace c then trimStart s' else s
  end.

(** [trimEnd] keeps a character when it is not white space or when
    something survives after it. *)
Fixpoint trimEnd (s : string) : string :=
  match s with
  | EmptyString => EmptyString
  | String c s' =>
      match trimEnd s' with
      | EmptyString => if isWhiteSpace c then EmptyString else String c EmptyString
      | t => String c t
      end
  end.

Definition trim (s : string) : string := trimEnd (trimStart s).

(** Simple case mapping of one code unit below U+0100: A-Z, and the
    Latin-1 capitals U+00C0..U+00DE except the multiplication sign. *)
Definition lowerChar (c : ascii) : ascii :=
  let n := code c in
  if ((65 <=? n) && (n <=? 90) || (192 <=? n) && (n <=? 222) && negb (n =? 215))%N
  then ascii_of_N (n + 32) else c.

(** [toLowerCase] on the strings of this file, whose code units are
    all below U+0100: there the case mapping works one code unit at a
    time.  (Beyond that range it does not: a capital sigma is mapped by
    its position in the word.) *)
Fixpoint toLowerCase (s : string) : string :=
  match s with
  | EmptyString => EmptyString
  | String c s' => String (lowerChar c) (toLowerCase s')
  end.

(** [Number.isSafeInteger]: the integers a number holds exactly, which
    [JSON.stringify] writes in plain decimal. *)
Definition isSafeInteger (n : Z) : bool := (Z.abs n <=? 9007199254740991)%Z.

(** [startsWith s t]: [t] is a prefix of [s]. *)
Fixpoint startsWith (s t : string) : bool :=
  match t, s with
  | EmptyString, _ => true
  | String _ _, EmptyString => false
  | String b t', String a s' => if Ascii.eqb a b then startsWith s' t' else false
  end.

(** [s.includes(t)]: [t] occurs in [s] as a contiguous substring. *)
Fixpoint includes (s t : string) : bool :=
  startsWith s t ||
  match s with
  | EmptyString => false
  | String _ s' => includes s' t
  end.

(** The truthiness of a string: only the empty string is falsy. *)
Definition truthy (s : string) : bool :=
  match s with EmptyString => false | _ => true end.

(** [s || null] *)
Definition orNull (s : string) : option string :=
  if truthy s then Some s else None.

(** [s.split(sep)[0]] for a one-character separator: the text before
    its first occurrence, or all of [s]. *)
Fixpoint splitHead (sep : ascii) (s : string) : string :=
  match s with
  | EmptyString => EmptyString
  | String c s' => if Ascii.eqb c sep then EmptyString else String c (splitHead sep s')
  end.

(** *** Regular expressions

    The two patterns of the student form are anchored at both ends, so
    [test] is a whole-string match; it is computed with derivatives. *)
Inductive regex : Type :=
| Fail : regex
| Eps : regex
| Cls (p : ascii -> bool) : regex
| Cat (r1 r2 : regex) : regex
| Alt (r1 r2 : regex) : regex
| Star (r : regex) : regex.

Definition Plus (r : regex) : regex := Cat r (Star r).

Fixpoint Times (n : nat) (r : regex) : regex :=
  match n with
  | O => Eps
  | S n' => Cat r (Times n' r)
  end.

Definition Chr (c : ascii) : regex := Cls (Ascii.eqb c).

Fixpoint nullable (r : regex) : bool :=
  match r with
  | Fail => false
  | Eps => true
  | Cls _ => false
  | Cat r1 r2 => nullable r1 && nullable r2
  | Alt r1 r2 => nullable r1 || nullable r2
  | Star _ => true
  end.

Fixpoint deriv (c : ascii) (r : regex) : regex :=
  match r with
  | Fail => Fail
  | Eps => Fail
  | Cls p => if p c then Eps else Fail
  | Cat r1 r2 =>
      if nullable r1
      then Alt (Cat (deriv c r1) r2) (deriv c r2)
      else Cat (deriv c r1) r2
  | Alt r1 r2 => Alt (deriv c r1) (deriv c r2)
  | Star r' => Cat (deriv c r') (Star r')
  end.

(** [/^r$/.test(s)] *)
Fixpoint test (r : regex) (s : string) : bool :=
  match s with
  | EmptyString => nullable r
  | String c s' => test (deriv c r) s'
  end.

End Js.

(** Characters of the user-visible messages that are not ASCII. *)
Definition a_acute : ascii := "225"%char.
Definition i_acute : ascii := "237"%char.
Definition o_acute : ascii := "243"%char.

(** [chr c] is the one-character string. *)
Definition chr (c : ascii) : string := String c EmptyString.

(** ** lib/supabase.ts: the typed rows

    The interfaces [Student] and [Attendance] are the rows of the two
    tables of the migration.  Column types: uuid, text, date and time
    are strings (a date is the ISO calendar date YYYY-MM-DD), integer is
    [Z], timestamptz is an instant counted in microseconds; an optional
    member ([email?], [telefono?], ...) is a nullable column. *)

Module Student.
Record t : Type := mk {
  id : string;
  codigo : string;
  nombres : string;
  apellidos : string;
  dni : string;
  carrera : string;
  semestre : Z;
  email : option string;
  telefono : option string;
  activo : bool;
  created_at : Z;
  updated_at : Z
}.
End Student.

Module Attendance.
Record t : Type := mk {
  id : string;
  student_id : string;
  fecha : string;
  estado : string;
  hora_entrada : option string;
  curso : string;
  observaciones : option string;
  created_at : Z
}.
End Attendance.

(** [AttendanceWithStudent]: an attendance row with the embedded
    resource [students] (all its columns).  The gateway fills [students] with the row the foreign
    key points to, and with null when there is none. *)
Module AttendanceWithStudent.
Record t : Type := mk {
  row : Attendance.t;
  students : option Student.t
}.
End AttendanceWithStudent.

(** What a failed gateway call hands to the [catch] block.  A store
    error carries the SQLSTATE in [code]; any other thrown value has no
    [code]. *)
Module GatewayError.
Record t : Type := mk {
  code : option string;
  message : string
}.
End GatewayError.

(** [Object.keys(o)] of a record used as a map (only its length is read). *)
Definition keys (o : gmap string string) : list string := (map_to_list o).*1.

(** ** components/StudentForm.tsx *)

Module StudentForm.

Record formData : Type := mkFormData {
  codigo : string;
  nombres : string;
  apellidos : string;
  dni : string;
  carrera : string;
  semestre : Z;
  email : string;
  telefono : string;
  activo : bool
}.

(** The initial [useState] value. *)
Definition initialFormData : formData :=
  {| codigo := ""; nombres := ""; apellidos := ""; dni := ""; carrera := "";
     semestre := 1; email := ""; telefono := ""; activo := true |}.

(** The [useEffect] that pre-fills the form from the record being edited. *)
Definition prefill (student : option Student.t) (fd : formData) : formData :=
  match student with
  | Some s =>
      {| codigo := Student.codigo s;
         nombres := Student.nombres s;
         apellidos := Student.apellidos s;
         dni := Student.dni s;
         carrera := Student.carrera s;
         semestre := Student.semestre s;
         email := default "" (Student.email s);
         telefono := default "" (Student.telefono s);
         activo := Student.activo s |}
  | None => fd
  end.

(** [dataToSave]: the form data with [email] and [telefono] replaced. *)
Record dataToSave : Type := mkData {
  d_codigo : string;
  d_nombres : string;
  d_apellidos : string;
  d_dni : string;
  d_carrera : string;
  d_semestre : Z;
  d_email : option string;
  d_telefono : option string;
  d_activo : bool
}.

Inductive effect : Type :=
| PreventDefault
| SetErrors (errors : gmap string string)
| SetLoading (loading : bool)
| Update (data : dataToSave) (id : string)
| Insert (data : dataToSave)
| OnSave
| ConsoleError (err : GatewayError.t)
| Alert (msg : string).

(** [/^\d{8}$/] *)
Definition dni_re : Js.regex := Js.Times 8 (Js.Cls Js.isDigit).

(** [[^\s@]] *)
Definition notSpaceAt (c : ascii) : bool :=
  negb (Js.isWhiteSpace c || Ascii.eqb c "@").

(** [/^[^\s@]+@[^\s@]+\.[^\s@]+$/] *)
Definition email_re : Js.regex :=
  Js.Cat (Js.Plus (Js.Cls notSpaceAt))
    (Js.Cat (Js.Chr "@")
       (Js.Cat (Js.Plus (Js.Cls notSpaceAt))
          (Js.Cat (Js.Chr ".") (Js.Plus (Js.Cls notSpaceAt))))).

Definition msg_codigo : string := "El c" +:+ chr o_acute +:+ "digo es requerido".
Definition msg_nombres : string := "Los nombres son requeridos".
Definition msg_apellidos : string := "Los apellidos son requeridos".
Definition msg_dni_requerido : string := "El DNI es requerido".
Definition msg_dni_digitos : string := "El DNI debe tener 8 d" +:+ chr i_acute +:+ "gitos".
Definition msg_carrera : string := "La carrera es requerida".
Definition msg_semestre : string := "El semestre debe estar entre 1 y 6".
Definition msg_email : string := "Email inv" +:+ chr a_acute +:+ "lido".
Definition msg_codigo_dup : string :=
  "Este c" +:+ chr o_acute +:+ "digo ya est" +:+ chr a_acute +:+ " registrado".
Definition msg_dni_dup : string :=
  "Este DNI ya est" +:+ chr a_acute +:+ " registrado".
Definition msg_email_dup : string :=
  "Este email ya est" +:+ chr a_acute +:+ " registrado".
Definition msg_alert : string := "Error al guardar el estudiante".

(** The object [newErrors] that [validate] builds, one [if] after the
    other. *)
Definition newErrors (fd : formData) : gmap string string :=
  let e0 : gmap string string := ∅ in
  let e1 := if negb (Js.truthy (Js.trim (codigo fd)))
            then <["codigo" := msg_codigo]> e0 else e0 in
  let e2 := if negb (Js.truthy (Js.trim (nombres fd)))
            then <["nombres" := msg_nombres]> e1 else e1 in
  let e3 := if negb (Js.truthy (Js.trim (apellidos fd)))
            then <["apellidos" := msg_apellidos]> e2 else e2 in
  let e4 := if negb (Js.truthy (Js.trim (dni fd)))
            then <["dni" := msg_dni_requerido]> e3
            else if negb (Js.test dni_re (dni fd))
                 then <["dni" := msg_dni_digitos]> e3 else e3 in
  let e5 := if negb (Js.truthy (carrera fd))
            then <["carrera" := msg_carrera]> e4 else e4 in
  let e6 := if (semestre fd <? 1) || (semestre fd >? 6)
            then <["semestre" := msg_semestre]> e5 else e5 in
  let e7 := if Js.truthy (email fd) && negb (Js.test email_re (email fd))
            then <["email" := msg_email]> e6 else e6 in
  e7.

(** [validate]: publishes [newErrors] and answers whether it has no key. *)
Definition validate (fd : formData) : list effect * bool :=
  ([SetErrors (newErrors fd)], Nat.eqb (length (keys (newErrors fd))) 0).

Definition buildData (fd : formData) : dataToSave :=
  {| d_codigo := codigo fd;
     d_nombres := nombres fd;
     d_apellidos := apellidos fd;
     d_dni := dni fd;
     d_carrera := carrera fd;
     d_semestre := semestre fd;
     d_email := Js.orNull (email fd);
     d_telefono := Js.orNull (telefono fd);
     d_activo := activo fd |}.

(** The [catch] block. *)
Definition onError (err : GatewayError.t) : list effect :=
  ConsoleError err ::
  (if bool_decide (GatewayError.code err = Some "23505") then
     if Js.includes (GatewayError.message err) "codigo" then
       [SetErrors {[ "codigo" := msg_codigo_dup ]}]
     else if Js.includes (GatewayError.message err) "dni" then
       [SetErrors {[ "dni" := msg_dni_dup ]}]
     else if Js.includes (GatewayError.message err) "email" then
       [SetErrors {[ "email" := msg_email_dup ]}]
     else []
   else [Alert msg_alert]).

(** [handleSubmit].  [student] is the prop (the record being edited, if
    any), [fd] the current form data and [reply] the [error] member of
    what the awaited gateway call answers ([None] on success). *)
Definition handleSubmit (student : option Student.t) (fd : formData)
    (reply : option GatewayError.t) : list effect :=
  let '(published, ok) := validate fd in
  PreventDefault :: published ++
  if negb ok then []
  else
    SetLoading true ::
    (match student with
     | Some s => Update (buildData fd) (Student.id s)
     | None => Insert (buildData fd)
     end) ::
    (match reply with
     | None => [OnSave]
     | Some err => onError err
     end) ++
    [SetLoading false].

Definition isStoreCall (e : effect) : bool :=
  match e with
  | Update _ _ | Insert _ => true
  | _ => false
  end.


End StudentForm.

(** ** components/StudentList.tsx *)

Module StudentList.

(** The predicate of [students.filter(...)]. *)
Definition matchesSearch (searchTerm : string) (student : Student.t) : bool :=
  let search := Js.toLowerCase searchTerm in
  Js.includes (Js.toLowerCase (Student.nombres student)) search
  || Js.includes (Js.toLowerCase (Student.apellidos student)) search
  || Js.includes (Js.toLowerCase (Student.codigo student)) search
  || Js.includes (Student.dni student) search.

Definition filteredStudents (students : list Student.t) (searchTerm : string)
  : list Student.t :=
  List.filter (matchesSearch searchTerm) students.

Inductive effect : Type :=
| Confirm (nombre : string)
| Delete (id : string)
| LoadStudents
| ConsoleError (err : GatewayError.t)
| Alert (msg : string).

Definition msg_alert : string := "Error al eliminar el estudiante".

(** [handleDelete]: [confirmed] is the answer of the dialog, [reply] the
    [error] member of the answer of the delete call. *)
Definition handleDelete (id nombre : string) (confirmed : bool)
    (reply : option GatewayError.t) : list effect :=
  Confirm nombre ::
  if negb confirmed then []
  else
    Delete id ::
    match reply with
    | None => [LoadStudents]
    | Some err => [ConsoleError err; Alert msg_alert]
    end.

(** The state of the component. *)
Record state : Type := mkState {
  students : list Student.t;
  loading : bool;
  searchTerm : string
}.

Definition initialState : state :=
  {| students := []; loading := true; searchTerm := "" |}.

(** [loadStudents] after the query has been answered: the data on
    success, the error otherwise (which is only logged). *)
Definition loadStudents (answer : list Student.t + GatewayError.t) (s : state) : state :=
  match answer with
  | inl data => {| students := data; loading := false; searchTerm := searchTerm s |}
  | inr _ => {| students := students s; loading := false; searchTerm := searchTerm s |}
  end.

End StudentList.

(** ** [new Date().toISOString()]

    A [Date] is given by its UTC calendar fields.  The year takes four
    digits between 0 and 9999 and a sign with six digits outside. *)

Module JsDate.

Record t : Type := mk {
  year : Z;
  month : Z;
  day : Z;
  hours : Z;
  minutes : Z;
  seconds : Z;
  milliseconds : Z
}.

Definition digit (d : Z) : ascii := ascii_of_N (48 + Z.to_N d).

(** The [k] low decimal digits of [n], most significant first. *)
Fixpoint pad (k : nat) (n : Z) : string :=
  match k with
  | O => EmptyString
  | S k' => pad k' (n / 10) +:+ chr (digit (n mod 10))
  end.

Definition isoYear (y : Z) : string :=
  if (0 <=? y) && (y <=? 9999) then pad 4 y
  else (if y <? 0 then "-" else "+") +:+ pad 6 (Z.abs y).

(** YYYY-MM-DD *)
Definition isoDate (d : t) : string :=
  isoYear (year d) +:+ "-" +:+ pad 2 (month d) +:+ "-" +:+ pad 2 (day d).

Definition isoTime (d : t) : string :=
  pad 2 (hours d) +:+ ":" +:+ pad 2 (minutes d) +:+ ":" +:+ pad 2 (seconds d)
  +:+ "." +:+ pad 3 (milliseconds d) +:+ "Z".

Definition toISOString (d : t) : string := isoDate d +:+ "T" +:+ isoTime d.

(** The day number of a calendar date (days since 1 January 1970) and
    the calendar date of a day number, in the proleptic Gregorian
    calendar the language counts in. *)
Definition dayNumber (y m d : Z) : Z :=
  let y' := if m <=? 2 then y - 1 else y in
  let era := y' / 400 in
  let yoe := y' - era * 400 in
  let mp := (m + 9) mod 12 in
  let doy := (153 * mp + 2) / 5 + d - 1 in
  let doe := yoe * 365 + yoe / 4 - yoe / 100 + doy in
  era * 146097 + doe - 719468.

Definition dateOfDay (n : Z) : Z * Z * Z :=
  let z := n + 719468 in
  let era := z / 146097 in
  let doe := z - era * 146097 in
  let yoe := (doe - doe / 1460 + doe / 36524 - doe / 146096) / 365 in
  let doy := doe - (365 * yoe + yoe / 4 - yoe / 100) in
  let mp := (5 * doy + 2) / 153 in
  let m := if mp <? 10 then mp + 3 else mp - 9 in
  (if m <=? 2 then yoe + era * 400 + 1 else yoe + era * 400,
   m,
   doy - (153 * mp + 2) / 5 + 1).

(** The fields of the same instant on the clock of the user, which is
    [offset] minutes behind UTC: [offset] is what [getTimezoneOffset()]
    answers, 300 in Lima.  These are the fields [getFullYear()],
    [getMonth() + 1], [getDate()], [getHours()], ... read. *)
Definition toLocal (offset : Z) (d : t) : t :=
  let minute :=
    dayNumber (year d) (month d) (day d) * 1440 + hours d * 60 + minutes d - offset in
  let '(y, m, dd) := dateOfDay (minute / 1440) in
  {| year := y; month := m; day := dd;
     hours := (minute mod 1440) / 60; minutes := minute mod 60;
     seconds := seconds d; milliseconds := milliseconds d |}.

(** The calendar date on the clock of the user. *)
Definition localDate (offset : Z) (d : t) : string := isoDate (toLocal offset d).

End JsDate.

(** ** components/AttendanceForm.tsx *)

Module AttendanceForm.

Record formData : Type := mkFormData {
  student_id : string;
  fecha : string;
  estado : string;
  hora_entrada : string;
  curso : string;
  observaciones : string
}.

(** The state of the component; [students] is the loaded roster. *)
Record state : Type := mkState {
  students : list Student.t;
  searchTerm : string;
  showStudentList : bool;
  form : formData;
  selectedStudent : option Student.t;
  loading : bool;
  errors : gmap string string
}.

(** The initial [useState] values; [now] is [new Date()] at that time. *)
Definition initialFormData (now : JsDate.t) : formData :=
  {| student_id := "";
     fecha := Js.splitHead "T" (JsDate.toISOString now);
     estado := "presente";
     hora_entrada := "";
     curso := "";
     observaciones := "" |}.

Definition initialState (now : JsDate.t) : state :=
  {| students := [];
     searchTerm := "";
     showStudentList := false;
     form := initialFormData now;
     selectedStudent := None;
     loading := false;
     errors := ∅ |}.

(** The [useEffect] on [attendance], without its call of [loadStudents]. *)
Definition prefill (attendance : option AttendanceWithStudent.t) (st : state) : state :=
  match attendance with
  | Some a =>
      let r := AttendanceWithStudent.row a in
      {| students := students st;
         searchTerm := searchTerm st;
         showStudentList := showStudentList st;
         form := {| student_id := Attendance.student_id r;
                    fecha := Attendance.fecha r;
                    estado := Attendance.estado r;
                    hora_entrada := default "" (Attendance.hora_entrada r);
                    curso := Attendance.curso r;
                    observaciones := default "" (Attendance.observaciones r) |};
         selectedStudent := AttendanceWithStudent.students a;
         loading := loading st;
         errors := errors st |}
  | None => st
  end.

Definition matchesSearch (searchTerm : string) (student : Student.t) : bool :=
  let search := Js.toLowerCase searchTerm in
  Js.includes (Js.toLowerCase (Student.nombres student)) search
  || Js.includes (Js.toLowerCase (Student.apellidos student)) search
  || Js.includes (Js.toLowerCase (Student.codigo student)) search.

Definition filteredStudents (students : list Student.t) (searchTerm : string)
  : list Student.t :=
  List.filter (matchesSearch searchTerm) students.

(** [{ ...prev, [name]: value }] on the six members of the form data; a
    name that is none of them leaves all six as they are. *)
Definition setField (name value : string) (fd : formData) : formData :=
  {| student_id := if String.eqb name "student_id" then value else student_id fd;
     fecha := if String.eqb name "fecha" then value else fecha fd;
     estado := if String.eqb name "estado" then value else estado fd;
     hora_entrada := if String.eqb name "hora_entrada" then value else hora_entrada fd;
     curso := if String.eqb name "curso" then value else curso fd;
     observaciones := if String.eqb name "observaciones" then value else observaciones fd |}.

(** [if (errors[name]) setErrors(prev => ({ ...prev, [name]: '' }))] *)
Definition clearError (name : string) (errs : gmap string string)
  : gmap string string :=
  match errs !! name with
  | Some m => if Js.truthy m then <[name := ""]> errs else errs
  | None => errs
  end.

Definition withForm (fd : formData) (errs : gmap string string) (st : state) : state :=
  {| students := students st;
     searchTerm := searchTerm st;
     showStudentList := showStudentList st;
     form := fd;
     selectedStudent := selectedStudent st;
     loading := loading st;
     errors := errs |}.

Definition handleChange (name value : string) (st : state) : state :=
  withForm (setField name value (form st)) (clearError name (errors st)) st.

Definition selectStudent (student : Student.t) (st : state) : state :=
  {| students := students st;
     searchTerm := "";
     showStudentList := false;
     form := setField "student_id" (Student.id student) (form st);
     selectedStudent := Some student;
     loading := loading st;
     errors := clearError "student_id" (errors st) |}.

Record dataToSave : Type := mkData {
  d_student_id : string;
  d_fecha : string;
  d_estado : string;
  d_hora_entrada : option string;
  d_curso : string;
  d_observaciones : option string
}.

Inductive effect : Type :=
| PreventDefault
| SetErrors (errors : gmap string string)
| SetLoading (loading : bool)
| Update (data : dataToSave) (id : string)
| Insert (data : dataToSave)
| OnSave
| ConsoleError (err : GatewayError.t)
| Alert (msg : string).

Definition msg_student_id : string := "Debe seleccionar un estudiante".
Definition msg_fecha : string := "La fecha es requerida".
Definition msg_curso : string := "El curso es requerido".
Definition msg_alert : string := "Error al guardar el registro de asistencia".

Definition newErrors (fd : formData) : gmap string string :=
  let e0 : gmap string string := ∅ in
  let e1 := if negb (Js.truthy (student_id fd))
            then <["student_id" := msg_student_id]> e0 else e0 in
  let e2 := if negb (Js.truthy (fecha fd))
            then <["fecha" := msg_fecha]> e1 else e1 in
  let e3 := if negb (Js.truthy (Js.trim (curso fd)))
            then <["curso" := msg_curso]> e2 else e2 in
  e3.

Definition validate (fd : formData) : list effect * bool :=
  ([SetErrors (newErrors fd)], Nat.eqb (length (keys (newErrors fd))) 0).

Definition buildData (fd : formData) : dataToSave :=
  {| d_student_id := student_id fd;
     d_fecha := fecha fd;
     d_estado := estado fd;
     d_hora_entrada := Js.orNull (hora_entrada fd);
     d_curso := curso fd;
     d_observaciones := Js.orNull (observaciones fd) |}.

(** [handleSubmit]; the arguments are as in the student form. *)
Definition handleSubmit (attendance : option AttendanceWithStudent.t)
    (fd : formData) (reply : option GatewayError.t) : list effect :=
  let '(published, ok) := validate fd in
  PreventDefault :: published ++
  if negb ok then []
  else
    SetLoading true ::
    (match attendance with
     | Some a => Update (buildData fd) (Attendance.id (AttendanceWithStudent.row a))
     | None => Insert (buildData fd)
     end) ::
    (match reply with
     | None => [OnSave]
     | Some err => [ConsoleError err; Alert msg_alert]
     end) ++
    [SetLoading false].

Definition isStoreCall (e : effect) : bool :=
  match e with
  | Update _ _ | Insert _ => true
  | _ => false
  end.

End AttendanceForm.

(** ** A generic insertion sort

    It stands for [ORDER BY] in the store and for [Array.prototype.sort]
    in the client; [cmp x y = Gt] means that [x] goes after [y]. *)

Section Sorting.
Context {A : Type} (cmp : A -> A -> comparison).

Fixpoint insertSorted (x : A) (l : list A) : list A :=
  match l with
  | [] => [x]
  | y :: l' =>
      match cmp x y with
      | Gt => y :: insertSorted x l'
      | _ => x :: l
      end
  end.

Fixpoint sortBy (l : list A) : list A :=
  match l with
  | [] => []
  | x :: l' => insertSorted x (sortBy l')
  end.
End Sorting.

(** ** The column types of the store

    The store converts the texts and numbers it is sent to its column
    types before any constraint is looked at.  An [integer] holds 32 bits.
    For [uuid], [date] and [time] the predicates below describe the
    texts on which the store model of this file is exact: the canonical
    text of a uuid and of a date, which the server accepts and writes back
    unchanged, and the two forms of a time an [input type="time"] gives
    (of which the server writes back HH:MM:SS).  What the server answers
    to any other text of these three types (SQLSTATE 22P02, 22007, or a
    lenient reading) is not part of the model: a property that depends on
    such a column says so in a hypothesis. *)

Module Pg.

(** The range of [int4]. *)
Definition int4 (n : Z) : bool := (-2147483648 <=? n) && (n <=? 2147483647).

(** The decimal text of an integer. *)
Definition decimal (n : Z) : string := NilZero.string_of_int (Z.to_int n).

Definition isHex (c : ascii) : bool :=
  let n := Js.code c in
  Js.isDigit c || ((97 <=? n) && (n <=? 102))%N.

(** xxxxxxxx-xxxx-xxxx-xxxx-xxxxxxxxxxxx in lower-case hexadecimal. *)
Definition uuid_re : Js.regex :=
  Js.Cat (Js.Times 8 (Js.Cls isHex))
    (Js.Cat (Js.Chr "-")
       (Js.Cat (Js.Times 4 (Js.Cls isHex))
          (Js.Cat (Js.Chr "-")
             (Js.Cat (Js.Times 4 (Js.Cls isHex))
                (Js.Cat (Js.Chr "-")
                   (Js.Cat (Js.Times 4 (Js.Cls isHex))
                      (Js.Cat (Js.Chr "-") (Js.Times 12 (Js.Cls isHex))))))))).

Definition isUuid (s : string) : bool := Js.test uuid_re s.

(** The value of a string of decimal digits, and nothing for other text. *)
Fixpoint number (acc : Z) (s : string) : option Z :=
  match s with
  | EmptyString => Some acc
  | String c s' =>
      if Js.isDigit c
      then number (10 * acc + Z.of_N (Js.code c - 48)) s'
      else None
  end.

Definition isLeap (y : Z) : bool :=
  ((y mod 4 =? 0) && negb (y mod 100 =? 0)) || (y mod 400 =? 0).

Definition daysIn (y m : Z) : Z :=
  if m =? 2 then (if isLeap y then 29 else 28)
  else if (m =? 4) || (m =? 6) || (m =? 9) || (m =? 11) then 30
  else 31.

(** YYYY-MM-DD, a day of the calendar in the years 0001 to 9999. *)
Definition isDate (s : string) : bool :=
  match s with
  | String y1 (String y2 (String y3 (String y4 (String "-"
      (String m1 (String m2 (String "-" (String d1 (String d2 EmptyString))))))))) =>
      match number 0 (String y1 (String y2 (String y3 (String y4 EmptyString)))),
            number 0 (String m1 (String m2 EmptyString)),
            number 0 (String d1 (String d2 EmptyString)) with
      | Some y, Some m, Some d =>
          (1 <=? y) && (1 <=? m) && (m <=? 12) && (1 <=? d) && (d <=? daysIn y m)
      | _, _, _ => false
      end
  | _ => false
  end.

Definition twoDigitsBelow (bound : Z) (a b : ascii) : bool :=
  match number 0 (String a (String b EmptyString)) with
  | Some n => n <? bound
  | None => false
  end.

(** HH:MM or HH:MM:SS on the 24-hour clock. *)
Definition isTime (s : string) : bool :=
  match s with
  | String h1 (String h2 (String ":" (String m1 (String m2 rest)))) =>
      twoDigitsBelow 24 h1 h2 && twoDigitsBelow 60 m1 m2 &&
      match rest with
      | EmptyString => true
      | String ":" (String s1 (String s2 EmptyString)) => twoDigitsBelow 60 s1 s2
      | _ => false
      end
  | _ => false
  end.

End Pg.

(** ** supabase/migrations: the two tables and their constraints

    The tables are lists of rows in the order of insertion.  A mutation
    is answered as the server answers it whenever the keys it names, and
    the [uuid], [date] and [time] members of its payload, are written in
    the form of [Pg.isUuid], [Pg.isDate] and [Pg.isTime] - as the keys
    of loaded rows, the value of a date input and the value of a time
    input are.  A time is kept as it was sent (the server adds the
    seconds to HH:MM when it writes it back). *)

Module Store.

Record t : Type := mk {
  students : list Student.t;
  attendance : list Attendance.t
}.

(** The store right after the migration. *)
Definition empty : t := {| students := []; attendance := [] |}.

Definition dq : string := chr "034"%char.

(** SQLSTATE 23505, 23514 and 23503 with the message of the server,
    which quotes the name of the constraint. *)
Definition unique_violation (constraint : string) : GatewayError.t :=
  GatewayError.mk (Some "23505")
    ("duplicate key value violates unique constraint " +:+ dq +:+ constraint +:+ dq).

Definition check_violation (table constraint : string) : GatewayError.t :=
  GatewayError.mk (Some "23514")
    ("new row for relation " +:+ dq +:+ table +:+ dq
     +:+ " violates check constraint " +:+ dq +:+ constraint +:+ dq).

Definition foreign_key_violation (table constraint : string) : GatewayError.t :=
  GatewayError.mk (Some "23503")
    ("insert or update on table " +:+ dq +:+ table +:+ dq
     +:+ " violates foreign key constraint " +:+ dq +:+ constraint +:+ dq).

Definition optEqb (a b : option string) : bool :=
  match a, b with
  | Some x, Some y => String.eqb x y
  | _, _ => false
  end.

(** [CHECK (semestre >= 1 AND semestre <= 6)] *)
Definition semestre_check (n : Z) : bool := (1 <=? n) && (n <=? 6).

(** [CHECK (estado IN ('presente', 'ausente', 'tardanza', 'justificado'))] *)
Definition estado_check (e : string) : bool :=
  String.eqb e "presente" || String.eqb e "ausente"
  || String.eqb e "tardanza" || String.eqb e "justificado".

(** SQLSTATE 22003: a number that does not fit the [integer] column. *)
Definition out_of_range (n : Z) : GatewayError.t :=
  GatewayError.mk (Some "22003")
    ("value " +:+ dq +:+ Pg.decimal n +:+ dq +:+ " is out of range for type integer").

(** The checks on a student row that is about to be written, against
    the rows [others] it has to differ from: the conversion of the term
    to [integer], then the CHECK constraint, then the unique indexes in
    their order of creation. *)
Definition student_violation (others : list Student.t) (s : Student.t)
  : option GatewayError.t :=
  if negb (Pg.int4 (Student.semestre s)) then
    Some (out_of_range (Student.semestre s))
  else if negb (semestre_check (Student.semestre s)) then
    Some (check_violation "students" "students_semestre_check")
  else if existsb (fun o => String.eqb (Student.id o) (Student.id s)) others then
    Some (unique_violation "students_pkey")
  else if existsb (fun o => String.eqb (Student.codigo o) (Student.codigo s)) others then
    Some (unique_violation "students_codigo_key")
  else if existsb (fun o => String.eqb (Student.dni o) (Student.dni s)) others then
    Some (unique_violation "students_dni_key")
  else if existsb (fun o => optEqb (Student.email o) (Student.email s)) others then
    Some (unique_violation "students_email_key")
  else None.

Definition has_student (st : t) (id : string) : bool :=
  existsb (fun s => String.eqb (Student.id s) id) (students st).

(** The attendance payloads whose members convert to the types of their
    columns: [student_id uuid], [fecha date], [hora_entrada time]. *)
Definition typed (d : AttendanceForm.dataToSave) : bool :=
  Pg.isUuid (AttendanceForm.d_student_id d)
  && Pg.isDate (AttendanceForm.d_fecha d)
  && match AttendanceForm.d_hora_entrada d with
     | Some t => Pg.isTime t
     | None => true
     end.

(** The same for an attendance row; the foreign key is checked last. *)
Definition attendance_violation (st : t) (others : list Attendance.t)
    (a : Attendance.t) : option GatewayError.t :=
  if negb (estado_check (Attendance.estado a)) then
    Some (check_violation "attendance" "attendance_estado_check")
  else if existsb (fun o => String.eqb (Attendance.id o) (Attendance.id a)) others then
    Some (unique_violation "attendance_pkey")
  else if negb (has_student st (Attendance.student_id a)) then
    Some (foreign_key_violation "attendance" "attendance_student_id_fkey")
  else None.

(** [insert([data])] into [students]: [uuid] is the value of
    [gen_random_uuid()] and [now] the value of [now()]. *)
Definition new_student (uuid : string) (now : Z) (d : StudentForm.dataToSave)
  : Student.t :=
  {| Student.id := uuid;
     Student.codigo := StudentForm.d_codigo d;
     Student.nombres := StudentForm.d_nombres d;
     Student.apellidos := StudentForm.d_apellidos d;
     Student.dni := StudentForm.d_dni d;
     Student.carrera := StudentForm.d_carrera d;
     Student.semestre := StudentForm.d_semestre d;
     Student.email := StudentForm.d_email d;
     Student.telefono := StudentForm.d_telefono d;
     Student.activo := StudentForm.d_activo d;
     Student.created_at := now;
     Student.updated_at := now |}.

(** [update(data)] of one row; the trigger sets [updated_at]. *)
Definition set_student (now : Z) (d : StudentForm.dataToSave) (s : Student.t)
  : Student.t :=
  {| Student.id := Student.id s;
     Student.codigo := StudentForm.d_codigo d;
     Student.nombres := StudentForm.d_nombres d;
     Student.apellidos := StudentForm.d_apellidos d;
     Student.dni := StudentForm.d_dni d;
     Student.carrera := StudentForm.d_carrera d;
     Student.semestre := StudentForm.d_semestre d;
     Student.email := StudentForm.d_email d;
     Student.telefono := StudentForm.d_telefono d;
     Student.activo := StudentForm.d_activo d;
     Student.created_at := Student.created_at s;
     Student.updated_at := now |}.

(** [insert([data])] into [attendance].  The members are kept as the
    texts that were sent. *)
Definition new_attendance (uuid : string) (now : Z) (d : AttendanceForm.dataToSave)
  : Attendance.t :=
  {| Attendance.id := uuid;
     Attendance.student_id := AttendanceForm.d_student_id d;
     Attendance.fecha := AttendanceForm.d_fecha d;
     Attendance.estado := AttendanceForm.d_estado d;
     Attendance.hora_entrada := AttendanceForm.d_hora_entrada d;
     Attendance.curso := AttendanceForm.d_curso d;
     Attendance.observaciones := AttendanceForm.d_observaciones d;
     Attendance.created_at := now |}.

(** [update(data)] of one attendance row, likewise. *)
Definition set_attendance (d : AttendanceForm.dataToSave) (a : Attendance.t)
  : Attendance.t :=
  {| Attendance.id := Attendance.id a;
     Attendance.student_id := AttendanceForm.d_student_id d;
     Attendance.fecha := AttendanceForm.d_fecha d;
     Attendance.estado := AttendanceForm.d_estado d;
     Attendance.hora_entrada := AttendanceForm.d_hora_entrada d;
     Attendance.curso := AttendanceForm.d_curso d;
     Attendance.observaciones := AttendanceForm.d_observaciones d;
     Attendance.created_at := Attendance.created_at a |}.

(** The mutations the components issue through the gateway. *)
Inductive request : Type :=
| InsertStudent (data : StudentForm.dataToSave)
| UpdateStudent (data : StudentForm.dataToSave) (id : string)
| DeleteStudent (id : string)
| InsertAttendance (data : AttendanceForm.dataToSave)
| UpdateAttendance (data : AttendanceForm.dataToSave) (id : string)
| DeleteAttendance (id : string).

Definition is_id (id : string) (s : Student.t) : bool := String.eqb (Student.id s) id.
Definition not_id (id : string) (s : Student.t) : bool := negb (is_id id s).
Definition a_is_id (id : string) (a : Attendance.t) : bool :=
  String.eqb (Attendance.id a) id.
Definition a_not_id (id : string) (a : Attendance.t) : bool := negb (a_is_id id a).

(** [ON DELETE CASCADE]: the rows that do not reference [id] stay. *)
Definition not_owned_by (id : string) (a : Attendance.t) : bool :=
  negb (String.eqb (Attendance.student_id a) id).

(** First violation among the rewritten rows, if any. *)
Definition first_violation {A : Type} (check : A -> option GatewayError.t)
    (rows : list A) : option GatewayError.t :=
  List.fold_right (fun r acc => match check r with Some e => Some e | None => acc end)
    None rows.

(** One mutation.  A statement that violates a constraint changes
    nothing and answers the error.  [id] is the text of a uuid: an update
    or a delete by a key no row has matches nothing and answers no error. *)
Definition exec (uuid : string) (now : Z) (req : request) (st : t)
  : t * option GatewayError.t :=
  match req with
  | InsertStudent d =>
      let s := new_student uuid now d in
      match student_violation (students st) s with
      | Some e => (st, Some e)
      | None => ({| students := students st ++ [s]; attendance := attendance st |}, None)
      end
  | UpdateStudent d id =>
      let others := List.filter (not_id id) (students st) in
      let rewritten := List.map (set_student now d) (List.filter (is_id id) (students st)) in
      match first_violation (student_violation others) rewritten with
      | Some e => (st, Some e)
      | None =>
          ({| students := List.map (fun s => if is_id id s then set_student now d s else s)
                            (students st);
              attendance := attendance st |}, None)
      end
  | DeleteStudent id =>
      ({| students := List.filter (not_id id) (students st);
          attendance := List.filter (not_owned_by id) (attendance st) |}, None)
  | InsertAttendance d =>
      let a := new_attendance uuid now d in
      match attendance_violation st (attendance st) a with
      | Some e => (st, Some e)
      | None => ({| students := students st; attendance := attendance st ++ [a] |}, None)
      end
  | UpdateAttendance d id =>
      let others := List.filter (a_not_id id) (attendance st) in
      let rewritten := List.map (set_attendance d) (List.filter (a_is_id id) (attendance st)) in
      match first_violation (attendance_violation st others) rewritten with
      | Some e => (st, Some e)
      | None =>
          ({| students := students st;
              attendance := List.map (fun a => if a_is_id id a then set_attendance d a else a)
                              (attendance st) |}, None)
      end
  | DeleteAttendance id =>
      ({| students := students st;
          attendance := List.filter (a_not_id id) (attendance st) |}, None)
  end.

(** The states the store can be in: the empty tables followed by any
    mutations, whatever the generated keys and the clock. *)
Inductive reachable : t -> Prop :=
| reachable_empty : reachable empty
| reachable_exec uuid now req st :
    reachable st -> reachable (fst (exec uuid now req st)).

(** [REFERENCES students(id)]: every attendance row has its student. *)
Definition referential_integrity (st : t) : Prop :=
  ∀ a, In a (attendance st) →
       ∃ s, In s (students st) ∧ Student.id s = Attendance.student_id a.

End Store.

(** ** The query builder of the gateway, on the attendance table *)

Module Query.

(** The columns [loadAttendances] names. *)
Inductive column : Type := fecha | curso | created_at.

Inductive value : Type :=
| Text (s : string)
| Instant (z : Z).

Definition get (c : column) (a : Attendance.t) : value :=
  match c with
  | fecha => Text (Attendance.fecha a)
  | curso => Text (Attendance.curso a)
  | created_at => Instant (Attendance.created_at a)
  end.

Definition value_eqb (v w : value) : bool :=
  match v, w with
  | Text s, Text u => String.eqb s u
  | Instant x, Instant y => Z.eqb x y
  | _, _ => false
  end.

Definition value_compare (v w : value) : comparison :=
  match v, w with
  | Text s, Text u => String.compare s u
  | Instant x, Instant y => Z.compare x y
  | _, _ => Eq
  end.

(** [from('attendance').select('*, students(...)')] followed by any
    number of [order] and [eq] calls. *)
Record t : Type := mk {
  orders : list (column * bool);
  filters : list (column * string)
}.

Definition select : t := {| orders := []; filters := [] |}.

(** [.order(c, { ascending })]: a further, less significant sort key. *)
Definition order (c : column) (ascending : bool) (q : t) : t :=
  {| orders := orders q ++ [(c, ascending)]; filters := filters q |}.

(** [.eq(c, v)] *)
Definition eq (c : column) (v : string) (q : t) : t :=
  {| orders := orders q; filters := filters q ++ [(c, v)] |}.

Fixpoint row_compare (os : list (column * bool)) (a b : Attendance.t) : comparison :=
  match os with
  | [] => Eq
  | (c, ascending) :: os' =>
      let r := value_compare (get c a) (get c b) in
      match (if ascending then r else CompOpp r) with
      | Eq => row_compare os' a b
      | r' => r'
      end
  end.

Definition matches (fs : list (column * string)) (a : Attendance.t) : bool :=
  forallb (fun f => value_eqb (get (fst f) a) (Text (snd f))) fs.

(** The embedded [students] resource of one row. *)
Definition embed (st : Store.t) (a : Attendance.t) : AttendanceWithStudent.t :=
  {| AttendanceWithStudent.row := a;
     AttendanceWithStudent.students :=
       List.find (Store.is_id (Attendance.student_id a)) (Store.students st) |}.

(** [await query] *)
Definition run (st : Store.t) (q : t) : list AttendanceWithStudent.t :=
  List.map (embed st)
    (sortBy (row_compare (orders q)) (List.filter (matches (filters q)) (Store.attendance st))).

End Query.

(** ** components/AttendanceList.tsx *)

Module AttendanceList.

Record state : Type := mkState {
  attendances : list AttendanceWithStudent.t;
  loading : bool;
  filterDate : string;
  filterCurso : string;
  cursos : list string
}.

Definition initialState (now : JsDate.t) : state :=
  {| attendances := [];
     loading := true;
     filterDate := Js.splitHead "T" (JsDate.toISOString now);
     filterCurso := "";
     cursos := [] |}.

(** The query [loadAttendances] builds. *)
Definition query (filterDate filterCurso : string) : Query.t :=
  let q0 := Query.order Query.created_at false
              (Query.order Query.fecha false Query.select) in
  let q1 := if Js.truthy filterDate then Query.eq Query.fecha filterDate q0 else q0 in
  let q2 := if Js.truthy filterCurso then Query.eq Query.curso filterCurso q1 else q1 in
  q2.

(** [[...new Set(xs)]]: the distinct elements, each at its first
    occurrence. *)
Fixpoint setOf (xs : list string) : list string :=
  match xs with
  | [] => []
  | x :: xs' => x :: List.filter (fun y => negb (String.eqb y x)) (setOf xs')
  end.

(** [[...new Set(data.map(a => a.curso))].sort()] *)
Definition uniqueCursos (data : list AttendanceWithStudent.t) : list string :=
  sortBy String.compare
    (setOf (List.map (fun a => Attendance.curso (AttendanceWithStudent.row a)) data)).

(** [loadAttendances] after the query has been answered: [answer] is
    the data on success and the error otherwise (which is only logged;
    the lists stay as they were). *)
Definition loadAttendances (answer : list AttendanceWithStudent.t + GatewayError.t)
    (s : state) : state :=
  match answer with
  | inl data =>
      {| attendances := data;
         loading := false;
         filterDate := filterDate s;
         filterCurso := filterCurso s;
         cursos := uniqueCursos data |}
  | inr _ =>
      {| attendances := attendances s;
         loading := false;
         filterDate := filterDate s;
         filterCurso := filterCurso s;
         cursos := cursos s |}
  end.

(** [loadAttendances] against a store that answers. *)
Definition load (st : Store.t) (s : state) : state :=
  loadAttendances (inl (Query.run st (query (filterDate s) (filterCurso s)))) s.

(** The values of the [option] elements of the course filter, after
    the fixed first one. *)
Definition courseOptions (s : state) : list string := cursos s.

Inductive effect : Type :=
| Confirm (studentName : string)
| Delete (id : string)
| LoadAttendances
| ConsoleError (err : GatewayError.t)
| Alert (msg : string).

Definition msg_alert : string := "Error al eliminar el registro".

(** [handleDelete]: [confirmed] is the answer of the dialog, [reply] the
    [error] member of the answer of the delete call. *)
Definition handleDelete (id studentName : string) (confirmed : bool)
    (reply : option GatewayError.t) : list effect :=
  Confirm studentName ::
  if negb confirmed then []
  else
    Delete id ::
    match reply with
    | None => [LoadAttendances]
    | Some err => [ConsoleError err; Alert msg_alert]
    end.

End AttendanceList.

(** ** The forms run against the store *)

Module App.

Definition studentRequest (student : option Student.t) (fd : StudentForm.formData)
  : option Store.request :=
  if snd (StudentForm.validate fd) then
    Some (match student with
          | Some s => Store.UpdateStudent (StudentForm.buildData fd) (Student.id s)
          | None => Store.InsertStudent (StudentForm.buildData fd)
          end)
  else None.

Definition attendanceRequest (attendance : option AttendanceWithStudent.t)
    (fd : AttendanceForm.formData) : option Store.request :=
  if snd (AttendanceForm.validate fd) then
    Some (match attendance with
          | Some a => Store.UpdateAttendance (AttendanceForm.buildData fd)
                        (Attendance.id (AttendanceWithStudent.row a))
          | None => Store.InsertAttendance (AttendanceForm.buildData fd)
          end)
  else None.

(** Submitting the student form: the store after it and the effects. *)
Definition submitStudent (uuid : string) (now : Z) (student : option Student.t)
    (fd : StudentForm.formData) (st : Store.t)
  : Store.t * list StudentForm.effect :=
  match studentRequest student fd with
  | Some req =>
      let '(st', reply) := Store.exec uuid now req st in
      (st', StudentForm.handleSubmit student fd reply)
  | None => (st, StudentForm.handleSubmit student fd None)
  end.

Definition submitAttendance (uuid : string) (now : Z)
    (attendance : option AttendanceWithStudent.t)
    (fd : AttendanceForm.formData) (st : Store.t)
  : Store.t * list AttendanceForm.effect :=
  match attendanceRequest attendance fd with
  | Some req =>
      let '(st', reply) := Store.exec uuid now req st in
      (st', AttendanceForm.handleSubmit attendance fd reply)
  | None => (st, AttendanceForm.handleSubmit attendance fd None)
  end.

(** Deleting from the student list, once confirmed. *)
Definition deleteStudent (id : string) (st : Store.t) : Store.t :=
  fst (Store.exec "" 0 (Store.DeleteStudent id) st).

(** What happens to an open attendance form before it is submitted:
    an input changes, a student of the list is picked, the search box is
    typed in or focused, the selection is dropped ("Cambiar"), the
    roster arrives. *)
Inductive action : Type :=
| Change (name value : string)
| Select (student : Student.t)
| Search (term : string)
| Focus
| Cambiar
| Roster (students : list Student.t).

Definition act (a : action) (s : AttendanceForm.state) : AttendanceForm.state :=
  match a with
  | Change name value => AttendanceForm.handleChange name value s
  | Select student => AttendanceForm.selectStudent student s
  | Search term =>
      {| AttendanceForm.students := AttendanceForm.students s;
         AttendanceForm.searchTerm := term;
         AttendanceForm.showStudentList := true;
         AttendanceForm.form := AttendanceForm.form s;
         AttendanceForm.selectedStudent := AttendanceForm.selectedStudent s;
         AttendanceForm.loading := AttendanceForm.loading s;
         AttendanceForm.errors := AttendanceForm.errors s |}
  | Focus =>
      {| AttendanceForm.students := AttendanceForm.students s;
         AttendanceForm.searchTerm := AttendanceForm.searchTerm s;
         AttendanceForm.showStudentList := true;
         AttendanceForm.form := AttendanceForm.form s;
         AttendanceForm.selectedStudent := AttendanceForm.selectedStudent s;
         AttendanceForm.loading := AttendanceForm.loading s;
         AttendanceForm.errors := AttendanceForm.errors s |}
  | Cambiar =>
      {| AttendanceForm.students := AttendanceForm.students s;
         AttendanceForm.searchTerm := AttendanceForm.searchTerm s;
         AttendanceForm.showStudentList := AttendanceForm.showStudentList s;
         AttendanceForm.form :=
           AttendanceForm.setField "student_id" "" (AttendanceForm.form s);
         AttendanceForm.selectedStudent := None;
         AttendanceForm.loading := AttendanceForm.loading s;
         AttendanceForm.errors := AttendanceForm.errors s |}
  | Roster students =>
      {| AttendanceForm.students := students;
         AttendanceForm.searchTerm := AttendanceForm.searchTerm s;
         AttendanceForm.showStudentList := AttendanceForm.showStudentList s;
         AttendanceForm.form := AttendanceForm.form s;
         AttendanceForm.selectedStudent := AttendanceForm.selectedStudent s;
         AttendanceForm.loading := AttendanceForm.loading s;
         AttendanceForm.errors := AttendanceForm.errors s |}
  end.

Definition changes (field : string) (a : action) : bool :=
  match a with
  | Change name _ => String.eqb name field
  | _ => false
  end.

Definition acts (l : list action) (s : AttendanceForm.state) : AttendanceForm.state :=
  List.fold_left (fun s a => act a s) l s.


End App.

(** ** The two queries on the students table

    [ORDER BY apellidos] follows the collation of the database, which the
    migration does not fix: [collate] is its comparison of two texts. *)

Module StudentQuery.

Definition byApellidos (collate : string -> string -> comparison)
    (a b : Student.t) : comparison :=
  collate (Student.apellidos a) (Student.apellidos b).

(** StudentList: [select('*').order('apellidos', { ascending: true })] *)
Definition all (collate : string -> string -> comparison) (st : Store.t)
  : list Student.t :=
  sortBy (byApellidos collate) (Store.students st).

(** AttendanceForm: the same with [.eq('activo', true)]. *)
Definition active (collate : string -> string -> comparison) (st : Store.t)
  : list Student.t :=
  sortBy (byApellidos collate) (List.filter Student.activo (Store.students st)).

End StudentQuery.

(** ** App.tsx: the view state and its handlers *)

Module Shell.

Inductive View : Type := students | attendance.

Record state : Type := mkState {
  currentView : View;
  showStudentForm : bool;
  showAttendanceForm : bool;
  editingStudent : option Student.t;
  editingAttendance : option AttendanceWithStudent.t;
  refreshStudents : Z;
  refreshAttendance : Z
}.

Definition initialState : state :=
  {| currentView := students;
     showStudentForm := false;
     showAttendanceForm := false;
     editingStudent := None;
     editingAttendance := None;
     refreshStudents := 0;
     refreshAttendance := 0 |}.

Definition setCurrentView (v : View) (s : state) : state :=
  {| currentView := v;
     showStudentForm := showStudentForm s;
     showAttendanceForm := showAttendanceForm s;
     editingStudent := editingStudent s;
     editingAttendance := editingAttendance s;
     refreshStudents := refreshStudents s;
     refreshAttendance := refreshAttendance s |}.

(** The three setters of the student form at once. *)
Definition withStudentForm (show : bool) (editing : option Student.t) (refresh : Z)
    (s : state) : state :=
  {| currentView := currentView s;
     showStudentForm := show;
     showAttendanceForm := showAttendanceForm s;
     editingStudent := editing;
     editingAttendance := editingAttendance s;
     refreshStudents := refresh;
     refreshAttendance := refreshAttendance s |}.

Definition withAttendanceForm (show : bool) (editing : option AttendanceWithStudent.t)
    (refresh : Z) (s : state) : state :=
  {| currentView := currentView s;
     showStudentForm := showStudentForm s;
     showAttendanceForm := show;
     editingStudent := editingStudent s;
     editingAttendance := editing;
     refreshStudents := refreshStudents s;
     refreshAttendance := refresh |}.

Definition handleAddStudent (s : state) : state :=
  withStudentForm true None (refreshStudents s) s.

Definition handleEditStudent (student : Student.t) (s : state) : state :=
  withStudentForm true (Some student) (refreshStudents s) s.

Definition handleCloseStudentForm (s : state) : state :=
  withStudentForm false None (refreshStudents s) s.

Definition handleSaveStudent (s : state) : state :=
  withStudentForm false None (refreshStudents s + 1) s.

Definition handleAddAttendance (s : state) : state :=
  withAttendanceForm true None (refreshAttendance s) s.

Definition handleEditAttendance (a : AttendanceWithStudent.t) (s : state) : state :=
  withAttendanceForm true (Some a) (refreshAttendance s) s.

Definition handleCloseAttendanceForm (s : state) : state :=
  withAttendanceForm false None (refreshAttendance s) s.

Definition handleSaveAttendance (s : state) : state :=
  withAttendanceForm false None (refreshAttendance s + 1) s.

(** What can happen to the shell: a tab is clicked, a list asks for a
    form, a form closes or reports a save. *)
Inductive event : Type :=
| Tab (v : View)
| AddStudent
| EditStudent (student : Student.t)
| CloseStudentForm
| SaveStudent
| AddAttendance
| EditAttendance (a : AttendanceWithStudent.t)
| CloseAttendanceForm
| SaveAttendance.

Definition handle (e : event) (s : state) : state :=
  match e with
  | Tab v => setCurrentView v s
  | AddStudent => handleAddStudent s
  | EditStudent student => handleEditStudent student s
  | CloseStudentForm => handleCloseStudentForm s
  | SaveStudent => handleSaveStudent s
  | AddAttendance => handleAddAttendance s
  | EditAttendance a => handleEditAttendance a s
  | CloseAttendanceForm => handleCloseAttendanceForm s
  | SaveAttendance => handleSaveAttendance s
  end.

Definition run (events : list event) (s : state) : state :=
  List.fold_left (fun s e => handle e s) events s.

Definition isSaveStudent (e : event) : bool :=
  match e with SaveStudent => true | _ => false end.

Definition isSaveAttendance (e : event) : bool :=
  match e with SaveAttendance => true | _ => false end.

End Shell.

(** ** What the constraints of the migration say of a table *)

Module Integrity.

(** Two student rows that may stand in the table together: the primary
    key and the three unique columns differ (a null email excepted). *)
Definition compatible (a b : Student.t) : Prop :=
  Student.id a <> Student.id b
  /\ Student.codigo a <> Student.codigo b
  /\ Student.dni a <> Student.dni b
  /\ (forall e, Student.email a = Some e -> Student.email b <> Some e).

(** [students]: any two rows are compatible and every term is in 1..6. *)
Definition students_ok (st : Store.t) : Prop :=
  ForallOrdPairs compatible (Store.students st)
  /\ Forall (fun s => 1 <= Student.semestre s <= 6) (Store.students st).

Definition validEstado (e : string) : Prop :=
  e = "presente" \/ e = "ausente" \/ e = "tardanza" \/ e = "justificado".

(** [attendance]: the keys differ and every status is one of the four. *)
Definition attendance_ok (st : Store.t) : Prop :=
  ForallOrdPairs (fun a b => Attendance.id a <> Attendance.id b) (Store.attendance st)
  /\ Forall (fun a => validEstado (Attendance.estado a)) (Store.attendance st).

(** An optional text as the forms store it: empty is null. *)
Definition nullIfEmpty (o : option string) : option string :=
  match o with
  | Some EmptyString => None
  | _ => o
  end.

End Integrity.

(** ** The vocabulary of the specification *)

Module Spec.

Fixpoint allChars (p : ascii -> bool) (s : string) : bool :=
  match s with
  | EmptyString => true
  | String c s' => p c && allChars p s'
  end.

(** Empty, or nothing but white space. *)
Definition blank (s : string) : Prop := allChars Js.isWhiteSpace s = true.

(** Exactly eight decimal digits. *)
Definition eightDigits (s : string) : Prop :=
  String.length s = 8%nat ∧ allChars Js.isDigit s = true.

(** [t] occurs in [s]. *)
Definition substring (t s : string) : Prop :=
  ∃ before after, s = before +:+ t +:+ after.

(** [t] occurs in [s] when the case of letters is ignored. *)
Definition ciSubstring (t s : string) : Prop :=
  substring (Js.toLowerCase t) (Js.toLowerCase s).

End Spec.

(** ** The rules of the student form *)

Module StudentRules.
Import StudentForm.

(** The field rules of the student form as the specification lists
    them.  [empty] is the reading of "empty" for the three required
    texts. *)
Inductive violates (empty : string → Prop) (fd : formData) : string → Prop :=
| v_codigo : empty (codigo fd) → violates empty fd "codigo"
| v_nombres : empty (nombres fd) → violates empty fd "nombres"
| v_apellidos : empty (apellidos fd) → violates empty fd "apellidos"
| v_dni : ¬ Spec.eightDigits (dni fd) → violates empty fd "dni"
| v_carrera : carrera fd = EmptyString → violates empty fd "carrera"
| v_semestre : semestre fd < 1 ∨ semestre fd > 6 → violates empty fd "semestre"
| v_email :
    email fd ≠ EmptyString → Js.test email_re (email fd) = false →
    violates empty fd "email".

Definition isEmpty (s : string) : Prop := s = EmptyString.

(** The gateway call of a submission that passes validation. *)
Definition call (student : option Student.t) (fd : formData) : effect :=
  match student with
  | Some s => Update (buildData fd) (Student.id s)
  | None => Insert (buildData fd)
  end.

End StudentRules.

(** ** The search of the student list, in the words of the specification *)

Module SearchRules.

(** The term is a case-insensitive substring of the given names, of the
    family names or of the code. *)
Definition inNamesOrCode (term : string) (s : Student.t) : Prop :=
  Spec.ciSubstring term (Student.nombres s)
  ∨ Spec.ciSubstring term (Student.apellidos s)
  ∨ Spec.ciSubstring term (Student.codigo s).

(** The lowercased term occurs in the national ID as it is written. *)
Definition inDni (term : string) (s : Student.t) : Prop :=
  Spec.substring (Js.toLowerCase term) (Student.dni s).

(** [filtered] keeps the elements of [students] that satisfy [keep], in
    their order and as often as they occur. *)
Fixpoint keepsExactly (keep : Student.t → Prop) (students filtered : list Student.t)
  : Prop :=
  match students with
  | [] => filtered = []
  | s :: rest =>
      (keep s ∧ ∃ filtered', filtered = s :: filtered' ∧ keepsExactly keep rest filtered')
      ∨ (¬ keep s ∧ keepsExactly keep rest filtered)
  end.

End SearchRules.

(** ** The order of the attendance list, in the words of the specification *)

Module ListRules.

(** ISO calendar dates compare as their texts do. *)
Definition dateBefore (x y : string) : Prop := String.compare x y = Lt.

(** [a] may precede [b] when the list is ordered by date descending and
    then by creation time descending. *)
Definition newestFirst (a b : Attendance.t) : Prop :=
  dateBefore (Attendance.fecha b) (Attendance.fecha a)
  ∨ (Attendance.fecha a = Attendance.fecha b
     ∧ Attendance.created_at b <= Attendance.created_at a).

(** Strictly ascending in the order of [Array.prototype.sort]. *)
Definition ascending (x y : string) : Prop := String.compare x y = Lt.

(** The course names that occur in a list of rows. *)
Definition courseOf (r : AttendanceWithStudent.t) : string :=
  Attendance.curso (AttendanceWithStudent.row r).

End ListRules.

(** ** Further notions the properties are stated with *)

(** [x] does not go after [y] in the order of [cmp]. *)
Definition notAfter {A : Type} (cmp : A → A → comparison) (x y : A) : Prop :=
  cmp x y ≠ Gt.

(** Any character but the separator of date and time. *)
Definition notT (c : ascii) : bool := negb (Ascii.eqb c "T").

(** The gateway call of an attendance submission that passes validation. *)
Definition attendanceCall (attendance : option AttendanceWithStudent.t)
    (fd : AttendanceForm.formData) : AttendanceForm.effect :=
  match attendance with
  | Some a =>
      AttendanceForm.Update (AttendanceForm.buildData fd)
        (Attendance.id (AttendanceWithStudent.row a))
  | None => AttendanceForm.Insert (AttendanceForm.buildData fd)
  end.

(** Empty becomes null, anything else is kept. *)
Definition normalized (field : string) (stored : option string) : Prop :=
  (field = EmptyString → stored = None)
  ∧ (field ≠ EmptyString → stored = Some field)
  ∧ stored ≠ Some EmptyString.

(** Empty is absent and nothing else is: what can be said of a column
    that may write the text back in another form, as [time] does. *)
Definition absentIffEmpty (field : string) (stored : option string) : Prop :=
  (field = EmptyString ↔ stored = None) ∧ stored ≠ Some EmptyString.

(** A history of mutations, each with the key and the time the server
    generates for it, replayed from a state of the store. *)
Definition replay (history : list (string * Z * Store.request)) (st : Store.t)
  : Store.t :=
  List.fold_left (fun st step => fst (Store.exec (fst (fst step)) (snd (fst step))
                                        (snd step) st))
    history st.

(** An action that changes neither the status nor the date. *)
Definition untouched (a : App.action) : Prop :=
  App.changes "estado" a = false ∧ App.changes "fecha" a = false.

(** The row has this date and this course. *)
Definition matchesBoth (filterDate filterCurso : string) (a : Attendance.t) : bool :=
  String.eqb (Attendance.fecha a) filterDate && String.eqb (Attendance.curso a) filterCurso.

(** The member of the attendance form data called [name], if there is one. *)
Definition getField (name : string) (fd : AttendanceForm.formData) : option string :=
  if String.eqb name "student_id" then Some (AttendanceForm.student_id fd)
  else if String.eqb name "fecha" then Some (AttendanceForm.fecha fd)
  else if String.eqb name "estado" then Some (AttendanceForm.estado fd)
  else if String.eqb name "hora_entrada" then Some (AttendanceForm.hora_entrada fd)
  else if String.eqb name "curso" then Some (AttendanceForm.curso fd)
  else if String.eqb name "observaciones" then Some (AttendanceForm.observaciones fd)
  else None.

(** A message the form shows: a present entry that is not empty. *)
Definition shown (errors : gmap string string) (name : string) : Prop :=
  exists m, errors !! name = Some m /\ m <> EmptyString.

(** ** Sample data *)

Module Sample.

(** The student of the scenario of the specification. *)
Definition juan : StudentForm.formData :=
  {| StudentForm.codigo := "SEN001";
     StudentForm.nombres := "Juan";
     StudentForm.apellidos := "Perez";
     StudentForm.dni := "12345678";
     StudentForm.carrera := "Computaci" +:+ chr o_acute +:+ "n e Inform" +:+ chr a_acute +:+ "tica";
     StudentForm.semestre := 3;
     StudentForm.email := "";
     StudentForm.telefono := "";
     StudentForm.activo := true |}.

(** The same with a single space as code. *)
Definition juan_blank_codigo : StudentForm.formData :=
  {| StudentForm.codigo := " ";
     StudentForm.nombres := "Juan";
     StudentForm.apellidos := "Perez";
     StudentForm.dni := "12345678";
     StudentForm.carrera := StudentForm.carrera juan;
     StudentForm.semestre := 3;
     StudentForm.email := "";
     StudentForm.telefono := "";
     StudentForm.activo := true |}.

(** The same with a national ID of seven digits. *)
Definition juan_short_dni : StudentForm.formData :=
  {| StudentForm.codigo := "SEN001";
     StudentForm.nombres := "Juan";
     StudentForm.apellidos := "Perez";
     StudentForm.dni := "1234567";
     StudentForm.carrera := StudentForm.carrera juan;
     StudentForm.semestre := 3;
     StudentForm.email := "";
     StudentForm.telefono := "";
     StudentForm.activo := true |}.

(** A loaded student row. *)
Definition ana : Student.t :=
  {| Student.id := "7f9c2e4a-0001";
     Student.codigo := "SEN002";
     Student.nombres := "Ana";
     Student.apellidos := "Ruiz";
     Student.dni := "87654321";
     Student.carrera := "Contabilidad";
     Student.semestre := 2;
     Student.email := None;
     Student.telefono := None;
     Student.activo := true;
     Student.created_at := 1000;
     Student.updated_at := 1000 |}.

(** A clock reading, late in the evening of 15 January 2025 (UTC). *)
Definition evening : JsDate.t :=
  {| JsDate.year := 2025; JsDate.month := 1; JsDate.day := 15;
     JsDate.hours := 23; JsDate.minutes := 5; JsDate.seconds := 9;
     JsDate.milliseconds := 7 |}.

Definition row (id fecha curso : string) (created_at : Z) : Attendance.t :=
  {| Attendance.id := id;
     Attendance.student_id := Student.id ana;
     Attendance.fecha := fecha;
     Attendance.estado := "presente";
     Attendance.hora_entrada := None;
     Attendance.curso := curso;
     Attendance.observaciones := None;
     Attendance.created_at := created_at |}.

Definition mate : string := "Matem" +:+ chr a_acute +:+ "ticas I".

(** Ana attended two courses on 15 January and one on the 16th. *)
Definition january : Store.t :=
  {| Store.students := [ana];
     Store.attendance :=
       [ row "a-1" "2025-01-15" mate 2001;
         row "a-2" "2025-01-15" "Redes" 2002;
         row "a-3" "2025-01-15" mate 2003;
         row "a-4" "2025-01-16" "Taller" 2004 ] |}.

(** The attendance list showing 15 January, first for every course and
    then for mathematics only. *)
Definition jan15 : AttendanceList.state :=
  {| AttendanceList.attendances := [];
     AttendanceList.loading := true;
     AttendanceList.filterDate := "2025-01-15";
     AttendanceList.filterCurso := "";
     AttendanceList.cursos := [] |}.

Definition jan15_mate : AttendanceList.state :=
  {| AttendanceList.attendances := [];
     AttendanceList.loading := true;
     AttendanceList.filterDate := "2025-01-15";
     AttendanceList.filterCurso := mate;
     AttendanceList.cursos := [] |}.

(** A second student who has Juan's national ID. *)
Definition rosa : StudentForm.formData :=
  {| StudentForm.codigo := "SEN777";
     StudentForm.nombres := "Rosa";
     StudentForm.apellidos := "Quispe";
     StudentForm.dni := "12345678";
     StudentForm.carrera := "Contabilidad";
     StudentForm.semestre := 1;
     StudentForm.email := "";
     StudentForm.telefono := "";
     StudentForm.activo := true |}.

(** The store after Juan has been registered. *)
Definition with_juan : Store.t :=
  fst (Store.exec "s-1" 1000 (Store.InsertStudent (StudentForm.buildData juan)) Store.empty).

(** An attendance form with a course but no student. *)
Definition no_student : AttendanceForm.formData :=
  {| AttendanceForm.student_id := "";
     AttendanceForm.fecha := "2025-01-15";
     AttendanceForm.estado := "presente";
     AttendanceForm.hora_entrada := "";
     AttendanceForm.curso := "Redes";
     AttendanceForm.observaciones := "" |}.

(** An attendance form for a student the store does not hold. *)
Definition for_stranger : AttendanceForm.formData :=
  {| AttendanceForm.student_id := "7f9c2e4a-9999";
     AttendanceForm.fecha := "2025-01-15";
     AttendanceForm.estado := "presente";
     AttendanceForm.hora_entrada := "";
     AttendanceForm.curso := "Redes";
     AttendanceForm.observaciones := "" |}.

(** Rosa's data as sent to the store, and the same with a term of 7. *)
Definition rosa_data : StudentForm.dataToSave := StudentForm.buildData rosa.

Definition term_seven : StudentForm.dataToSave :=
  {| StudentForm.d_codigo := "SEN900";
     StudentForm.d_nombres := "Luis";
     StudentForm.d_apellidos := "Mamani";
     StudentForm.d_dni := "11112222";
     StudentForm.d_carrera := "Contabilidad";
     StudentForm.d_semestre := 7;
     StudentForm.d_email := None;
     StudentForm.d_telefono := None;
     StudentForm.d_activo := true |}.

(** The attendance form after a failed validation of an empty form. *)
Definition flagged : AttendanceForm.state :=
  {| AttendanceForm.students := [ana];
     AttendanceForm.searchTerm := "";
     AttendanceForm.showStudentList := false;
     AttendanceForm.form := AttendanceForm.initialFormData evening;
     AttendanceForm.selectedStudent := None;
     AttendanceForm.loading := false;
     AttendanceForm.errors :=
       AttendanceForm.newErrors (AttendanceForm.initialFormData evening) |}.

(** A session of the shell: edit Ana, save, open a new form, close it. *)
Definition session : list Shell.event :=
  [ Shell.EditStudent ana; Shell.SaveStudent; Shell.Tab Shell.attendance;
    Shell.AddAttendance; Shell.CloseAttendanceForm; Shell.AddStudent ].




(** Keys as [gen_random_uuid()] gives them. *)
Definition key1 : string := "3f2b8c1e-7a4d-4e9b-8c21-5d6f7a8b9c01".
Definition key2 : string := "9a1d4f60-2b3c-4d5e-8f70-a1b2c3d4e5f6".
Definition key3 : string := "c4e8a2b6-0d1f-4a3b-9c5d-7e8f9a0b1c2d".
Definition key4 : string := "51f0c7d3-8e9a-4b6c-a2d1-0f3e4d5c6b7a".
Definition key5 : string := "e7b3d9a1-6c2f-4e8d-b4a0-9d8c7b6a5f4e".
Definition key6 : string := "0d6a5c4b-3e2f-4a1b-8c9d-1e2f3a4b5c6d".

(** A student with a term no program has. *)
Definition term_huge : StudentForm.dataToSave :=
  {| StudentForm.d_codigo := "SEN901";
     StudentForm.d_nombres := "Luis";
     StudentForm.d_apellidos := "Mamani";
     StudentForm.d_dni := "11112223";
     StudentForm.d_carrera := "Contabilidad";
     StudentForm.d_semestre := 3000000000;
     StudentForm.d_email := None;
     StudentForm.d_telefono := None;
     StudentForm.d_activo := true |}.

(** Zoila, who has an email address and has left the institute. *)
Definition zoila : StudentForm.formData :=
  {| StudentForm.codigo := "SEN003";
     StudentForm.nombres := "Zoila";
     StudentForm.apellidos := "Alva";
     StudentForm.dni := "44556677";
     StudentForm.carrera := "Contabilidad";
     StudentForm.semestre := 6;
     StudentForm.email := "zoila@senati.pe";
     StudentForm.telefono := "";
     StudentForm.activo := false |}.

(** Ana as the student form holds her. *)
Definition ana_form : StudentForm.formData :=
  {| StudentForm.codigo := "SEN002";
     StudentForm.nombres := "Ana";
     StudentForm.apellidos := "Ruiz";
     StudentForm.dni := "87654321";
     StudentForm.carrera := "Contabilidad";
     StudentForm.semestre := 2;
     StudentForm.email := "";
     StudentForm.telefono := "987654321";
     StudentForm.activo := true |}.

(** The enrolment of a class: Juan is registered; Rosa is refused, she
    gives Juan's national ID; Ana and Zoila are registered. *)
Definition enrolment : list (string * Z * Store.request) :=
  [ (key1, 1000, Store.InsertStudent (StudentForm.buildData juan));
    (key2, 1001, Store.InsertStudent rosa_data);
    (key2, 1002, Store.InsertStudent (StudentForm.buildData ana_form));
    (key3, 1003, Store.InsertStudent (StudentForm.buildData zoila)) ].

Definition classroom : Store.t := replay enrolment Store.empty.

(** The rows of the class as the store holds them. *)
Definition juan_row : Student.t :=
  Store.new_student key1 1000 (StudentForm.buildData juan).
Definition ana_row : Student.t :=
  Store.new_student key2 1002 (StudentForm.buildData ana_form).
Definition zoila_row : Student.t :=
  Store.new_student key3 1003 (StudentForm.buildData zoila).

(** Attendance forms for Ana and for Juan on 15 January. *)
Definition ana_present : AttendanceForm.formData :=
  {| AttendanceForm.student_id := key2;
     AttendanceForm.fecha := "2025-01-15";
     AttendanceForm.estado := "presente";
     AttendanceForm.hora_entrada := "";
     AttendanceForm.curso := "Redes";
     AttendanceForm.observaciones := "" |}.

Definition juan_late : AttendanceForm.formData :=
  {| AttendanceForm.student_id := key1;
     AttendanceForm.fecha := "2025-01-15";
     AttendanceForm.estado := "tardanza";
     AttendanceForm.hora_entrada := "";
     AttendanceForm.curso := "Redes";
     AttendanceForm.observaciones := "Llego tarde" |}.

(** An attendance payload for Ana with a status the form does not offer. *)
Definition ana_retirado : AttendanceForm.dataToSave :=
  {| AttendanceForm.d_student_id := key2;
     AttendanceForm.d_fecha := "2025-01-15";
     AttendanceForm.d_estado := "retirado";
     AttendanceForm.d_hora_entrada := Some "08:30";
     AttendanceForm.d_curso := "Redes";
     AttendanceForm.d_observaciones := None |}.

(** A day of the register: Ana is present, a payload with an unknown
    status is refused, Juan is late, Zoila's row is entered and deleted
    again. *)
Definition register : list (string * Z * Store.request) :=
  [ (key4, 2001, Store.InsertAttendance (AttendanceForm.buildData ana_present));
    (key5, 2002, Store.InsertAttendance ana_retirado);
    (key5, 2003, Store.InsertAttendance (AttendanceForm.buildData juan_late));
    (key6, 2004, Store.InsertAttendance
                   {| AttendanceForm.d_student_id := key3;
                      AttendanceForm.d_fecha := "2025-01-15";
                      AttendanceForm.d_estado := "ausente";
                      AttendanceForm.d_hora_entrada := None;
                      AttendanceForm.d_curso := "Redes";
                      AttendanceForm.d_observaciones := None |});
    (key6, 2005, Store.DeleteAttendance key6) ].

Definition day : Store.t := replay register classroom.

(** 21:30 of 15 January 2025 in Lima, which is 02:30 of the 16th UTC. *)
Definition night_in_lima : JsDate.t :=
  {| JsDate.year := 2025; JsDate.month := 1; JsDate.day := 16;
     JsDate.hours := 2; JsDate.minutes := 30; JsDate.seconds := 0;
     JsDate.milliseconds := 0 |}.

(** Filling a new attendance form for Ana of the class. *)
Definition fill_in_ana : list App.action :=
  [ App.Roster [juan_row; ana_row]; App.Focus; App.Search "ru"; App.Select ana_row;
    App.Change "curso" "Redes"; App.Change "hora_entrada" "08:30" ].

(** Carla, who gives a telephone number and no email address. *)
Definition carla : StudentForm.formData :=
  {| StudentForm.codigo := "SEN004";
     StudentForm.nombres := "Carla";
     StudentForm.apellidos := "Luna";
     StudentForm.dni := "20304050";
     StudentForm.carrera := "Contabilidad";
     StudentForm.semestre := 1;
     StudentForm.email := "";
     StudentForm.telefono := "999888777";
     StudentForm.activo := true |}.

(** Ana at 08:30, without a note. *)
Definition ana_on_time : AttendanceForm.formData :=
  {| AttendanceForm.student_id := key2;
     AttendanceForm.fecha := "2025-01-16";
     AttendanceForm.estado := "presente";
     AttendanceForm.hora_entrada := "08:30";
     AttendanceForm.curso := "Redes";
     AttendanceForm.observaciones := "" |}.

(** A student of another class, who is not in the store. *)
Definition pedro_row : Student.t :=
  {| Student.id := key4;
     Student.codigo := "SEN010";
     Student.nombres := "Pedro";
     Student.apellidos := "Soto";
     Student.dni := "10101010";
     Student.carrera := "Contabilidad";
     Student.semestre := 4;
     Student.email := None;
     Student.telefono := None;
     Student.activo := true;
     Student.created_at := 900;
     Student.updated_at := 900 |}.

End Sample.

(** * Properties *)

(** ** The string operations *)

Section JsFacts.

Lemma app_String c s t : String c s +:+ t = String c (s +:+ t).
Proof. reflexivity. Qed.

Lemma app_Empty t : EmptyString +:+ t = t.
Proof. reflexivity. Qed.

Lemma truthy_false s : Js.truthy s = false ↔ s = EmptyString.
Proof. destruct s; simpl; split; congruence. Qed.

Lemma truthy_true s : Js.truthy s = true ↔ s ≠ EmptyString.
Proof. destruct s; simpl; split; congruence. Qed.

Lemma trimStart_head s :
  match Js.trimStart s with
  | EmptyString => Spec.allChars Js.isWhiteSpace s = true
  | String c _ => Js.isWhiteSpace c = false
  end.
Proof.
  induction s as [|c s IH]; simpl; [reflexivity|].
  destruct (Js.isWhiteSpace c) eqn:Hc; simpl; [|exact Hc].
  destruct (Js.trimStart s); assumption.
Qed.

Lemma trimEnd_empty s :
  Js.trimEnd s = EmptyString ↔ Spec.allChars Js.isWhiteSpace s = true.
Proof.
  induction s as [|c s IH]; simpl; [tauto|].
  destruct (Js.trimEnd s) eqn:Ht.
  - destruct (Js.isWhiteSpace c); simpl.
    + rewrite <- IH. tauto.
    + split; congruence.
  - split; [congruence|].
    intros [_ H]%andb_prop. apply IH in H. congruence.
Qed.

Lemma allChars_trimStart s :
  Spec.allChars Js.isWhiteSpace s = true → Js.trimStart s = EmptyString.
Proof.
  induction s as [|c s IH]; simpl; [reflexivity|].
  intros [-> H]%andb_prop. auto.
Qed.

(** [!s.trim()] holds exactly for the blank strings. *)
Lemma trim_falsy s :
  negb (Js.truthy (Js.trim s)) = true ↔ Spec.blank s.
Proof.
  unfold Spec.blank, Js.trim. rewrite negb_true_iff, truthy_false, trimEnd_empty.
  split.
  - intros H. pose proof (trimStart_head s) as Hs.
    destruct (Js.trimStart s) as [|c t]; [exact Hs|].
    simpl in H. rewrite Hs in H. discriminate.
  - intros H. rewrite (allChars_trimStart s H). reflexivity.
Qed.

Lemma toLowerCase_empty : Js.toLowerCase EmptyString = EmptyString.
Proof. reflexivity. Qed.

Lemma startsWith_empty s : Js.startsWith s EmptyString = true.
Proof. destruct s; reflexivity. Qed.

Lemma includes_empty s : Js.includes s EmptyString = true.
Proof. destruct s; reflexivity. Qed.

Lemma startsWith_spec s t :
  Js.startsWith s t = true ↔ ∃ after, s = t +:+ after.
Proof.
  revert s. induction t as [|b t IH]; intros s.
  - rewrite startsWith_empty. split; [|reflexivity]. intros _. exists s. reflexivity.
  - destruct s as [|a s]; simpl.
    + split; [discriminate|]. intros [after H]. discriminate.
    + destruct (Ascii.eqb_spec a b) as [->|Hne].
      * rewrite IH. split; intros [after H]; exists after.
        -- rewrite app_String. congruence.
        -- rewrite app_String in H. congruence.
      * split; [discriminate|]. intros [after H].
        rewrite app_String in H. congruence.
Qed.

(** [includes] decides the occurrence of a substring. *)
Lemma includes_spec s t : Js.includes s t = true ↔ Spec.substring t s.
Proof.
  unfold Spec.substring. induction s as [|a s IH].
  - cbn [Js.includes]. rewrite orb_false_r, startsWith_spec. split.
    + intros [after H]. exists EmptyString, after. exact H.
    + intros [[|c before] [after H]].
      * exists after. exact H.
      * rewrite app_String in H. discriminate.
  - cbn [Js.includes]. rewrite orb_true_iff, startsWith_spec, IH. split.
    + intros [[after H]|[before [after H]]].
      * exists EmptyString, after. exact H.
      * exists (String a before), after. rewrite app_String. congruence.
    + intros [[|c before] [after H]].
      * left. exists after. exact H.
      * right. exists before, after. rewrite app_String in H. congruence.
Qed.

(** *** Whole-string matching by derivatives *)

Lemma test_Fail s : Js.test Js.Fail s = false.
Proof. induction s; simpl; auto. Qed.

Lemma test_Alt r1 r2 s :
  Js.test (Js.Alt r1 r2) s = Js.test r1 s || Js.test r2 s.
Proof. revert r1 r2. induction s as [|c s IH]; intros; simpl; auto. Qed.

Lemma test_Cat_Fail r s : Js.test (Js.Cat Js.Fail r) s = false.
Proof. induction s as [|c s IH]; simpl; auto. Qed.

Lemma test_Cat_Eps r s : Js.test (Js.Cat Js.Eps r) s = Js.test r s.
Proof.
  destruct s as [|c s]; simpl; [reflexivity|].
  rewrite test_Alt, test_Cat_Fail. reflexivity.
Qed.

Lemma test_Eps s : Js.test Js.Eps s = negb (Js.truthy s).
Proof. destruct s; simpl; [reflexivity|apply test_Fail]. Qed.

Lemma test_Cat_Cls p r s :
  Js.test (Js.Cat (Js.Cls p) r) s =
  match s with
  | EmptyString => false
  | String c s' => p c && Js.test r s'
  end.
Proof.
  destruct s as [|c s]; simpl; [reflexivity|].
  destruct (p c); simpl; [apply test_Cat_Eps|apply test_Cat_Fail].
Qed.

(** [/^c{n}$/] accepts the strings of [n] characters of the class. *)
Lemma test_Times_Cls p n s :
  Js.test (Js.Times n (Js.Cls p)) s = Nat.eqb (String.length s) n && Spec.allChars p s.
Proof.
  revert s. induction n as [|n IH]; intros s.
  - simpl Js.Times. rewrite test_Eps. destruct s; reflexivity.
  - simpl Js.Times. rewrite test_Cat_Cls. destruct s as [|c s]; [reflexivity|].
    rewrite IH. simpl. destruct (p c), (Nat.eqb (String.length s) n); reflexivity.
Qed.

Lemma test_dni_re s :
  Js.test StudentForm.dni_re s = true ↔ Spec.eightDigits s.
Proof.
  unfold StudentForm.dni_re, Spec.eightDigits.
  rewrite test_Times_Cls, andb_true_iff, Nat.eqb_eq. reflexivity.
Qed.

End JsFacts.

(** ** The model at work *)

Section Examples.

Example trim_inner_space : Js.trim "  SEN 001 " = "SEN 001".
Proof. reflexivity. Qed.

Example trim_blank : Js.trim (chr "009" +:+ " " +:+ chr "160") = "".
Proof. reflexivity. Qed.

Example lower_ascii : Js.toLowerCase "PeREZ-01" = "perez-01".
Proof. reflexivity. Qed.

(** E-acute: U+00C9 becomes U+00E9. *)
Example lower_latin1 : Js.toLowerCase (chr "201") = chr "233".
Proof. reflexivity. Qed.

Example includes_middle : Js.includes "perez" "ere" = true.
Proof. reflexivity. Qed.

Example includes_gap : Js.includes "perez" "prz" = false.
Proof. reflexivity. Qed.

Example dni_eight : Js.test StudentForm.dni_re "12345678" = true.
Proof. reflexivity. Qed.

Example dni_nine : Js.test StudentForm.dni_re "123456789" = false.
Proof. reflexivity. Qed.

Example dni_letter : Js.test StudentForm.dni_re "1234567a" = false.
Proof. reflexivity. Qed.

Example dni_padded : Js.test StudentForm.dni_re " 12345678" = false.
Proof. reflexivity. Qed.

Example email_plain : Js.test StudentForm.email_re "juan@senati.pe" = true.
Proof. reflexivity. Qed.

Example email_subdomain : Js.test StudentForm.email_re "j.p@mail.senati.edu.pe" = true.
Proof. reflexivity. Qed.

Example email_no_dot : Js.test StudentForm.email_re "juan@senati" = false.
Proof. reflexivity. Qed.

Example email_two_ats : Js.test StudentForm.email_re "juan@@senati.pe" = false.
Proof. reflexivity. Qed.

Example email_space : Js.test StudentForm.email_re "juan perez@senati.pe" = false.
Proof. reflexivity. Qed.

Example iso_evening : JsDate.toISOString Sample.evening = "2025-01-15T23:05:09.007Z".
Proof. reflexivity. Qed.

Example iso_year_zero_padded :
  JsDate.isoYear 987 = "0987" ∧ JsDate.isoYear 12345 = "+012345"
  ∧ JsDate.isoYear (-1) = "-000001".
Proof. repeat split; reflexivity. Qed.

(** The scenario of the specification: the first student is stored, a second
    one with the same national ID is refused by the store and the form
    shows the message at the [dni] field. *)
Example duplicate_dni :
  let '(st1, effects1) := App.submitStudent "s-1" 1000 None Sample.juan Store.empty in
  let second :=
    {| StudentForm.codigo := "SEN777";
       StudentForm.nombres := "Rosa";
       StudentForm.apellidos := "Quispe";
       StudentForm.dni := "12345678";
       StudentForm.carrera := "Contabilidad";
       StudentForm.semestre := 1;
       StudentForm.email := "";
       StudentForm.telefono := "";
       StudentForm.activo := true |} in
  let '(st2, effects2) := App.submitStudent "s-2" 1001 None second st1 in
  List.map Student.codigo (Store.students st1) = ["SEN001"]
  ∧ In StudentForm.OnSave effects1
  ∧ st2 = st1
  ∧ effects2 =
    [ StudentForm.PreventDefault; StudentForm.SetErrors ∅; StudentForm.SetLoading true;
      StudentForm.Insert (StudentForm.buildData second);
      StudentForm.ConsoleError (Store.unique_violation "students_dni_key");
      StudentForm.SetErrors {[ "dni" := StudentForm.msg_dni_dup ]};
      StudentForm.SetLoading false ].
Proof. vm_compute. repeat split; try reflexivity. do 4 right. left. reflexivity. Qed.

(** The attendance list of 15 January: newest first, and the two courses
    of that day as options. *)
Example january_list :
  List.map (λ r, Attendance.id (AttendanceWithStudent.row r))
    (AttendanceList.attendances (AttendanceList.load Sample.january Sample.jan15))
  = ["a-3"; "a-2"; "a-1"]
  ∧ AttendanceList.courseOptions (AttendanceList.load Sample.january Sample.jan15)
    = [Sample.mate; "Redes"].
Proof. split; reflexivity. Qed.

(** Deleting Ana empties the attendance table. *)
Example delete_ana :
  App.deleteStudent (Student.id Sample.ana) Sample.january = Store.empty.
Proof. reflexivity. Qed.

Example local_lima :
  JsDate.toLocal 300 Sample.night_in_lima
  = {| JsDate.year := 2025; JsDate.month := 1; JsDate.day := 15;
       JsDate.hours := 21; JsDate.minutes := 30; JsDate.seconds := 0;
       JsDate.milliseconds := 0 |}.
Proof. reflexivity. Qed.

Example local_new_year :
  JsDate.localDate (-60)
    {| JsDate.year := 2024; JsDate.month := 12; JsDate.day := 31;
       JsDate.hours := 23; JsDate.minutes := 30; JsDate.seconds := 0;
       JsDate.milliseconds := 0 |}
  = "2025-01-01".
Proof. reflexivity. Qed.

Example local_leap_day :
  JsDate.localDate 300
    {| JsDate.year := 2024; JsDate.month := 3; JsDate.day := 1;
       JsDate.hours := 4; JsDate.minutes := 59; JsDate.seconds := 0;
       JsDate.milliseconds := 0 |}
  = "2024-02-29".
Proof. reflexivity. Qed.

Example uuid_generated : Pg.isUuid Sample.key1 = true.
Proof. reflexivity. Qed.

Example uuid_short : Pg.isUuid "7f9c2e4a-0001" = false.
Proof. reflexivity. Qed.

Example date_leap : Pg.isDate "2024-02-29" = true.
Proof. reflexivity. Qed.

Example date_no_leap : Pg.isDate "2025-02-29" = false.
Proof. reflexivity. Qed.

Example time_minutes : Pg.isTime "08:30" = true.
Proof. reflexivity. Qed.

Example time_sixty : Pg.isTime "08:60" = false.
Proof. reflexivity. Qed.

Example term_out_of_range :
  Store.out_of_range (-3000000000)
  = GatewayError.mk (Some "22003")
      ("value " +:+ Store.dq +:+ "-3000000000" +:+ Store.dq
       +:+ " is out of range for type integer").
Proof. reflexivity. Qed.

End Examples.

(** ** The student form *)

Section StudentFormFacts.
Import StudentForm StudentRules.

Lemma keys_nil (m : gmap string string) :
  Nat.eqb (length (keys m)) 0 = true ↔ m = ∅.
Proof.
  unfold keys. rewrite Nat.eqb_eq, length_fmap, length_zero_iff_nil.
  apply map_to_list_empty_iff.
Qed.

Lemma validate_ok fd : snd (validate fd) = true ↔ newErrors fd = ∅.
Proof. apply keys_nil. Qed.

Lemma validate_ko fd : snd (validate fd) = false ↔ newErrors fd ≠ ∅.
Proof.
  rewrite <- validate_ok. destruct (snd (validate fd)); split; congruence.
Qed.

Lemma handleSubmit_invalid student fd reply :
  snd (validate fd) = false →
  handleSubmit student fd reply = [PreventDefault; SetErrors (newErrors fd)].
Proof.
  unfold handleSubmit, validate. simpl. intros ->. reflexivity.
Qed.

Lemma handleSubmit_valid student fd reply :
  snd (validate fd) = true →
  handleSubmit student fd reply =
  PreventDefault :: SetErrors (newErrors fd) :: SetLoading true :: call student fd ::
  match reply with None => [OnSave] | Some err => onError err end ++ [SetLoading false].
Proof.
  unfold handleSubmit, validate. simpl. intros ->. reflexivity.
Qed.

Lemma onError_no_call err : List.filter isStoreCall (onError err) = [].
Proof.
  unfold onError. simpl.
  repeat match goal with |- context [if ?b then _ else _] => destruct b end;
    reflexivity.
Qed.

Lemma call_isStoreCall student fd : isStoreCall (call student fd) = true.
Proof. destruct student; reflexivity. Qed.

Lemma calls_invalid student fd reply :
  snd (validate fd) = false →
  List.filter isStoreCall (handleSubmit student fd reply) = [].
Proof. intros H. rewrite handleSubmit_invalid by exact H. reflexivity. Qed.

Lemma calls_valid student fd reply :
  snd (validate fd) = true →
  List.filter isStoreCall (handleSubmit student fd reply) = [call student fd].
Proof.
  intros H. rewrite handleSubmit_valid by exact H.
  cbn [List.filter isStoreCall]. rewrite call_isStoreCall.
  rewrite List.filter_app. destruct reply as [err|].
  - rewrite onError_no_call. reflexivity.
  - reflexivity.
Qed.

Lemma lookup_if (b : bool) k v (m : gmap string string) j :
  is_Some ((if b then <[k := v]> m else m) !! j) ↔
  (b = true ∧ k = j) ∨ is_Some (m !! j).
Proof.
  destruct b.
  - rewrite lookup_insert_is_Some. destruct (decide (k = j)); intuition.
  - intuition congruence.
Qed.

(** The key of each rule is present exactly when the condition of its
    [if] holds. *)
Lemma newErrors_lookup fd k :
  is_Some (newErrors fd !! k) ↔
  ("codigo" = k ∧ negb (Js.truthy (Js.trim (codigo fd))) = true)
  ∨ ("nombres" = k ∧ negb (Js.truthy (Js.trim (nombres fd))) = true)
  ∨ ("apellidos" = k ∧ negb (Js.truthy (Js.trim (apellidos fd))) = true)
  ∨ ("dni" = k ∧ (negb (Js.truthy (Js.trim (dni fd)))
                  || negb (Js.test dni_re (dni fd))) = true)
  ∨ ("carrera" = k ∧ negb (Js.truthy (carrera fd)) = true)
  ∨ ("semestre" = k ∧ (semestre fd <? 1) || (semestre fd >? 6) = true)
  ∨ ("email" = k ∧ Js.truthy (email fd) && negb (Js.test email_re (email fd)) = true).
Proof.
  unfold newErrors. simpl.
  rewrite 3!lookup_if.
  destruct (negb (Js.truthy (Js.trim (dni fd)))) eqn:Hd.
  - rewrite lookup_insert_is_Some, !lookup_if, lookup_empty, is_Some_alt. simpl.
    destruct (decide ("dni" = k)); intuition discriminate.
  - rewrite !lookup_if, lookup_empty, is_Some_alt. simpl. intuition discriminate.
Qed.

Lemma space_not_digit c : Js.isWhiteSpace c = true → Js.isDigit c = false.
Proof.
  unfold Js.isWhiteSpace, Js.isDigit. generalize (Js.code c). intros n.
  rewrite !orb_true_iff, andb_true_iff, andb_false_iff, !N.leb_le, !N.eqb_eq,
    !N.leb_gt. lia.
Qed.

Lemma blank_not_eightDigits s : Spec.blank s → ¬ Spec.eightDigits s.
Proof.
  unfold Spec.blank. intros Hb [Hl Hd]. destruct s as [|c s]; [discriminate|].
  simpl in Hb, Hd. apply andb_prop in Hb as [Hc _]. apply andb_prop in Hd as [Hc' _].
  apply space_not_digit in Hc. congruence.
Qed.


Lemma violates_lookup fd k :
  is_Some (newErrors fd !! k) ↔ violates Spec.blank fd k.
Proof.
  rewrite newErrors_lookup, !trim_falsy. split.
  - intros [[<- H]|[[<- H]|[[<- H]|[[<- H]|[[<- H]|[[<- H]|[<- H]]]]]]].
    + by apply v_codigo.
    + by apply v_nombres.
    + by apply v_apellidos.
    + apply v_dni. apply orb_true_iff in H as [H|H].
      * by apply blank_not_eightDigits, trim_falsy.
      * rewrite <- test_dni_re. apply negb_true_iff in H. congruence.
    + apply v_carrera. by apply truthy_false, negb_true_iff.
    + apply v_semestre. apply orb_true_iff in H. lia.
    + apply andb_true_iff in H as [H1 H2].
      apply v_email; [by apply truthy_true|by apply negb_true_iff].
  - intros H. destruct H as [H|H|H|H|H|H|H1 H2].
    + left. done.
    + right; left. done.
    + do 2 right; left. done.
    + do 3 right; left. split; [done|]. apply orb_true_iff. right.
      apply negb_true_iff. rewrite <- test_dni_re in H.
      destruct (Js.test dni_re (dni fd)); congruence.
    + do 4 right; left. split; [done|]. by apply negb_true_iff, truthy_false.
    + do 5 right; left. split; [done|]. apply orb_true_iff. lia.
    + do 6 right. split; [done|]. apply andb_true_iff.
      split; [by apply truthy_true|by apply negb_true_iff].
Qed.

Lemma lookup_if_Some (b : bool) k v (m : gmap string string) j x :
  (if b then <[k := v]> m else m) !! j = Some x →
  (b = true ∧ k = j ∧ v = x) ∨ m !! j = Some x.
Proof.
  destruct b; [|auto]. destruct (decide (k = j)) as [->|Hne].
  - rewrite lookup_insert_eq. intros [= ->]. auto.
  - rewrite lookup_insert_ne by exact Hne. auto.
Qed.

(** The message of each entry is the one its rule assigns. *)
Lemma newErrors_message fd k m :
  newErrors fd !! k = Some m →
  (k = "codigo" ∧ m = msg_codigo)
  ∨ (k = "nombres" ∧ m = msg_nombres)
  ∨ (k = "apellidos" ∧ m = msg_apellidos)
  ∨ (k = "dni" ∧ Spec.blank (dni fd) ∧ m = msg_dni_requerido)
  ∨ (k = "dni" ∧ ¬ Spec.blank (dni fd) ∧ m = msg_dni_digitos)
  ∨ (k = "carrera" ∧ m = msg_carrera)
  ∨ (k = "semestre" ∧ m = msg_semestre)
  ∨ (k = "email" ∧ m = msg_email).
Proof.
  unfold newErrors. cbv zeta. intros H.
  apply lookup_if_Some in H as [(_ & <- & <-)|H]; [tauto|].
  apply lookup_if_Some in H as [(_ & <- & <-)|H]; [tauto|].
  apply lookup_if_Some in H as [(_ & <- & <-)|H]; [tauto|].
  assert (Hrest : (k = "dni" ∧ Spec.blank (dni fd) ∧ m = msg_dni_requerido)
                  ∨ (k = "dni" ∧ ¬ Spec.blank (dni fd) ∧ m = msg_dni_digitos)
                  ∨ (k = "codigo" ∧ m = msg_codigo)
                  ∨ (k = "nombres" ∧ m = msg_nombres)
                  ∨ (k = "apellidos" ∧ m = msg_apellidos)); [|tauto].
  destruct (negb (Js.truthy (Js.trim (dni fd)))) eqn:Hd.
  - apply trim_falsy in Hd.
    apply (lookup_if_Some true) in H as [(_ & <- & <-)|H]; [tauto|].
    apply lookup_if_Some in H as [(_ & <- & <-)|H]; [tauto|].
    apply lookup_if_Some in H as [(_ & <- & <-)|H]; [tauto|].
    apply lookup_if_Some in H as [(_ & <- & <-)|H]; [tauto|].
    rewrite lookup_empty in H. discriminate.
  - assert (Hnb : ¬ Spec.blank (dni fd)).
    { rewrite <- trim_falsy, Hd. discriminate. }
    apply lookup_if_Some in H as [(_ & <- & <-)|H]; [tauto|].
    apply lookup_if_Some in H as [(_ & <- & <-)|H]; [tauto|].
    apply lookup_if_Some in H as [(_ & <- & <-)|H]; [tauto|].
    apply lookup_if_Some in H as [(_ & <- & <-)|H]; [tauto|].
    rewrite lookup_empty in H. discriminate.
Qed.

Lemma newErrors_message_shown fd k m :
  newErrors fd !! k = Some m → m ≠ EmptyString.
Proof.
  intros H.
  destruct (newErrors_message fd k m H)
    as [[_ ->]|[[_ ->]|[[_ ->]|[(_ & _ & ->)|[(_ & _ & ->)|[[_ ->]|[[_ ->]|[_ ->]]]]]]]];
    discriminate.
Qed.

Lemma shown_violates fd k :
  shown (newErrors fd) k ↔ violates Spec.blank fd k.
Proof.
  rewrite <- violates_lookup. split.
  - intros (m & Hm & _). rewrite Hm. eauto.
  - intros [m Hm]. exists m. split; [exact Hm|]. by apply (newErrors_message_shown fd k).
Qed.

Lemma newErrors_empty fd :
  newErrors fd = ∅ ↔ ¬ ∃ k, violates Spec.blank fd k.
Proof.
  split.
  - intros H [k Hk]. apply violates_lookup in Hk. rewrite H, lookup_empty in Hk.
    by destruct Hk.
  - intros H. apply map_empty. intros k. apply eq_None_not_Some.
    intros Hk. apply H. exists k. by apply violates_lookup.
Qed.

End StudentFormFacts.

Section StudentFormClaims.
Import StudentForm StudentRules.

(** C1, as stated, fails: with a single space as code no listed rule is
    violated (the code is not empty, and every other field is valid), yet
    the mapping has an entry and no gateway call is issued. *)
Lemma C1_counterexample :
  (∀ k, ¬ violates isEmpty Sample.juan_blank_codigo k)
  ∧ newErrors Sample.juan_blank_codigo ≠ ∅
  ∧ List.filter isStoreCall (handleSubmit None Sample.juan_blank_codigo None) = [].
Proof.
  split; [|split].
  - intros k H. inversion H as [E|E|E|E|E|E|E1 E2];
      try discriminate E; try (simpl in E; lia).
    + apply E. apply test_dni_re. reflexivity.
    + apply E1. reflexivity.
  - intros H. apply (f_equal (λ m, m !! "codigo")) in H. vm_compute in H.
    discriminate H.
  - reflexivity.
Qed.

(** C1 (amended): the submit handler of the student form publishes a
    mapping whose keys are exactly the fields whose rule is violated
    (code, given names or family names empty or made of white space only,
    national ID not exactly 8 digits, no program selected, term outside
    [1,6], a present email not matching the address pattern).  Every
    entry holds the message of its rule, which is not empty, so the form
    shows a message at exactly the violating fields.  When some rule is
    violated the handler does nothing else: no insert or update is
    issued.  When none is, the mapping is empty and exactly one gateway
    call is issued, the update of the edited record or the insert. *)
Theorem C1_validation_collects_every_violation student fd reply :
  let effects := handleSubmit student fd reply in
  (∀ k, is_Some (newErrors fd !! k) ↔ violates Spec.blank fd k)
  ∧ (∀ k, shown (newErrors fd) k ↔ violates Spec.blank fd k)
  ∧ (∀ k m, newErrors fd !! k = Some m →
       m ≠ EmptyString
       ∧ ((k = "codigo" ∧ m = msg_codigo)
          ∨ (k = "nombres" ∧ m = msg_nombres)
          ∨ (k = "apellidos" ∧ m = msg_apellidos)
          ∨ (k = "dni" ∧ Spec.blank (dni fd) ∧ m = msg_dni_requerido)
          ∨ (k = "dni" ∧ ¬ Spec.blank (dni fd) ∧ m = msg_dni_digitos)
          ∨ (k = "carrera" ∧ m = msg_carrera)
          ∨ (k = "semestre" ∧ m = msg_semestre)
          ∨ (k = "email" ∧ m = msg_email)))
  ∧ In (SetErrors (newErrors fd)) effects
  ∧ ((∃ k, violates Spec.blank fd k) →
     effects = [PreventDefault; SetErrors (newErrors fd)]
     ∧ ∀ e, In e effects → isStoreCall e = false)
  ∧ ((¬ ∃ k, violates Spec.blank fd k) →
     newErrors fd = ∅
     ∧ List.filter isStoreCall effects = [call student fd]).
Proof.
  cbv zeta. split; [|split; [|split; [|split; [|split]]]].
  - apply violates_lookup.
  - apply shown_violates.
  - intros k m H. split; [by apply (newErrors_message_shown fd k)|].
    by apply newErrors_message.
  - destruct (snd (validate fd)) eqn:Hv.
    + rewrite handleSubmit_valid by exact Hv. simpl. auto.
    + rewrite handleSubmit_invalid by exact Hv. simpl. auto.
  - intros Hk. assert (Hv : snd (validate fd) = false).
    { apply validate_ko. rewrite newErrors_empty. tauto. }
    rewrite handleSubmit_invalid by exact Hv. split; [reflexivity|].
    intros e [<-|[<-|[]]]; reflexivity.
  - intros Hk. apply newErrors_empty in Hk. split; [exact Hk|].
    apply calls_valid, validate_ok, Hk.
Qed.

(** C2: a national ID that does not match [^\d{8}$] makes validation
    fail with an entry for [dni], and the handler issues neither an
    insert nor an update. *)
Theorem C2_bad_dni_rejected student fd reply :
  Js.test dni_re (dni fd) = false →
  snd (validate fd) = false
  ∧ is_Some (newErrors fd !! "dni")
  ∧ ∀ e, In e (handleSubmit student fd reply) → isStoreCall e = false.
Proof.
  intros Hd.
  assert (Hk : is_Some (newErrors fd !! "dni")).
  { apply newErrors_lookup. do 3 right; left. split; [reflexivity|].
    rewrite Hd. apply orb_true_r. }
  assert (Hv : snd (validate fd) = false).
  { apply validate_ko. intros He. rewrite He, lookup_empty in Hk. by destruct Hk. }
  split; [exact Hv|split; [exact Hk|]].
  rewrite handleSubmit_invalid by exact Hv.
  intros e [<-|[<-|[]]]; reflexivity.
Qed.

(** C2 at a national ID of seven digits. *)
Lemma C2_bad_dni_rejected_witness :
  Js.test dni_re (dni Sample.juan_short_dni) = false
  ∧ snd (validate Sample.juan_short_dni) = false
  ∧ is_Some (newErrors Sample.juan_short_dni !! "dni")
  ∧ ∀ e, In e (handleSubmit None Sample.juan_short_dni None) → isStoreCall e = false.
Proof.
  split; [reflexivity|].
  apply (C2_bad_dni_rejected None Sample.juan_short_dni None). reflexivity.
Defined.

(** What the [catch] block reports, case by case. *)
Lemma onError_other err :
  GatewayError.code err ≠ Some "23505" →
  onError err = [ConsoleError err; Alert msg_alert].
Proof.
  intros H. unfold onError. rewrite bool_decide_eq_false_2 by exact H. reflexivity.
Qed.

Lemma onError_unique err :
  GatewayError.code err = Some "23505" →
  onError err =
  ConsoleError err ::
  if Js.includes (GatewayError.message err) "codigo"
  then [SetErrors {[ "codigo" := msg_codigo_dup ]}]
  else if Js.includes (GatewayError.message err) "dni"
  then [SetErrors {[ "dni" := msg_dni_dup ]}]
  else if Js.includes (GatewayError.message err) "email"
  then [SetErrors {[ "email" := msg_email_dup ]}]
  else [].
Proof.
  intros H. unfold onError. rewrite bool_decide_eq_true_2 by exact H. reflexivity.
Qed.

Lemma onError_mapped constraint :
  In constraint ["students_codigo_key"; "students_dni_key"; "students_email_key"] →
  ∃ field msg,
    onError (Store.unique_violation constraint) =
    [ConsoleError (Store.unique_violation constraint); SetErrors {[ field := msg ]}]
    ∧ constraint = "students_" +:+ field +:+ "_key".
Proof.
  intros [<-|[<-|[<-|[]]]].
  - exists "codigo", msg_codigo_dup. split; reflexivity.
  - exists "dni", msg_dni_dup. split; reflexivity.
  - exists "email", msg_email_dup. split; reflexivity.
Qed.


End StudentFormClaims.

(** ** The client-side searches *)

Section SearchClaims.
Import SearchRules.

Lemma ciSubstring_includes term field :
  Js.includes (Js.toLowerCase field) (Js.toLowerCase term) = true
  ↔ Spec.ciSubstring term field.
Proof. apply includes_spec. Qed.

Lemma form_matchesSearch_spec term s :
  AttendanceForm.matchesSearch term s = true ↔ inNamesOrCode term s.
Proof.
  unfold AttendanceForm.matchesSearch, inNamesOrCode. cbv zeta.
  rewrite !orb_true_iff, !ciSubstring_includes. tauto.
Qed.

Lemma list_matchesSearch_spec term s :
  StudentList.matchesSearch term s = true ↔ inNamesOrCode term s ∨ inDni term s.
Proof.
  unfold StudentList.matchesSearch, inNamesOrCode, inDni. cbv zeta.
  rewrite !orb_true_iff, !ciSubstring_includes, includes_spec. tauto.
Qed.

Lemma filter_keepsExactly (f : Student.t → bool) (keep : Student.t → Prop) students :
  (∀ s, f s = true ↔ keep s) →
  keepsExactly keep students (List.filter f students).
Proof.
  intros Hf. induction students as [|s rest IH]; simpl; [reflexivity|].
  destruct (f s) eqn:Hs.
  - left. split; [by apply Hf|]. eauto.
  - right. split; [|exact IH]. rewrite <- Hf. congruence.
Qed.

Lemma filter_all {A} (f : A → bool) (l : list A) :
  (∀ x, f x = true) → List.filter f l = l.
Proof.
  intros Hf. induction l as [|x l IH]; simpl; [reflexivity|].
  rewrite Hf, IH. reflexivity.
Qed.

(** C3, as stated, fails: the student list retains Ana Ruiz for the
    term 876, which occurs in her national ID only. *)
Lemma C3_counterexample :
  In Sample.ana (StudentList.filteredStudents [Sample.ana] "876")
  ∧ ¬ inNamesOrCode "876" Sample.ana.
Proof.
  split; [left; reflexivity|].
  unfold inNamesOrCode. rewrite <- !ciSubstring_includes.
  intros [H|[H|H]]; vm_compute in H; discriminate H.
Qed.

(** C3 (amended): the filter of the student list retains, in their order,
    exactly the students for which the term is a case-insensitive
    substring of the given names, the family names or the code, or for
    which the lowercased term is a substring of the national ID; no
    other field is looked at. *)
Theorem C3_student_list_filter students term :
  keepsExactly (λ s, inNamesOrCode term s ∨ inDni term s) students
    (StudentList.filteredStudents students term)
  ∧ ∀ s, In s (StudentList.filteredStudents students term)
         ↔ In s students ∧ (inNamesOrCode term s ∨ inDni term s).
Proof.
  split.
  - apply filter_keepsExactly. intros s. apply list_matchesSearch_spec.
  - intros s. unfold StudentList.filteredStudents.
    rewrite List.filter_In, list_matchesSearch_spec. reflexivity.
Qed.

(** C9: with the empty search term both the filter of the student list
    and the roster search of the attendance form return the loaded list
    unchanged. *)
Theorem C9_empty_search_is_identity (students : list Student.t) :
  StudentList.filteredStudents students "" = students
  ∧ AttendanceForm.filteredStudents students "" = students.
Proof.
  split; apply filter_all; intros s.
  - unfold StudentList.matchesSearch. cbv zeta.
    rewrite toLowerCase_empty, !includes_empty. reflexivity.
  - unfold AttendanceForm.matchesSearch. cbv zeta.
    rewrite toLowerCase_empty, !includes_empty. reflexivity.
Qed.

End SearchClaims.

(** ** The date of a new form *)

Section DateFacts.

Lemma allChars_app p a b :
  Spec.allChars p (a +:+ b) = Spec.allChars p a && Spec.allChars p b.
Proof.
  induction a as [|c a IH]; [reflexivity|].
  rewrite app_String. simpl. rewrite IH. apply andb_assoc.
Qed.

Lemma splitHead_app sep a b :
  Spec.allChars (λ c, negb (Ascii.eqb c sep)) a = true →
  Js.splitHead sep (a +:+ String sep b) = a.
Proof.
  induction a as [|c a IH].
  - intros _. rewrite app_Empty. simpl. rewrite Ascii.eqb_refl. reflexivity.
  - rewrite app_String. cbn [Spec.allChars Js.splitHead].
    intros [Hc Ha]%andb_prop.
    apply negb_true_iff in Hc. rewrite Hc, IH by exact Ha. reflexivity.
Qed.

Lemma digit_notT n : notT (JsDate.digit (n mod 10)) = true.
Proof.
  pose proof (Z.mod_pos_bound n 10 eq_refl) as Hb.
  assert (H : n mod 10 = 0 ∨ n mod 10 = 1 ∨ n mod 10 = 2 ∨ n mod 10 = 3
              ∨ n mod 10 = 4 ∨ n mod 10 = 5 ∨ n mod 10 = 6 ∨ n mod 10 = 7
              ∨ n mod 10 = 8 ∨ n mod 10 = 9) by lia.
  destruct H as [H|[H|[H|[H|[H|[H|[H|[H|[H|H]]]]]]]]]; rewrite H; reflexivity.
Qed.

Lemma pad_notT k n : Spec.allChars notT (JsDate.pad k n) = true.
Proof.
  revert n. induction k as [|k IH]; intros n; [reflexivity|].
  simpl. rewrite allChars_app, IH. simpl. rewrite digit_notT. reflexivity.
Qed.

Lemma isoDate_notT d : Spec.allChars notT (JsDate.isoDate d) = true.
Proof.
  unfold JsDate.isoDate, JsDate.isoYear.
  destruct ((0 <=? JsDate.year d) && (JsDate.year d <=? 9999));
    [|destruct (JsDate.year d <? 0)];
    rewrite !allChars_app, !pad_notT; reflexivity.
Qed.

(** [new Date().toISOString().split('T')[0]] is the calendar date. *)
Lemma today_isoDate now :
  Js.splitHead "T" (JsDate.toISOString now) = JsDate.isoDate now.
Proof.
  unfold JsDate.toISOString.
  change ("T" +:+ JsDate.isoTime now) with (String "T" (JsDate.isoTime now)).
  apply splitHead_app, isoDate_notT.
Qed.

End DateFacts.

(** ** The attendance form *)

Section AttendanceFormFacts.
Import AttendanceForm.

Lemma attendance_calls attendance fd reply :
  List.filter isStoreCall (handleSubmit attendance fd reply) =
  if snd (validate fd) then [attendanceCall attendance fd] else [].
Proof.
  unfold handleSubmit, validate. simpl.
  destruct (Nat.eqb (length (keys (newErrors fd))) 0); simpl; [|reflexivity].
  destruct attendance, reply; reflexivity.
Qed.

Lemma student_calls student fd reply :
  List.filter StudentForm.isStoreCall (StudentForm.handleSubmit student fd reply) =
  if snd (StudentForm.validate fd) then [StudentRules.call student fd] else [].
Proof.
  destruct (snd (StudentForm.validate fd)) eqn:Hv.
  - by apply calls_valid.
  - by apply calls_invalid.
Qed.

End AttendanceFormFacts.

(** ** What the forms hand to the store *)

Section PayloadClaims.

Lemma orNull_normalized s : normalized s (Js.orNull s).
Proof. unfold normalized, Js.orNull. destruct s; simpl; intuition congruence. Qed.

Lemma student_call_data student fd reply e :
  In e (StudentForm.handleSubmit student fd reply) →
  StudentForm.isStoreCall e = true →
  e = StudentRules.call student fd.
Proof.
  intros Hin Hc.
  assert (H : In e (List.filter StudentForm.isStoreCall
                      (StudentForm.handleSubmit student fd reply))).
  { apply List.filter_In. auto. }
  rewrite student_calls in H. destruct (snd (StudentForm.validate fd)).
  - destruct H as [<-|[]]. reflexivity.
  - destruct H.
Qed.

Lemma attendance_call_data attendance fd reply e :
  In e (AttendanceForm.handleSubmit attendance fd reply) →
  AttendanceForm.isStoreCall e = true →
  e = attendanceCall attendance fd.
Proof.
  intros Hin Hc.
  assert (H : In e (List.filter AttendanceForm.isStoreCall
                      (AttendanceForm.handleSubmit attendance fd reply))).
  { apply List.filter_In. auto. }
  rewrite attendance_calls in H. destruct (snd (AttendanceForm.validate fd)).
  - destruct H as [<-|[]]. reflexivity.
  - destruct H.
Qed.

End PayloadClaims.

(** ** A new attendance form *)

Section NewAttendanceForm.
Import AttendanceForm.

Lemma act_keeps a s :
  untouched a →
  estado (form (App.act a s)) = estado (form s)
  ∧ fecha (form (App.act a s)) = fecha (form s).
Proof.
  intros [He Hf]. destruct a; simpl in *; try (split; reflexivity).
  rewrite He, Hf. split; reflexivity.
Qed.

Lemma acts_keep actions s :
  Forall untouched actions →
  estado (form (App.acts actions s)) = estado (form s)
  ∧ fecha (form (App.acts actions s)) = fecha (form s).
Proof.
  intros H. revert s. induction H as [|a actions Ha _ IH]; intros s.
  - split; reflexivity.
  - unfold App.acts in *. simpl.
    destruct (IH (App.act a s)) as [-> ->]. by apply act_keeps.
Qed.

(** C10, as stated, fails: a form opened at 21:30 of 15 January 2025 in
    Lima, where the clock is 300 minutes behind UTC, is dated the 16th,
    and so is the entry that a submission changing neither field
    persists. *)
Lemma C10_counterexample :
  JsDate.toISOString Sample.night_in_lima = "2025-01-16T02:30:00.000Z"
  ∧ JsDate.localDate 300 Sample.night_in_lima = "2025-01-15"
  ∧ estado (initialFormData Sample.night_in_lima) = "presente"
  ∧ fecha (initialFormData Sample.night_in_lima) = "2025-01-16"
  ∧ Forall untouched Sample.fill_in_ana
  ∧ ∃ row,
      Store.attendance
        (fst (App.submitAttendance Sample.key4 2000 None
                (form (App.acts Sample.fill_in_ana (initialState Sample.night_in_lima)))
                Sample.classroom))
      = [row]
      ∧ Attendance.estado row = "presente"
      ∧ Attendance.fecha row = "2025-01-16".
Proof.
  split; [reflexivity|]. split; [reflexivity|]. split; [reflexivity|].
  split; [reflexivity|]. split; [repeat constructor|].
  eexists. split; [reflexivity|]. split; reflexivity.
Qed.

(** C10 (amended): a new attendance form starts with status [presente]
    and with the UTC calendar date of the moment it is opened, the text
    of [toISOString()] up to the T; as long as neither field is changed
    they stay so, a valid submission issues one insert carrying them, and
    the store, when the payload is of the types of its columns, the
    student exists and the generated key is fresh, gains one row with
    status [presente] and that date, and the form reports the save. *)
Theorem C10_new_form_defaults now actions :
  Forall untouched actions →
  let fd := form (App.acts actions (initialState now)) in
  (estado (initialFormData now) = "presente"
   ∧ fecha (initialFormData now) = JsDate.isoDate now)
  ∧ (estado fd = "presente" ∧ fecha fd = JsDate.isoDate now)
  ∧ (∀ reply,
       snd (validate fd) = true →
       ∃ d, List.filter isStoreCall (handleSubmit None fd reply) = [Insert d]
            ∧ d_estado d = "presente" ∧ d_fecha d = JsDate.isoDate now)
  ∧ (∀ uuid t st,
       snd (validate fd) = true →
       Store.typed (buildData fd) = true →
       Store.has_student st (student_id fd) = true →
       existsb (Store.a_is_id uuid) (Store.attendance st) = false →
       ∃ row,
         Store.attendance (fst (App.submitAttendance uuid t None fd st))
         = (Store.attendance st ++ [row])%list
         ∧ Attendance.estado row = "presente"
         ∧ Attendance.fecha row = JsDate.isoDate now
         ∧ In OnSave (snd (App.submitAttendance uuid t None fd st))).
Proof.
  intros Hact fd.
  assert (Hinit : estado (initialFormData now) = "presente"
                  ∧ fecha (initialFormData now) = JsDate.isoDate now).
  { split; [reflexivity|]. apply today_isoDate. }
  assert (Hfd : estado fd = "presente" ∧ fecha fd = JsDate.isoDate now).
  { destruct (acts_keep actions (initialState now) Hact) as [He Hf].
    subst fd. rewrite He, Hf. exact Hinit. }
  destruct Hfd as [He Hf].
  split; [exact Hinit|]. split; [split; assumption|]. split.
  - intros reply Hv. exists (buildData fd).
    rewrite attendance_calls, Hv. simpl. auto.
  - intros uuid t st Hv _ Hs Hpk.
    exists (Store.new_attendance uuid t (buildData fd)).
    unfold App.submitAttendance, App.attendanceRequest. rewrite Hv.
    unfold Store.exec, Store.attendance_violation. simpl.
    rewrite He, Hs. simpl.
    change (existsb _ (Store.attendance st))
      with (existsb (Store.a_is_id uuid) (Store.attendance st)).
    rewrite Hpk. simpl. repeat split; try assumption.
    do 2 right. unfold validate in Hv. simpl in Hv. rewrite Hv. simpl. auto.
Qed.

(** C10 for a form opened at 23:05 UTC of 15 January 2025, filled in for
    Ana and submitted to the class after a day of the register. *)
Lemma C10_new_form_defaults_witness :
  Forall untouched Sample.fill_in_ana
  ∧ JsDate.toISOString Sample.evening = "2025-01-15T23:05:09.007Z"
  ∧ fecha (form (App.acts Sample.fill_in_ana (initialState Sample.evening))) = "2025-01-15"
  ∧ ∃ row,
      Store.attendance
        (fst (App.submitAttendance Sample.key6 3000 None
                (form (App.acts Sample.fill_in_ana (initialState Sample.evening)))
                Sample.day))
      = (Store.attendance Sample.day ++ [row])%list
      ∧ Attendance.estado row = "presente"
      ∧ Attendance.fecha row = "2025-01-15"
      ∧ In OnSave
          (snd (App.submitAttendance Sample.key6 3000 None
                  (form (App.acts Sample.fill_in_ana (initialState Sample.evening)))
                  Sample.day)).
Proof.
  assert (H : Forall untouched Sample.fill_in_ana).
  { repeat constructor. }
  split; [exact H|]. split; [reflexivity|].
  destruct (C10_new_form_defaults Sample.evening Sample.fill_in_ana H)
    as (_ & [_ Hf] & _ & Hrow).
  split; [exact Hf|].
  exact (Hrow Sample.key6 3000 Sample.day eq_refl eq_refl eq_refl eq_refl).
Defined.

End NewAttendanceForm.

(** ** Sorting *)

Section SortFacts.
Context {A : Type} (cmp : A → A → comparison).
Hypothesis cmp_antisym : ∀ x y, cmp y x = CompOpp (cmp x y).

Lemma insertSorted_perm x l : Permutation (insertSorted cmp x l) (x :: l).
Proof.
  induction l as [|y l IH]; simpl; [reflexivity|].
  destruct (cmp x y); try reflexivity.
  rewrite IH. apply perm_swap.
Qed.

Lemma sortBy_perm l : Permutation (sortBy cmp l) l.
Proof.
  induction l as [|x l IH]; simpl; [reflexivity|].
  rewrite insertSorted_perm. by constructor.
Qed.

Lemma sortBy_In x l : In x (sortBy cmp l) ↔ In x l.
Proof.
  split; apply Permutation_in; [|symmetry]; apply sortBy_perm.
Qed.

Lemma insertSorted_hd y x l :
  notAfter cmp y x → HdRel (notAfter cmp) y l → HdRel (notAfter cmp) y (insertSorted cmp x l).
Proof.
  intros Hyx Hl. destruct l as [|z l]; simpl; [by constructor|].
  inversion Hl; subst. destruct (cmp x z); by constructor.
Qed.

Lemma insertSorted_sorted x l :
  Sorted (notAfter cmp) l → Sorted (notAfter cmp) (insertSorted cmp x l).
Proof.
  induction 1 as [|y l Hl IH Hy]; simpl; [by repeat constructor|].
  destruct (cmp x y) eqn:Hxy.
  - constructor; [by constructor|]. constructor. unfold notAfter. congruence.
  - constructor; [by constructor|]. constructor. unfold notAfter. congruence.
  - constructor; [exact IH|]. apply insertSorted_hd; [|exact Hy].
    unfold notAfter. rewrite cmp_antisym, Hxy. discriminate.
Qed.

Lemma sortBy_sorted l : Sorted (notAfter cmp) (sortBy cmp l).
Proof.
  induction l as [|x l IH]; simpl; [constructor|].
  by apply insertSorted_sorted.
Qed.

End SortFacts.

(** ** The store *)

Section StoreFacts.

Lemma has_student_In st id :
  Store.has_student st id = true ↔
  ∃ s, In s (Store.students st) ∧ Student.id s = id.
Proof.
  unfold Store.has_student. rewrite List.existsb_exists.
  split; intros [s [Hin Hs]]; exists s; split; try assumption.
  - by apply String.eqb_eq.
  - by apply String.eqb_eq.
Qed.

Lemma first_violation_None {A} (check : A → option GatewayError.t) rows :
  Store.first_violation check rows = None → ∀ r, In r rows → check r = None.
Proof.
  induction rows as [|x rows IH]; simpl; [tauto|].
  destruct (check x) eqn:Hx; [discriminate|].
  intros H r [<-|Hr]; auto.
Qed.

Lemma attendance_violation_fk st others a :
  Store.attendance_violation st others a = None →
  Store.has_student st (Attendance.student_id a) = true.
Proof.
  unfold Store.attendance_violation.
  destruct (negb (Store.estado_check _)); [discriminate|].
  destruct (existsb _ others); [discriminate|].
  destruct (Store.has_student st _); [reflexivity|discriminate].
Qed.

Lemma exec_integrity uuid now req st :
  Store.referential_integrity st →
  Store.referential_integrity (fst (Store.exec uuid now req st)).
Proof.
  unfold Store.referential_integrity. intros Hst.
  destruct req as [d|d id|id|d|d id|id]; simpl.
  - destruct (Store.student_violation _ _); simpl; [exact Hst|].
    intros a Ha. destruct (Hst a Ha) as [s [Hs Hid]].
    exists s. split; [|exact Hid]. apply List.in_or_app. by left.
  - destruct (Store.first_violation _ _); simpl; [exact Hst|].
    intros a Ha. destruct (Hst a Ha) as [s [Hs Hid]].
    exists (if Store.is_id id s then Store.set_student now d s else s). split.
    + apply List.in_map_iff. by exists s.
    + destruct (Store.is_id id s); exact Hid.
  - intros a [Ha Hown]%List.filter_In. destruct (Hst a Ha) as [s [Hs Hid]].
    exists s. split; [|exact Hid]. apply List.filter_In. split; [exact Hs|].
    unfold Store.not_id, Store.is_id. rewrite Hid. exact Hown.
  - destruct (Store.attendance_violation _ _ _) eqn:Hv; simpl; [exact Hst|].
    intros a [Ha|[<-|[]]]%List.in_app_or; [by apply Hst|].
    by apply has_student_In, (attendance_violation_fk st (Store.attendance st)).
  - destruct (Store.first_violation _ _) eqn:Hv; simpl; [exact Hst|].
    intros a [old [Ho Hin]]%List.in_map_iff.
    destruct (Store.a_is_id id old) eqn:Hid; [|subst a; by apply Hst].
    subst a. apply has_student_In.
    apply (attendance_violation_fk st (List.filter (Store.a_not_id id) (Store.attendance st))).
    apply (first_violation_None _ _ Hv). apply List.in_map, List.filter_In. auto.
  - intros a [Ha _]%List.filter_In. by apply Hst.
Qed.

(** The foreign key holds in every state of the store. *)
Lemma reachable_integrity st :
  Store.reachable st → Store.referential_integrity st.
Proof.
  induction 1 as [|uuid now req st _ IH].
  - intros a [].
  - by apply exec_integrity.
Qed.

Lemma deleteStudent_attendance id st a :
  In a (Store.attendance (App.deleteStudent id st)) ↔
  In a (Store.attendance st) ∧ Attendance.student_id a ≠ id.
Proof.
  unfold App.deleteStudent. simpl. rewrite List.filter_In.
  unfold Store.not_owned_by. rewrite negb_true_iff, String.eqb_neq. reflexivity.
Qed.

Lemma deleteStudent_students id st s :
  In s (Store.students (App.deleteStudent id st)) ↔
  In s (Store.students st) ∧ Student.id s ≠ id.
Proof.
  unfold App.deleteStudent. simpl. rewrite List.filter_In.
  unfold Store.not_id, Store.is_id. rewrite negb_true_iff, String.eqb_neq. reflexivity.
Qed.

Lemma run_rows st q r :
  In r (Query.run st q) →
  In (AttendanceWithStudent.row r) (Store.attendance st)
  ∧ r = Query.embed st (AttendanceWithStudent.row r).
Proof.
  unfold Query.run. intros [a [<- Ha]]%List.in_map_iff. simpl.
  split; [|reflexivity].
  apply (Permutation_in _ (sortBy_perm _ _)) in Ha.
  by apply List.filter_In in Ha as [Ha _].
Qed.

End StoreFacts.

Section StoreClaims.

(** C7: deleting a student removes the student and every attendance
    entry whose [student_id] references it, and only those, so that no
    query on the store afterwards returns an entry referencing the
    deleted student; and in every reachable state of the store each
    attendance row references an existing student row. *)
Theorem C7_delete_cascades :
  (∀ id nombre reply,
     In (StudentList.Delete id) (StudentList.handleDelete id nombre true reply))
  ∧ (∀ id st,
       (∀ s, In s (Store.students (App.deleteStudent id st)) → Student.id s ≠ id)
       ∧ (∀ a, In a (Store.attendance (App.deleteStudent id st))
               ↔ In a (Store.attendance st) ∧ Attendance.student_id a ≠ id)
       ∧ (∀ q r, In r (Query.run (App.deleteStudent id st) q) →
                 Attendance.student_id (AttendanceWithStudent.row r) ≠ id))
  ∧ (∀ st, Store.reachable st → Store.referential_integrity st).
Proof.
  split; [|split].
  - intros id nombre reply. simpl. auto.
  - intros id st. split; [|split].
    + intros s Hs. by apply deleteStudent_students in Hs as [_ Hs].
    + intros a. apply deleteStudent_attendance.
    + intros q r [Hr _]%run_rows. by apply deleteStudent_attendance in Hr as [_ Hr].
  - apply reachable_integrity.
Qed.

End StoreClaims.

(** ** The attendance list *)

Section AttendanceListFacts.
Import ListRules.

Lemma value_compare_antisym v w :
  Query.value_compare w v = CompOpp (Query.value_compare v w).
Proof.
  destruct v, w; simpl; try reflexivity.
  - apply String.compare_antisym.
  - apply Z.compare_antisym.
Qed.

Lemma row_compare_antisym os a b :
  Query.row_compare os b a = CompOpp (Query.row_compare os a b).
Proof.
  induction os as [|[c asc] os IH]; simpl; [reflexivity|].
  rewrite (value_compare_antisym (Query.get c a) (Query.get c b)).
  destruct asc, (Query.value_compare (Query.get c a) (Query.get c b)); simpl;
    first [exact IH|reflexivity].
Qed.

Lemma query_orders filterDate filterCurso :
  Query.orders (AttendanceList.query filterDate filterCurso) =
  [(Query.fecha, false); (Query.created_at, false)].
Proof.
  unfold AttendanceList.query.
  destruct (Js.truthy filterDate), (Js.truthy filterCurso); reflexivity.
Qed.

Lemma query_filters filterDate filterCurso :
  Query.filters (AttendanceList.query filterDate filterCurso) =
  ((if Js.truthy filterDate then [(Query.fecha, filterDate)] else [])
   ++ (if Js.truthy filterCurso then [(Query.curso, filterCurso)] else []))%list.
Proof.
  unfold AttendanceList.query.
  destruct (Js.truthy filterDate), (Js.truthy filterCurso); reflexivity.
Qed.

Lemma compare_Lt_Gt x y : String.compare x y = Gt ↔ String.compare y x = Lt.
Proof.
  rewrite (String.compare_antisym x y). destruct (String.compare y x); simpl;
    split; congruence.
Qed.

Lemma compare_refl x : String.compare x x = Eq.
Proof.
  pose proof (String.compare_antisym x x) as H.
  destruct (String.compare x x); simpl in H; congruence.
Qed.

Lemma compare_Lt_trans x y z :
  String.compare x y = Lt → String.compare y z = Lt → String.compare x z = Lt.
Proof.
  intros Hxy Hyz.
  assert (Hle : String.le x z).
  { transitivity y; unfold String.le, String.leb; [rewrite Hxy|rewrite Hyz]; exact I. }
  unfold String.le, String.leb in Hle.
  destruct (String.compare x z) eqn:Hxz; [|reflexivity|destruct Hle].
  apply String.compare_eq_iff in Hxz. subst z.
  apply compare_Lt_Gt in Hyz. congruence.
Qed.

Lemma notAfter_newestFirst a b :
  notAfter (Query.row_compare [(Query.fecha, false); (Query.created_at, false)]) a b
  ↔ newestFirst a b.
Proof.
  unfold notAfter, newestFirst, dateBefore. simpl.
  destruct (String.compare (Attendance.fecha a) (Attendance.fecha b)) eqn:Hf; simpl.
  - apply String.compare_eq_iff in Hf. rewrite Hf, compare_refl.
    destruct (Z.compare_spec (Attendance.created_at a) (Attendance.created_at b))
      as [Hc|Hc|Hc]; simpl.
    + split; [|discriminate]. intros _. right. split; [reflexivity|lia].
    + split; [congruence|]. intros [Hd|[_ Hd]]; [discriminate|lia].
    + split; [|discriminate]. intros _. right. split; [reflexivity|lia].
  - split; [congruence|]. intros [H|[H _]].
    + apply compare_Lt_Gt in H. congruence.
    + rewrite H, compare_refl in Hf. discriminate.
  - split; [|discriminate]. intros _. left. by apply compare_Lt_Gt.
Qed.

Lemma newestFirst_trans a b c :
  newestFirst a b → newestFirst b c → newestFirst a c.
Proof.
  unfold newestFirst, dateBefore.
  intros [H1|[E1 H1]] [H2|[E2 H2]].
  - left. eapply compare_Lt_trans; eassumption.
  - left. congruence.
  - left. congruence.
  - right. split; [congruence|lia].
Qed.

Lemma run_newestFirst st filterDate filterCurso :
  StronglySorted newestFirst
    (List.map AttendanceWithStudent.row
       (Query.run st (AttendanceList.query filterDate filterCurso))).
Proof.
  unfold Query.run. rewrite List.map_map. simpl. rewrite List.map_id.
  apply Sorted_StronglySorted.
  { intros a b c. apply newestFirst_trans. }
  rewrite query_orders.
  eapply Sorted_ind with (P := Sorted newestFirst);
    [constructor| |apply sortBy_sorted, row_compare_antisym].
  intros a l _ IH Hhd. constructor; [exact IH|].
  destruct Hhd; constructor. by apply notAfter_newestFirst.
Qed.

End AttendanceListFacts.

Section AttendanceListClaims.
Import ListRules.

Lemma matches_both filterDate filterCurso a :
  filterDate ≠ EmptyString → filterCurso ≠ EmptyString →
  Query.matches (Query.filters (AttendanceList.query filterDate filterCurso)) a
  = matchesBoth filterDate filterCurso a.
Proof.
  intros Hd%truthy_true Hc%truthy_true. rewrite query_filters, Hd, Hc.
  unfold matchesBoth. simpl. by rewrite andb_true_r.
Qed.

Lemma embed_owner st a :
  Store.referential_integrity st → In a (Store.attendance st) →
  ∃ s, AttendanceWithStudent.students (Query.embed st a) = Some s
       ∧ In s (Store.students st)
       ∧ Student.id s = Attendance.student_id a.
Proof.
  intros Hst Ha. simpl.
  destruct (List.find _ (Store.students st)) as [s|] eqn:Hf.
  - apply List.find_some in Hf as [Hin Hid]. exists s.
    split; [reflexivity|]. split; [exact Hin|]. by apply String.eqb_eq.
  - destruct (Hst a Ha) as [s [Hin Hid]].
    apply (List.find_none _ _ Hf) in Hin. unfold Store.is_id in Hin.
    rewrite Hid, String.eqb_refl in Hin. discriminate.
Qed.

Lemma load_attendances st s :
  AttendanceList.attendances (AttendanceList.load st s) =
  Query.run st (AttendanceList.query (AttendanceList.filterDate s)
                  (AttendanceList.filterCurso s)).
Proof. reflexivity. Qed.

Lemma run_rows_perm st q :
  Permutation (List.map AttendanceWithStudent.row (Query.run st q))
    (List.filter (Query.matches (Query.filters q)) (Store.attendance st)).
Proof.
  unfold Query.run. rewrite List.map_map. simpl. rewrite List.map_id.
  apply sortBy_perm.
Qed.

(** C5: with a date and a course name set, the attendance list loads
    only entries of that date and that course, and all of them; under the
    foreign key each carries its owning student; and they come ordered by
    date descending, then by creation time descending. *)
Theorem C5_filtered_attendance_list st s :
  AttendanceList.filterDate s ≠ EmptyString →
  AttendanceList.filterCurso s ≠ EmptyString →
  let data := AttendanceList.attendances (AttendanceList.load st s) in
  (∀ r, In r data →
        Attendance.fecha (AttendanceWithStudent.row r) = AttendanceList.filterDate s
        ∧ Attendance.curso (AttendanceWithStudent.row r) = AttendanceList.filterCurso s)
  ∧ Permutation (List.map AttendanceWithStudent.row data)
      (List.filter (matchesBoth (AttendanceList.filterDate s) (AttendanceList.filterCurso s))
         (Store.attendance st))
  ∧ (Store.referential_integrity st →
     ∀ r, In r data →
          ∃ owner, AttendanceWithStudent.students r = Some owner
                   ∧ In owner (Store.students st)
                   ∧ Student.id owner = Attendance.student_id (AttendanceWithStudent.row r))
  ∧ StronglySorted newestFirst (List.map AttendanceWithStudent.row data).
Proof.
  intros Hd Hc data. subst data. rewrite load_attendances.
  assert (Hperm : Permutation
            (List.map AttendanceWithStudent.row
               (Query.run st (AttendanceList.query (AttendanceList.filterDate s)
                                (AttendanceList.filterCurso s))))
            (List.filter (matchesBoth (AttendanceList.filterDate s)
                            (AttendanceList.filterCurso s)) (Store.attendance st))).
  { rewrite run_rows_perm. erewrite List.filter_ext; [reflexivity|].
    intros a. by apply matches_both. }
  split; [|split; [exact Hperm|split]].
  - intros r Hr.
    apply (List.in_map AttendanceWithStudent.row) in Hr.
    apply (Permutation_in _ Hperm) in Hr. apply List.filter_In in Hr as [_ Hr].
    apply andb_prop in Hr as [H1 H2]. split; by apply String.eqb_eq.
  - intros Hst r Hr. apply run_rows in Hr as [Hin ->]. simpl.
    by apply embed_owner.
  - apply run_newestFirst.
Qed.

(** C5 on the January store, for 15 January and mathematics. *)
Lemma C5_filtered_attendance_list_witness :
  AttendanceList.filterDate Sample.jan15_mate ≠ EmptyString
  ∧ AttendanceList.filterCurso Sample.jan15_mate ≠ EmptyString
  ∧ (∀ r, In r (AttendanceList.attendances
                  (AttendanceList.load Sample.january Sample.jan15_mate)) →
          Attendance.fecha (AttendanceWithStudent.row r) = "2025-01-15"
          ∧ Attendance.curso (AttendanceWithStudent.row r) = Sample.mate)
  ∧ StronglySorted newestFirst
      (List.map AttendanceWithStudent.row
         (AttendanceList.attendances
            (AttendanceList.load Sample.january Sample.jan15_mate))).
Proof.
  assert (Hd : AttendanceList.filterDate Sample.jan15_mate ≠ EmptyString)
    by discriminate.
  assert (Hc : AttendanceList.filterCurso Sample.jan15_mate ≠ EmptyString)
    by discriminate.
  split; [exact Hd|]. split; [exact Hc|].
  destruct (C5_filtered_attendance_list Sample.january Sample.jan15_mate Hd Hc)
    as (Honly & _ & _ & Hsorted).
  split; [exact Honly|exact Hsorted].
Defined.

Lemma setOf_In x xs : In x (AttendanceList.setOf xs) ↔ In x xs.
Proof.
  induction xs as [|y xs IH]; [reflexivity|].
  cbn [AttendanceList.setOf In].
  rewrite List.filter_In, IH, negb_true_iff, String.eqb_neq.
  destruct (String.eqb_spec y x); intuition congruence.
Qed.

Lemma setOf_NoDup xs : List.NoDup (AttendanceList.setOf xs).
Proof.
  induction xs as [|y xs IH]; cbn [AttendanceList.setOf]; constructor.
  - rewrite List.filter_In, negb_true_iff, String.eqb_neq. tauto.
  - by apply List.NoDup_filter.
Qed.

Lemma notAfter_trans x y z :
  notAfter String.compare x y → notAfter String.compare y z →
  notAfter String.compare x z.
Proof.
  unfold notAfter. intros Hxy Hyz Hxz.
  destruct (String.compare x y) eqn:E1; [| |congruence].
  - apply String.compare_eq_iff in E1. congruence.
  - destruct (String.compare y z) eqn:E2; [| |congruence].
    + apply String.compare_eq_iff in E2. congruence.
    + rewrite (compare_Lt_trans x y z E1 E2) in Hxz. discriminate.
Qed.

Lemma sorted_strict l :
  List.NoDup l → StronglySorted (notAfter String.compare) l →
  StronglySorted ascending l.
Proof.
  intros Hnd Hs. induction Hs as [|x l Hs IH Hx]; constructor.
  - apply IH. by inversion Hnd.
  - inversion Hnd as [|? ? Hnot _]; subst. rewrite List.Forall_forall in *.
    intros y Hy. specialize (Hx y Hy). unfold notAfter, ascending in *.
    destruct (String.compare x y) eqn:E; [|reflexivity|congruence].
    apply String.compare_eq_iff in E. congruence.
Qed.

Lemma uniqueCursos_In c data :
  In c (AttendanceList.uniqueCursos data) ↔ ∃ r, In r data ∧ courseOf r = c.
Proof.
  unfold AttendanceList.uniqueCursos.
  rewrite (sortBy_In String.compare), setOf_In, List.in_map_iff.
  split; intros [r [H1 H2]]; exists r; auto.
Qed.

Lemma uniqueCursos_sorted data :
  StronglySorted ascending (AttendanceList.uniqueCursos data).
Proof.
  unfold AttendanceList.uniqueCursos. apply sorted_strict.
  - eapply Permutation_NoDup; [symmetry; apply sortBy_perm|apply setOf_NoDup].
  - apply Sorted_StronglySorted; [intros x y z; apply notAfter_trans|].
    apply sortBy_sorted. intros x y. apply String.compare_antisym.
Qed.

(** C6: after a load, the course names offered by the course filter are
    the distinct course names of the loaded rows - the answer to the
    query with the current date and course filters - in ascending order
    without repetition; they are not the course names of the whole
    table: a course that occurs only on another day is not offered. *)
Theorem C6_course_options_from_loaded_rows :
  (∀ st s,
     AttendanceList.attendances (AttendanceList.load st s)
     = Query.run st (AttendanceList.query (AttendanceList.filterDate s)
                       (AttendanceList.filterCurso s))
     ∧ (∀ c, In c (AttendanceList.courseOptions (AttendanceList.load st s))
             ↔ ∃ r, In r (AttendanceList.attendances (AttendanceList.load st s))
                    ∧ courseOf r = c)
     ∧ StronglySorted ascending
         (AttendanceList.courseOptions (AttendanceList.load st s)))
  ∧ (∃ st s c,
       (∃ a, In a (Store.attendance st) ∧ Attendance.curso a = c)
       ∧ ¬ In c (AttendanceList.courseOptions (AttendanceList.load st s))).
Proof.
  split.
  - intros st s. split; [reflexivity|]. split.
    + intros c. apply uniqueCursos_In.
    + apply uniqueCursos_sorted.
  - exists Sample.january, Sample.jan15, "Taller". split.
    + exists (Sample.row "a-4" "2025-01-16" "Taller" 2004). split; [|reflexivity].
      simpl. tauto.
    + vm_compute. intros [H|[H|[]]]; discriminate H.
Qed.

End AttendanceListClaims.

(** * Further properties of the code *)

(** ** The attendance form: validation and outcome *)

Section AttendanceFormMore.
Import AttendanceForm.

Lemma attendance_newErrors_lookup fd k :
  is_Some (newErrors fd !! k) ↔
  ("student_id" = k ∧ negb (Js.truthy (student_id fd)) = true)
  ∨ ("fecha" = k ∧ negb (Js.truthy (fecha fd)) = true)
  ∨ ("curso" = k ∧ negb (Js.truthy (Js.trim (curso fd))) = true).
Proof.
  unfold newErrors. simpl. rewrite !lookup_if, lookup_empty, is_Some_alt.
  intuition discriminate.
Qed.

Lemma attendance_validate_ok fd : snd (validate fd) = true ↔ newErrors fd = ∅.
Proof. apply keys_nil. Qed.

Lemma attendance_handleSubmit_invalid attendance fd reply :
  snd (validate fd) = false →
  handleSubmit attendance fd reply = [PreventDefault; SetErrors (newErrors fd)].
Proof. unfold handleSubmit, validate. simpl. intros ->. reflexivity. Qed.

Lemma attendance_handleSubmit_valid attendance fd reply :
  snd (validate fd) = true →
  handleSubmit attendance fd reply =
  PreventDefault :: SetErrors (newErrors fd) :: SetLoading true ::
  attendanceCall attendance fd ::
  match reply with
  | None => [OnSave]
  | Some err => [ConsoleError err; Alert msg_alert]
  end ++ [SetLoading false].
Proof.
  unfold handleSubmit, validate. simpl. intros ->. destruct attendance; reflexivity.
Qed.

(** X1: the attendance form publishes an entry exactly for a missing
    student, a missing date and a blank course; when there is one the
    handler stops after publishing (no gateway call), and otherwise it
    issues exactly one call, the update of the edited entry or the insert. *)
Theorem attendance_validation attendance fd reply :
  (∀ k, is_Some (newErrors fd !! k) ↔
        (k = "student_id" ∧ student_id fd = EmptyString)
        ∨ (k = "fecha" ∧ fecha fd = EmptyString)
        ∨ (k = "curso" ∧ Spec.blank (curso fd)))
  ∧ (snd (validate fd) = false ↔
     student_id fd = EmptyString ∨ fecha fd = EmptyString ∨ Spec.blank (curso fd))
  ∧ (snd (validate fd) = false →
     handleSubmit attendance fd reply = [PreventDefault; SetErrors (newErrors fd)])
  ∧ (snd (validate fd) = true →
     List.filter isStoreCall (handleSubmit attendance fd reply)
     = [attendanceCall attendance fd]).
Proof.
  assert (Hk : ∀ k, is_Some (newErrors fd !! k) ↔
                    (k = "student_id" ∧ student_id fd = EmptyString)
                    ∨ (k = "fecha" ∧ fecha fd = EmptyString)
                    ∨ (k = "curso" ∧ Spec.blank (curso fd))).
  { intros k. rewrite attendance_newErrors_lookup, trim_falsy, !negb_true_iff,
      !truthy_false. intuition. }
  split; [exact Hk|]. split; [|split].
  - split.
    + intros Hv. destruct (decide (newErrors fd = ∅)) as [He|He].
      { apply attendance_validate_ok in He. congruence. }
      apply map_choose in He as (k & m & Hkm).
      assert (Hs : is_Some (newErrors fd !! k)) by (by exists m).
      apply Hk in Hs. tauto.
    + intros H. destruct (snd (validate fd)) eqn:Hv; [|reflexivity].
      apply attendance_validate_ok in Hv.
      assert (Hs : ∃ k, is_Some (newErrors fd !! k)).
      { destruct H as [H|[H|H]];
          [exists "student_id"|exists "fecha"|exists "curso"]; apply Hk; tauto. }
      destruct Hs as [k Hs]. rewrite Hv, lookup_empty in Hs. by destruct Hs.
  - apply attendance_handleSubmit_invalid.
  - intros Hv. rewrite attendance_calls, Hv. reflexivity.
Qed.

Lemma attendance_outcome_cases attendance fd reply :
  (In OnSave (handleSubmit attendance fd reply)
   ↔ snd (validate fd) = true ∧ reply = None)
  ∧ (In (Alert msg_alert) (handleSubmit attendance fd reply)
     ↔ snd (validate fd) = true ∧ reply ≠ None)
  ∧ (In (SetLoading true) (handleSubmit attendance fd reply)
     ↔ last (handleSubmit attendance fd reply) = Some (SetLoading false)).
Proof.
  destruct (snd (validate fd)) eqn:Hv.
  - rewrite attendance_handleSubmit_valid by exact Hv.
    destruct reply as [err|]; simpl; destruct attendance; simpl;
      intuition (try discriminate; try congruence).
  - rewrite attendance_handleSubmit_invalid by exact Hv. simpl.
    intuition (try discriminate; try congruence).
Qed.

(** X2: the attendance form calls [onSave] exactly when the data is valid
    and the gateway answers without error; every failed call is logged
    and alerted; and whenever the form was put in the loading state, the
    last thing the handler does is to leave it. *)
Theorem attendance_outcome attendance fd reply :
  (In OnSave (handleSubmit attendance fd reply)
   ↔ snd (validate fd) = true ∧ reply = None)
  ∧ (In (Alert msg_alert) (handleSubmit attendance fd reply)
     ↔ snd (validate fd) = true ∧ reply ≠ None)
  ∧ (In (SetLoading true) (handleSubmit attendance fd reply)
     ↔ last (handleSubmit attendance fd reply) = Some (SetLoading false)).
Proof. apply attendance_outcome_cases. Qed.

End AttendanceFormMore.

(** ** The student form: outcome, alone and against the store *)

Section StudentFormMore.
Import StudentForm.

Lemma last_bracket {A} (a b c d : A) mid x :
  last (a :: b :: c :: d :: mid ++ [x]) = Some x.
Proof.
  change (a :: b :: c :: d :: mid ++ [x]) with (([a; b; c; d] ++ mid) ++ [x])%list.
  apply last_snoc.
Qed.

Lemma onError_alert err :
  In (Alert msg_alert) (onError err) ↔ GatewayError.code err ≠ Some "23505".
Proof.
  unfold onError. destruct (bool_decide_reflect (GatewayError.code err = Some "23505")).
  - repeat match goal with |- context [if ?b then _ else _] => destruct b end;
      simpl; intuition discriminate.
  - simpl. intuition.
Qed.

Lemma onError_logs err : In (ConsoleError err) (onError err).
Proof. left. reflexivity. Qed.

Lemma onError_quiet err :
  ¬ In OnSave (onError err) ∧ ¬ In (SetLoading true) (onError err).
Proof.
  unfold onError.
  repeat match goal with |- context [if ?b then _ else _] => destruct b end;
    simpl; intuition discriminate.
Qed.

Lemma student_outcome_cases student fd reply :
  (In OnSave (handleSubmit student fd reply)
   ↔ snd (validate fd) = true ∧ reply = None)
  ∧ (In (Alert msg_alert) (handleSubmit student fd reply)
     ↔ snd (validate fd) = true
       ∧ ∃ err, reply = Some err ∧ GatewayError.code err ≠ Some "23505")
  ∧ (∀ err, snd (validate fd) = true → reply = Some err →
            In (ConsoleError err) (handleSubmit student fd reply))
  ∧ (In (SetLoading true) (handleSubmit student fd reply)
     ↔ last (handleSubmit student fd reply) = Some (SetLoading false)).
Proof.
  destruct (snd (validate fd)) eqn:Hv.
  - rewrite handleSubmit_valid by exact Hv. rewrite last_bracket.
    assert (Hc : StudentRules.call student fd ≠ OnSave
                 ∧ StudentRules.call student fd ≠ Alert msg_alert).
    { destruct student; split; discriminate. }
    destruct Hc as (Hc1 & Hc2).
    destruct reply as [err|].
    + pose proof (onError_alert err) as Ha. pose proof (onError_logs err) as Hl.
      destruct (onError_quiet err) as [Hq _].
      set (l := onError err) in *. clearbody l.
      cbn [In]; rewrite ?List.in_app_iff; cbn [In].
      split; [|split; [|split]].
      * split; [|intros [_ H]; discriminate].
        intros [H|[H|[H|[H|[H|[H|[]]]]]]]; try discriminate; contradiction.
      * split.
        -- intros [H|[H|[H|[H|[H|[H|[]]]]]]]; try discriminate; try contradiction.
           split; [reflexivity|]. exists err. split; [reflexivity|]. by apply Ha.
        -- intros [_ (e & [= <-] & He)]. do 4 right. left. by apply Ha.
      * intros e _ [= <-]. do 4 right. apply List.in_or_app. left. exact Hl.
      * split; [reflexivity|]. intros _. do 2 right. left. reflexivity.
    + cbn [In]; rewrite ?List.in_app_iff; cbn [In].
      split; [|split; [|split]].
      * split; [auto|]. intros _. do 4 right. left. left. reflexivity.
      * split.
        -- intros [H|[H|[H|[H|[[H|[]]|[H|[]]]]]]]; try discriminate; contradiction.
        -- intros [_ (e & He & _)]. discriminate.
      * intros e _ He. discriminate.
      * split; [reflexivity|]. intros _. do 2 right. left. reflexivity.
  - rewrite handleSubmit_invalid by exact Hv. cbn [In last].
    split; [|split; [|split]].
    + split; [|intros [H _]; discriminate].
      intros [H|[H|[]]]; discriminate.
    + split; [|intros [H _]; discriminate].
      intros [H|[H|[]]]; discriminate.
    + intros e H. discriminate.
    + split; [|discriminate]. intros [H|[H|[]]]; discriminate.
Qed.

(** X3: the student form calls [onSave] exactly when the data is valid and
    the gateway answers without error; it raises the alert exactly for a
    failed call whose code is not 23505; every failed call is logged; and
    whenever the form was put in the loading state, the last thing the
    handler does is to leave it. *)
Theorem student_outcome student fd reply :
  (In OnSave (handleSubmit student fd reply)
   ↔ snd (validate fd) = true ∧ reply = None)
  ∧ (In (Alert msg_alert) (handleSubmit student fd reply)
     ↔ snd (validate fd) = true
       ∧ ∃ err, reply = Some err ∧ GatewayError.code err ≠ Some "23505")
  ∧ (∀ err, snd (validate fd) = true → reply = Some err →
            In (ConsoleError err) (handleSubmit student fd reply))
  ∧ (In (SetLoading true) (handleSubmit student fd reply)
     ↔ last (handleSubmit student fd reply) = Some (SetLoading false)).
Proof. apply student_outcome_cases. Qed.

End StudentFormMore.

(** ** What the store answers to the student form *)

Section StudentStore.
Import StudentForm.

Lemma first_violation_Some {A} (check : A → option GatewayError.t) rows e :
  Store.first_violation check rows = Some e → ∃ r, In r rows ∧ check r = Some e.
Proof.
  induction rows as [|x rows IH]; simpl; [discriminate|].
  destruct (check x) eqn:Hx.
  - intros [= <-]. exists x. auto.
  - intros H. destruct (IH H) as (r & Hr & He). exists r. auto.
Qed.

Lemma optEqb_true a b : Store.optEqb a b = true ↔ ∃ m, a = Some m ∧ b = Some m.
Proof.
  destruct a as [x|], b as [y|]; simpl.
  - rewrite String.eqb_eq. split; [intros ->; eauto|intros (m & [= ->] & [= ->]); auto].
  - split; [discriminate|]. intros (m & _ & H). discriminate.
  - split; [discriminate|]. intros (m & H & _). discriminate.
  - split; [discriminate|]. intros (m & H & _). discriminate.
Qed.

Lemma existsb_false {A} (f : A → bool) l :
  existsb f l = false ↔ ∀ x, In x l → f x = false.
Proof.
  induction l as [|y l IH]; simpl; [tauto|].
  rewrite orb_false_iff, IH. split.
  - intros [Hy Hl] x [<-|Hx]; auto.
  - intros H. split; [apply H; auto|]. intros x Hx. apply H. auto.
Qed.

Lemma semestre_check_int4 n : Store.semestre_check n = true → Pg.int4 n = true.
Proof.
  unfold Store.semestre_check, Pg.int4. rewrite !andb_true_iff, !Z.leb_le. lia.
Qed.

(** The answer of the checks on a student row, case by case. *)
Lemma student_violation_cases others s :
  match Store.student_violation others s with
  | None =>
      Store.semestre_check (Student.semestre s) = true
      ∧ ∀ o, In o others → Integrity.compatible o s
  | Some e =>
      (Store.semestre_check (Student.semestre s) = false
       ∧ e = (if Pg.int4 (Student.semestre s)
              then Store.check_violation "students" "students_semestre_check"
              else Store.out_of_range (Student.semestre s)))
      ∨ (Store.semestre_check (Student.semestre s) = true
         ∧ ∃ o, In o others
                ∧ ((Student.id o = Student.id s
                    ∧ e = Store.unique_violation "students_pkey")
                   ∨ (Student.codigo o = Student.codigo s
                      ∧ e = Store.unique_violation "students_codigo_key")
                   ∨ (Student.dni o = Student.dni s
                      ∧ e = Store.unique_violation "students_dni_key")
                   ∨ ((∃ m, Student.email o = Some m ∧ Student.email s = Some m)
                      ∧ e = Store.unique_violation "students_email_key")))
  end.
Proof.
  unfold Store.student_violation.
  destruct (Store.semestre_check (Student.semestre s)) eqn:Hc; simpl;
    [|by destruct (Pg.int4 (Student.semestre s)); simpl; left].
  rewrite (semestre_check_int4 _ Hc). simpl.
  destruct (existsb _ others) eqn:H1.
  { right. split; [reflexivity|]. apply List.existsb_exists in H1 as (o & Ho & He).
    apply String.eqb_eq in He. exists o. auto. }
  destruct (existsb (λ o, String.eqb (Student.codigo o) _) others) eqn:H2.
  { right. split; [reflexivity|]. apply List.existsb_exists in H2 as (o & Ho & He).
    apply String.eqb_eq in He. exists o. auto. }
  destruct (existsb (λ o, String.eqb (Student.dni o) _) others) eqn:H3.
  { right. split; [reflexivity|]. apply List.existsb_exists in H3 as (o & Ho & He).
    apply String.eqb_eq in He. exists o. auto 6. }
  destruct (existsb (λ o, Store.optEqb _ _) others) eqn:H4.
  { right. split; [reflexivity|]. apply List.existsb_exists in H4 as (o & Ho & He).
    apply optEqb_true in He. exists o. auto 7. }
  split; [reflexivity|]. intros o Ho.
  pose proof (proj1 (existsb_false _ _) H1 o Ho) as E1.
  pose proof (proj1 (existsb_false _ _) H2 o Ho) as E2.
  pose proof (proj1 (existsb_false _ _) H3 o Ho) as E3.
  pose proof (proj1 (existsb_false _ _) H4 o Ho) as E4.
  simpl in E1, E2, E3, E4.
  apply String.eqb_neq in E1, E2, E3. repeat split; try assumption.
  intros m Hm Hs. assert (Store.optEqb (Student.email o) (Student.email s) = true).
  { apply optEqb_true. eauto. }
  congruence.
Qed.

Lemma validate_semestre fd :
  snd (validate fd) = true → Store.semestre_check (semestre fd) = true.
Proof.
  intros Hv%validate_ok%newErrors_empty. unfold Store.semestre_check.
  apply andb_true_iff. rewrite !Z.leb_le.
  destruct (decide (1 <= semestre fd <= 6)) as [H|H]; [exact H|].
  exfalso. apply Hv. exists "semestre". apply StudentRules.v_semestre. lia.
Qed.

Lemma submitStudent_eq uuid now student fd st :
  snd (validate fd) = true →
  App.submitStudent uuid now student fd st =
  let req := match student with
             | Some s => Store.UpdateStudent (buildData fd) (Student.id s)
             | None => Store.InsertStudent (buildData fd)
             end in
  (fst (Store.exec uuid now req st), handleSubmit student fd (snd (Store.exec uuid now req st))).
Proof.
  intros Hv. unfold App.submitStudent, App.studentRequest. rewrite Hv. cbv zeta.
  destruct (Store.exec uuid now _ st). reflexivity.
Qed.

Lemma reported student fd e report :
  snd (validate fd) = true →
  onError e = [ConsoleError e; report] →
  In report (handleSubmit student fd (Some e)).
Proof.
  intros Hv He. rewrite handleSubmit_valid by exact Hv. rewrite He.
  simpl. auto 10.
Qed.

Lemma submitStudent_cases uuid now student fd st :
  snd (validate fd) = true →
  In OnSave (snd (App.submitStudent uuid now student fd st))
  ∨ (fst (App.submitStudent uuid now student fd st) = st
     ∧ ∃ other,
         In other (Store.students st)
         ∧ (∀ s, student = Some s → Student.id other ≠ Student.id s)
         ∧ ((Student.codigo other = codigo fd
             ∧ In (SetErrors {[ "codigo" := msg_codigo_dup ]})
                 (snd (App.submitStudent uuid now student fd st)))
            ∨ (Student.dni other = dni fd
               ∧ In (SetErrors {[ "dni" := msg_dni_dup ]})
                   (snd (App.submitStudent uuid now student fd st)))
            ∨ (Student.email other = Some (email fd)
               ∧ email fd ≠ EmptyString
               ∧ In (SetErrors {[ "email" := msg_email_dup ]})
                   (snd (App.submitStudent uuid now student fd st)))))
  ∨ (fst (App.submitStudent uuid now student fd st) = st
     ∧ student = None
     ∧ ∃ other, In other (Store.students st) ∧ Student.id other = uuid).
Proof.
  intros Hv. rewrite submitStudent_eq by exact Hv. cbv zeta. cbn [fst snd].
  pose proof (validate_semestre fd Hv) as Hsem.
  assert (Hmail : ∀ m, Js.orNull (email fd) = Some m →
                       m = email fd ∧ email fd ≠ EmptyString).
  { intros m. unfold Js.orNull. destruct (Js.truthy (email fd)) eqn:Ht; [|discriminate].
    intros [= <-]. split; [reflexivity|]. by apply truthy_true. }
  destruct student as [s|]; cbn [Store.exec].
  - destruct (Store.first_violation _ _) as [e|] eqn:Hfv; cbn [fst snd].
    + apply first_violation_Some in Hfv as (r & Hr & He).
      apply List.in_map_iff in Hr as (old & <- & Hold).
      apply List.filter_In in Hold as [Hold Hid].
      pose proof (student_violation_cases
                    (List.filter (Store.not_id (Student.id s)) (Store.students st))
                    (Store.set_student now (buildData fd) old)) as Hc.
      rewrite He in Hc. cbn [Store.set_student Student.semestre Student.id Student.codigo
                               Student.dni Student.email buildData d_semestre d_codigo
                               d_dni d_email] in Hc.
      destruct Hc as [[Hc _]|[_ (o & Ho & Hc)]]; [congruence|].
      apply List.filter_In in Ho as [Ho Hne].
      unfold Store.not_id, Store.is_id in Hne, Hid.
      apply negb_true_iff, String.eqb_neq in Hne. apply String.eqb_eq in Hid.
      right. left. split; [reflexivity|].
      destruct Hc as [[Hc _]|[[Hc ->]|[[Hc ->]|[(m & Hm & Hm') ->]]]].
      * congruence.
      * exists o. split; [exact Ho|]. split; [by intros ? [= <-]|]. left.
        split; [exact Hc|]. by apply reported.
      * exists o. split; [exact Ho|]. split; [by intros ? [= <-]|]. right. left.
        split; [exact Hc|]. by apply reported.
      * exists o. split; [exact Ho|]. split; [by intros ? [= <-]|]. right. right.
        apply Hmail in Hm' as [-> Hmne]. split; [exact Hm|]. split; [exact Hmne|].
        by apply reported.
    + left. rewrite handleSubmit_valid by exact Hv. simpl. auto 10.
  - pose proof (student_violation_cases (Store.students st)
                  (Store.new_student uuid now (buildData fd))) as Hc.
    destruct (Store.student_violation _ _) as [e|]; cbn [fst snd].
    + cbn [Store.new_student Student.semestre Student.id Student.codigo
             Student.dni Student.email buildData d_semestre d_codigo
             d_dni d_email] in Hc.
      destruct Hc as [[Hc _]|[_ (o & Ho & Hc)]]; [congruence|].
      destruct Hc as [[Hc _]|[[Hc ->]|[[Hc ->]|[(m & Hm & Hm') ->]]]].
      * right. right. split; [reflexivity|]. split; [reflexivity|]. eauto.
      * right. left. split; [reflexivity|].
        exists o. split; [exact Ho|]. split; [discriminate|]. left.
        split; [exact Hc|]. by apply reported.
      * right. left. split; [reflexivity|].
        exists o. split; [exact Ho|]. split; [discriminate|]. right. left.
        split; [exact Hc|]. by apply reported.
      * right. left. split; [reflexivity|].
        exists o. split; [exact Ho|]. split; [discriminate|]. right. right.
        apply Hmail in Hm' as [-> Hmne]. split; [exact Hm|]. split; [exact Hmne|].
        by apply reported.
    + left. rewrite handleSubmit_valid by exact Hv. simpl. auto 10.
Qed.






(** X5: an insert whose term is in 1..6 and whose code, national ID or
    (non-null) email is already held by a stored student is refused with
    SQLSTATE 23505 and changes nothing. *)
Theorem insert_duplicate_rejected uuid now d st other :
  1 <= d_semestre d <= 6 →
  In other (Store.students st) →
  Student.codigo other = d_codigo d
  ∨ Student.dni other = d_dni d
  ∨ (Student.email other = d_email d ∧ d_email d ≠ None) →
  fst (Store.exec uuid now (Store.InsertStudent d) st) = st
  ∧ ∃ e, snd (Store.exec uuid now (Store.InsertStudent d) st) = Some e
         ∧ GatewayError.code e = Some "23505".
Proof.
  intros Hsem Hin Hdup. cbn [Store.exec].
  pose proof (student_violation_cases (Store.students st)
                (Store.new_student uuid now d)) as Hc.
  destruct (Store.student_violation _ _) as [e|]; cbn [fst snd].
  - split; [reflexivity|]. exists e. split; [reflexivity|].
    destruct Hc as [[Hc _]|[_ (o & _ & Hc)]].
    + simpl in Hc. unfold Store.semestre_check in Hc.
      apply andb_false_iff in Hc. rewrite !Z.leb_gt in Hc. lia.
    + destruct Hc as [[_ ->]|[[_ ->]|[[_ ->]|[_ ->]]]]; reflexivity.
  - exfalso. destruct Hc as [_ Hc]. destruct (Hc other Hin) as (_ & H1 & H2 & H3).
    simpl in H1, H2, H3.
    destruct Hdup as [H|[H|[H Hn]]]; [congruence|congruence|].
    destruct (d_email d) as [m|] eqn:Hm; [|congruence].
    by apply (H3 m).
Qed.

(** X5 for Rosa after Juan: the same national ID. *)
Lemma insert_duplicate_rejected_witness :
  fst (Store.exec "s-2" 1001 (Store.InsertStudent Sample.rosa_data) Sample.with_juan)
  = Sample.with_juan
  ∧ ∃ e, snd (Store.exec "s-2" 1001 (Store.InsertStudent Sample.rosa_data)
                Sample.with_juan) = Some e
         ∧ GatewayError.code e = Some "23505".
Proof.
  apply (insert_duplicate_rejected "s-2" 1001 Sample.rosa_data Sample.with_juan
           (Store.new_student "s-1" 1000 (buildData Sample.juan))).
  - simpl. lia.
  - simpl. auto.
  - right. left. reflexivity.
Defined.

(** X6: an insert of a student whose term is outside 1..6 changes
    nothing and is refused, whatever the rest of the row and of the
    table: by the check constraint (SQLSTATE 23514) when the term fits
    the [integer] column, and by the conversion to [integer] (SQLSTATE
    22003), which comes before any constraint, when it does not. *)
Theorem insert_semestre_rejected uuid now d st :
  Js.isSafeInteger (d_semestre d) = true →
  ¬ (1 <= d_semestre d <= 6) →
  Store.exec uuid now (Store.InsertStudent d) st
  = (st, Some (if Pg.int4 (d_semestre d)
               then Store.check_violation "students" "students_semestre_check"
               else Store.out_of_range (d_semestre d))).
Proof.
  intros _ Hsem. cbn [Store.exec]. unfold Store.student_violation.
  cbn [Store.new_student Student.semestre].
  replace (Store.semestre_check (d_semestre d)) with false.
  - by destruct (Pg.int4 (d_semestre d)).
  - symmetry. unfold Store.semestre_check. apply andb_false_iff.
    rewrite !Z.leb_gt. lia.
Qed.

(** X6 at a term of 7 and at a term of three thousand million. *)
Lemma insert_semestre_rejected_witness :
  Store.exec Sample.key2 1009 (Store.InsertStudent Sample.term_seven) Sample.classroom
  = (Sample.classroom,
     Some (Store.check_violation "students" "students_semestre_check"))
  ∧ Store.exec Sample.key2 1009 (Store.InsertStudent Sample.term_huge) Sample.classroom
    = (Sample.classroom,
       Some (GatewayError.mk (Some "22003")
               ("value " +:+ Store.dq +:+ "3000000000" +:+ Store.dq
                +:+ " is out of range for type integer"))).
Proof.
  split.
  - apply (insert_semestre_rejected Sample.key2 1009 Sample.term_seven Sample.classroom).
    + reflexivity.
    + simpl. lia.
  - apply (insert_semestre_rejected Sample.key2 1009 Sample.term_huge Sample.classroom).
    + reflexivity.
    + simpl. lia.
Defined.

(** X7: a valid new student whose generated key, code, national ID and
    email no stored student has is always accepted: the form reports the
    save and the table gains exactly the row of the form data. *)
Theorem insert_accepted uuid now fd st :
  snd (validate fd) = true →
  (∀ o, In o (Store.students st) →
        Student.id o ≠ uuid
        ∧ Student.codigo o ≠ codigo fd
        ∧ Student.dni o ≠ dni fd
        ∧ Student.email o ≠ Some (email fd)) →
  In OnSave (snd (App.submitStudent uuid now None fd st))
  ∧ Store.students (fst (App.submitStudent uuid now None fd st))
    = (Store.students st ++ [Store.new_student uuid now (buildData fd)])%list
  ∧ Store.attendance (fst (App.submitStudent uuid now None fd st))
    = Store.attendance st.
Proof.
  intros Hv Hfree.
  destruct (submitStudent_cases uuid now None fd st Hv)
    as [H|[(_ & other & Ho & _ & Hc)|(_ & _ & other & Ho & Hid)]].
  - split; [exact H|].
    rewrite submitStudent_eq in H |- * by exact Hv. cbv zeta in H |- *.
    cbn [fst snd] in H |- *. apply student_outcome_cases in H as [_ Hreply].
    revert Hreply. cbn [Store.exec].
    destruct (Store.student_violation _ _); cbn [fst snd]; [discriminate|].
    intros _. split; reflexivity.
  - exfalso. destruct (Hfree other Ho) as (_ & H1 & H2 & H3).
    destruct Hc as [[Hc _]|[[Hc _]|[Hc _]]]; congruence.
  - exfalso. destruct (Hfree other Ho) as (H0 & _). congruence.
Qed.

Lemma insert_accepted_witness :
  In OnSave (snd (App.submitStudent "s-1" 1000 None Sample.juan Store.empty))
  ∧ Store.students (fst (App.submitStudent "s-1" 1000 None Sample.juan Store.empty))
    = [Store.new_student "s-1" 1000 (buildData Sample.juan)].
Proof.
  destruct (insert_accepted "s-1" 1000 Sample.juan Store.empty eq_refl) as (H1 & H2 & _).
  - intros o [].
  - split; [exact H1|exact H2].
Defined.

End StudentStore.

(** ** What the store answers to the attendance form *)

Section AttendanceStore.
Import AttendanceForm.

Lemma estado_check_valid e :
  Store.estado_check e = true ↔ Integrity.validEstado e.
Proof.
  unfold Store.estado_check, Integrity.validEstado.
  rewrite !orb_true_iff, !String.eqb_eq. tauto.
Qed.

(** X8: an attendance insert whose student key, date and time of entry
    are texts of their column types and whose status is not one of the
    four is refused by the check constraint (SQLSTATE 23514), whatever
    the student, the course, the note and the table, and changes nothing. *)
Theorem insert_estado_rejected uuid now d st :
  Store.typed d = true →
  ¬ Integrity.validEstado (d_estado d) →
  Store.exec uuid now (Store.InsertAttendance d) st
  = (st, Some (Store.check_violation "attendance" "attendance_estado_check")).
Proof.
  intros _ He. cbn [Store.exec]. unfold Store.attendance_violation.
  cbn [Store.new_attendance Attendance.estado].
  replace (Store.estado_check (d_estado d)) with false; [reflexivity|].
  symmetry. apply not_true_is_false. by rewrite estado_check_valid.
Qed.

(** X8 for Ana of the class, entered as [retirado] at 08:30. *)
Lemma insert_estado_rejected_witness :
  Store.typed Sample.ana_retirado = true
  ∧ ¬ Integrity.validEstado (d_estado Sample.ana_retirado)
  ∧ Store.exec Sample.key4 3000 (Store.InsertAttendance Sample.ana_retirado)
      Sample.classroom
    = (Sample.classroom,
       Some (Store.check_violation "attendance" "attendance_estado_check")).
Proof.
  assert (H : ¬ Integrity.validEstado (d_estado Sample.ana_retirado)).
  { intros [H|[H|[H|H]]]; discriminate H. }
  split; [reflexivity|]. split; [exact H|].
  apply (insert_estado_rejected Sample.key4 3000 Sample.ana_retirado Sample.classroom
           eq_refl H).
Defined.

Lemma submitAttendance_eq uuid now attendance fd st :
  snd (validate fd) = true →
  App.submitAttendance uuid now attendance fd st =
  let req := match attendance with
             | Some a => Store.UpdateAttendance (buildData fd)
                           (Attendance.id (AttendanceWithStudent.row a))
             | None => Store.InsertAttendance (buildData fd)
             end in
  (fst (Store.exec uuid now req st), handleSubmit attendance fd (snd (Store.exec uuid now req st))).
Proof.
  intros Hv. unfold App.submitAttendance, App.attendanceRequest. rewrite Hv. cbv zeta.
  destruct (Store.exec uuid now _ st). reflexivity.
Qed.

(** X9: recording attendance for a student the store does not hold (one
    deleted since the roster was loaded, say) writes nothing; the form
    stays open and the generic alert is raised. *)
Theorem attendance_for_missing_student uuid now fd st :
  snd (validate fd) = true →
  Store.has_student st (student_id fd) = false →
  fst (App.submitAttendance uuid now None fd st) = st
  ∧ In (Alert msg_alert) (snd (App.submitAttendance uuid now None fd st))
  ∧ ¬ In OnSave (snd (App.submitAttendance uuid now None fd st)).
Proof.
  intros Hv Hs. rewrite submitAttendance_eq by exact Hv. cbv zeta.
  assert (He : ∃ e, Store.attendance_violation st (Store.attendance st)
                      (Store.new_attendance uuid now (buildData fd)) = Some e).
  { unfold Store.attendance_violation. cbn [Store.new_attendance Attendance.student_id
      buildData d_student_id]. rewrite Hs.
    destruct (negb _); [eauto|]. destruct (existsb _ _); eauto. }
  destruct He as [e He]. cbn [Store.exec]. rewrite He. cbn [fst snd].
  split; [reflexivity|].
  pose proof (attendance_outcome_cases None fd (Some e)) as (Hsave & Halert & _).
  split.
  - apply Halert. split; [exact Hv|discriminate].
  - intros H. apply Hsave in H as [_ H]. discriminate.
Qed.

Lemma attendance_for_missing_student_witness :
  snd (validate Sample.for_stranger) = true
  ∧ Store.has_student Sample.january (student_id Sample.for_stranger) = false
  ∧ fst (App.submitAttendance "a-9" 3000 None Sample.for_stranger Sample.january)
    = Sample.january.
Proof.
  split; [reflexivity|]. split; [reflexivity|].
  apply (attendance_for_missing_student "a-9" 3000 Sample.for_stranger Sample.january
           eq_refl eq_refl).
Defined.

End AttendanceStore.

(** ** What is stored of the optional fields *)

Section PersistedOptionals.

Lemma Forall2_map_if {A} (f : A → bool) (g : A → A) (P : A → A → Prop) l :
  (∀ x, In x l → f x = true → P x (g x)) →
  (∀ x, In x l → f x = false → P x x) →
  Forall2 P l (List.map (λ x, if f x then g x else x) l).
Proof.
  induction l as [|x l IH]; intros Ht Hf; simpl; constructor.
  - destruct (f x) eqn:E; [apply Ht|apply Hf]; simpl; auto.
  - apply IH; intros y Hy; [apply Ht|apply Hf]; simpl; auto.
Qed.

Lemma normalized_absent field stored : normalized field stored → absentIffEmpty field stored.
Proof.
  intros (H1 & H2 & H3). split; [|exact H3]. split; [exact H1|].
  intros ->. destruct (String.string_dec field EmptyString) as [E|E]; [exact E|].
  by specialize (H2 E).
Qed.

(** A submission that ends with [onSave] passed validation, and the
    store answered its request without error. *)
Lemma submitStudent_saved uuid now student fd st :
  In StudentForm.OnSave (snd (App.submitStudent uuid now student fd st)) →
  snd (StudentForm.validate fd) = true
  ∧ snd (Store.exec uuid now
           (match student with
            | Some s => Store.UpdateStudent (StudentForm.buildData fd) (Student.id s)
            | None => Store.InsertStudent (StudentForm.buildData fd)
            end) st) = None.
Proof.
  destruct (snd (StudentForm.validate fd)) eqn:Hv.
  - rewrite submitStudent_eq by exact Hv. cbv zeta. cbn [snd].
    intros H. apply student_outcome_cases in H as [_ H]. by split.
  - unfold App.submitStudent, App.studentRequest. rewrite Hv. cbn [snd].
    intros H. apply student_outcome_cases in H as [H _]. congruence.
Qed.

Lemma submitAttendance_saved uuid now attendance fd st :
  In AttendanceForm.OnSave (snd (App.submitAttendance uuid now attendance fd st)) →
  snd (AttendanceForm.validate fd) = true
  ∧ snd (Store.exec uuid now
           (match attendance with
            | Some a => Store.UpdateAttendance (AttendanceForm.buildData fd)
                          (Attendance.id (AttendanceWithStudent.row a))
            | None => Store.InsertAttendance (AttendanceForm.buildData fd)
            end) st) = None.
Proof.
  destruct (snd (AttendanceForm.validate fd)) eqn:Hv.
  - rewrite submitAttendance_eq by exact Hv. cbv zeta. cbn [snd].
    intros H. apply attendance_outcome_cases in H as [_ H]. by split.
  - unfold App.submitAttendance, App.attendanceRequest. rewrite Hv. cbn [snd].
    intros H. apply attendance_outcome_cases in H as [H _]. congruence.
Qed.

(** A statement that is answered with an error has changed nothing. *)
Lemma exec_refused uuid now req st e :
  snd (Store.exec uuid now req st) = Some e → fst (Store.exec uuid now req st) = st.
Proof.
  destruct req as [d|d id|id|d|d id|id]; cbn [Store.exec].
  - destruct (Store.student_violation _ _); [reflexivity|discriminate].
  - destruct (Store.first_violation _ _); [reflexivity|discriminate].
  - discriminate.
  - destruct (Store.attendance_violation _ _ _); [reflexivity|discriminate].
  - destruct (Store.first_violation _ _); [reflexivity|discriminate].
  - discriminate.
Qed.

Lemma submitStudent_saved_or_not uuid now student fd st :
  In StudentForm.OnSave (snd (App.submitStudent uuid now student fd st))
  ∨ fst (App.submitStudent uuid now student fd st) = st.
Proof.
  destruct (snd (StudentForm.validate fd)) eqn:Hv.
  - rewrite submitStudent_eq by exact Hv. cbv zeta. cbn [fst snd].
    destruct (snd (Store.exec uuid now _ st)) as [e|] eqn:He.
    + right. by apply (exec_refused _ _ _ _ e).
    + left. apply student_outcome_cases. by split.
  - right. unfold App.submitStudent, App.studentRequest. by rewrite Hv.
Qed.

Lemma submitAttendance_saved_or_not uuid now attendance fd st :
  In AttendanceForm.OnSave (snd (App.submitAttendance uuid now attendance fd st))
  ∨ fst (App.submitAttendance uuid now attendance fd st) = st.
Proof.
  destruct (snd (AttendanceForm.validate fd)) eqn:Hv.
  - rewrite submitAttendance_eq by exact Hv. cbv zeta. cbn [fst snd].
    destruct (snd (Store.exec uuid now _ st)) as [e|] eqn:He.
    + right. by apply (exec_refused _ _ _ _ e).
    + left. apply attendance_outcome_cases. by split.
  - right. unfold App.submitAttendance, App.attendanceRequest. by rewrite Hv.
Qed.

(** C8: a valid submission of either form issues exactly one call, the
    insert or the update of the edited record, and its payload carries
    null, never the empty string, for an empty [email], [telefono],
    [hora_entrada] or [observaciones], and the text itself when there is
    one; no other call is ever issued.  A submission either ends with
    [onSave] or leaves the store as it was.  When it ends with [onSave],
    the table holds what was there and the row written - the new row at
    the end, or the row of the edited key rewritten in its place - and
    that row has null for an empty optional field and a value for any
    other: the text itself in the text columns, a value that is not
    empty in the time column. *)
Theorem C8_empty_optionals_become_null :
  (∀ student fd reply,
     snd (StudentForm.validate fd) = true →
     ∃ d, List.filter StudentForm.isStoreCall (StudentForm.handleSubmit student fd reply)
          = [match student with
             | Some s => StudentForm.Update d (Student.id s)
             | None => StudentForm.Insert d
             end]
          ∧ normalized (StudentForm.email fd) (StudentForm.d_email d)
          ∧ normalized (StudentForm.telefono fd) (StudentForm.d_telefono d))
  ∧ (∀ attendance fd reply,
       snd (AttendanceForm.validate fd) = true →
       ∃ d, List.filter AttendanceForm.isStoreCall
              (AttendanceForm.handleSubmit attendance fd reply)
            = [match attendance with
               | Some a => AttendanceForm.Update d
                             (Attendance.id (AttendanceWithStudent.row a))
               | None => AttendanceForm.Insert d
               end]
            ∧ normalized (AttendanceForm.hora_entrada fd) (AttendanceForm.d_hora_entrada d)
            ∧ normalized (AttendanceForm.observaciones fd)
                (AttendanceForm.d_observaciones d))
  ∧ (∀ student fd reply e,
       In e (StudentForm.handleSubmit student fd reply) →
       match e with
       | StudentForm.Update d _ | StudentForm.Insert d =>
           normalized (StudentForm.email fd) (StudentForm.d_email d)
           ∧ normalized (StudentForm.telefono fd) (StudentForm.d_telefono d)
       | _ => True
       end)
  ∧ (∀ attendance fd reply e,
       In e (AttendanceForm.handleSubmit attendance fd reply) →
       match e with
       | AttendanceForm.Update d _ | AttendanceForm.Insert d =>
           normalized (AttendanceForm.hora_entrada fd) (AttendanceForm.d_hora_entrada d)
           ∧ normalized (AttendanceForm.observaciones fd) (AttendanceForm.d_observaciones d)
       | _ => True
       end)
  ∧ (∀ uuid now student fd st,
       In StudentForm.OnSave (snd (App.submitStudent uuid now student fd st))
       ∨ fst (App.submitStudent uuid now student fd st) = st)
  ∧ (∀ uuid now attendance fd st,
       In AttendanceForm.OnSave (snd (App.submitAttendance uuid now attendance fd st))
       ∨ fst (App.submitAttendance uuid now attendance fd st) = st)
  ∧ (∀ uuid now fd st,
       In StudentForm.OnSave (snd (App.submitStudent uuid now None fd st)) →
       ∃ row,
         Store.students (fst (App.submitStudent uuid now None fd st))
         = (Store.students st ++ [row])%list
         ∧ Student.id row = uuid
         ∧ normalized (StudentForm.email fd) (Student.email row)
         ∧ normalized (StudentForm.telefono fd) (Student.telefono row))
  ∧ (∀ uuid now s fd st,
       Pg.isUuid (Student.id s) = true →
       In StudentForm.OnSave (snd (App.submitStudent uuid now (Some s) fd st)) →
       Forall2 (λ old row,
                  (Student.id old = Student.id s →
                   Student.id row = Student.id s
                   ∧ normalized (StudentForm.email fd) (Student.email row)
                   ∧ normalized (StudentForm.telefono fd) (Student.telefono row))
                  ∧ (Student.id old ≠ Student.id s → row = old))
         (Store.students st)
         (Store.students (fst (App.submitStudent uuid now (Some s) fd st))))
  ∧ (∀ uuid now fd st,
       Store.typed (AttendanceForm.buildData fd) = true →
       In AttendanceForm.OnSave (snd (App.submitAttendance uuid now None fd st)) →
       ∃ row,
         Store.attendance (fst (App.submitAttendance uuid now None fd st))
         = (Store.attendance st ++ [row])%list
         ∧ Attendance.id row = uuid
         ∧ absentIffEmpty (AttendanceForm.hora_entrada fd) (Attendance.hora_entrada row)
         ∧ normalized (AttendanceForm.observaciones fd) (Attendance.observaciones row))
  ∧ (∀ uuid now a fd st,
       Pg.isUuid (Attendance.id (AttendanceWithStudent.row a)) = true →
       Store.typed (AttendanceForm.buildData fd) = true →
       In AttendanceForm.OnSave (snd (App.submitAttendance uuid now (Some a) fd st)) →
       Forall2 (λ old row,
                  (Attendance.id old = Attendance.id (AttendanceWithStudent.row a) →
                   Attendance.id row = Attendance.id (AttendanceWithStudent.row a)
                   ∧ absentIffEmpty (AttendanceForm.hora_entrada fd)
                       (Attendance.hora_entrada row)
                   ∧ normalized (AttendanceForm.observaciones fd)
                       (Attendance.observaciones row))
                  ∧ (Attendance.id old ≠ Attendance.id (AttendanceWithStudent.row a) →
                     row = old))
         (Store.attendance st)
         (Store.attendance (fst (App.submitAttendance uuid now (Some a) fd st)))).
Proof.
  repeat apply conj.
  - intros student fd reply Hv. exists (StudentForm.buildData fd).
    rewrite calls_valid by exact Hv.
    split; [by destruct student|]. split; apply orNull_normalized.
  - intros attendance fd reply Hv. exists (AttendanceForm.buildData fd).
    rewrite attendance_calls, Hv.
    split; [by destruct attendance|]. split; apply orNull_normalized.
  - intros student fd reply e Hin.
    pose proof (student_call_data student fd reply e Hin) as He.
    destruct e; try exact I; specialize (He eq_refl);
      destruct student; inversion He; subst; simpl; split; apply orNull_normalized.
  - intros attendance fd reply e Hin.
    pose proof (attendance_call_data attendance fd reply e Hin) as He.
    destruct e; try exact I; specialize (He eq_refl);
      destruct attendance; inversion He; subst; simpl; split; apply orNull_normalized.
  - apply submitStudent_saved_or_not.
  - apply submitAttendance_saved_or_not.
  - intros uuid now fd st H.
    destruct (submitStudent_saved _ _ _ _ _ H) as [Hv Hr].
    rewrite submitStudent_eq by exact Hv. cbv zeta. cbn [fst].
    revert Hr. cbn [Store.exec].
    destruct (Store.student_violation _ _); cbn [fst snd]; [discriminate|]. intros _.
    exists (Store.new_student uuid now (StudentForm.buildData fd)).
    split; [reflexivity|]. split; [reflexivity|]. split; apply orNull_normalized.
  - intros uuid now s fd st _ H.
    destruct (submitStudent_saved _ _ _ _ _ H) as [Hv Hr].
    rewrite submitStudent_eq by exact Hv. cbv zeta. cbn [fst].
    revert Hr. cbn [Store.exec].
    destruct (Store.first_violation _ _); cbn [fst snd]; [discriminate|]. intros _.
    cbn [Store.students]. apply Forall2_map_if; unfold Store.is_id.
    + intros old _ Hid. split; [|by apply String.eqb_eq in Hid].
      intros _. split; [by apply String.eqb_eq in Hid|]. split; apply orNull_normalized.
    + intros old _ Hid. apply String.eqb_neq in Hid. split; [congruence|reflexivity].
  - intros uuid now fd st _ H.
    destruct (submitAttendance_saved _ _ _ _ _ H) as [Hv Hr].
    rewrite submitAttendance_eq by exact Hv. cbv zeta. cbn [fst].
    revert Hr. cbn [Store.exec].
    destruct (Store.attendance_violation _ _ _); cbn [fst snd]; [discriminate|]. intros _.
    exists (Store.new_attendance uuid now (AttendanceForm.buildData fd)).
    split; [reflexivity|]. split; [reflexivity|].
    split; [apply normalized_absent|]; apply orNull_normalized.
  - intros uuid now a fd st _ _ H.
    destruct (submitAttendance_saved _ _ _ _ _ H) as [Hv Hr].
    rewrite submitAttendance_eq by exact Hv. cbv zeta. cbn [fst].
    revert Hr. cbn [Store.exec].
    destruct (Store.first_violation _ _); cbn [fst snd]; [discriminate|]. intros _.
    cbn [Store.attendance]. apply Forall2_map_if; unfold Store.a_is_id.
    + intros old _ Hid. split; [|by apply String.eqb_eq in Hid].
      intros _. split; [by apply String.eqb_eq in Hid|].
      split; [apply normalized_absent|]; apply orNull_normalized.
    + intros old _ Hid. apply String.eqb_neq in Hid. split; [congruence|reflexivity].
Qed.

(** C8 for Carla, registered with a telephone number and no email
    address, and for Ana, entered at 08:30 without a note. *)
Lemma C8_empty_optionals_become_null_witness :
  (∃ row,
     Store.students (fst (App.submitStudent Sample.key4 1500 None Sample.carla
                            Sample.classroom))
     = (Store.students Sample.classroom ++ [row])%list
     ∧ Student.email row = None
     ∧ Student.telefono row = Some "999888777")
  ∧ (∃ row,
       Store.attendance (fst (App.submitAttendance Sample.key6 3000 None
                                Sample.ana_on_time Sample.day))
       = (Store.attendance Sample.day ++ [row])%list
       ∧ Attendance.hora_entrada row ≠ None
       ∧ Attendance.hora_entrada row ≠ Some EmptyString
       ∧ Attendance.observaciones row = None).
Proof.
  destruct C8_empty_optionals_become_null
    as (_ & _ & _ & _ & _ & _ & Hs & _ & Ha & _).
  split.
  - destruct (Hs Sample.key4 1500 Sample.carla Sample.classroom)
      as (row & Hrow & _ & (He & _ & _) & (_ & Ht & _)).
    + rewrite submitStudent_eq by reflexivity. cbv zeta. cbn [snd].
      apply student_outcome_cases. split; reflexivity.
    + exists row. split; [exact Hrow|]. split; [by apply He|]. by apply Ht.
  - destruct (Ha Sample.key6 3000 Sample.ana_on_time Sample.day eq_refl)
      as (row & Hrow & _ & ([_ Hh] & Hne) & (Ho & _ & _)).
    + rewrite submitAttendance_eq by reflexivity. cbv zeta. cbn [snd].
      apply attendance_outcome_cases. split; reflexivity.
    + exists row. split; [exact Hrow|]. split; [|split; [exact Hne|by apply Ho]].
      intros Hn. discriminate (Hh Hn).
Defined.

End PersistedOptionals.

(** ** The constraints of the migration hold in every state of the store *)

Section StoreInvariants.

Lemma FOP_snoc {A} (R : A → A → Prop) l s :
  ForallOrdPairs R l → Forall (λ o, R o s) l → ForallOrdPairs R (l ++ [s]).
Proof.
  induction 1 as [|a l Ha Hl IH]; intros Hs; simpl.
  - repeat constructor.
  - inversion Hs; subst. constructor; [|by apply IH].
    apply Forall_app. split; [exact Ha|]. by repeat constructor.
Qed.

Lemma FOP_filter {A} (R : A → A → Prop) (f : A → bool) l :
  ForallOrdPairs R l → ForallOrdPairs R (List.filter f l).
Proof.
  induction 1 as [|a l Ha Hl IH]; simpl; [constructor|].
  destruct (f a); [|exact IH]. constructor; [|exact IH].
  rewrite List.Forall_forall in *. intros x [Hx _]%List.filter_In. by apply Ha.
Qed.

Lemma FOP_map {A} (R : A → A → Prop) (f : A → A) l :
  (∀ a b, R a b → R (f a) (f b)) →
  ForallOrdPairs R l → ForallOrdPairs R (List.map f l).
Proof.
  intros Hf. induction 1 as [|a l Ha Hl IH]; simpl; constructor; [|exact IH].
  rewrite List.Forall_forall in *. intros x (b & <- & Hb)%List.in_map_iff. auto.
Qed.

Lemma compatible_sym a b : Integrity.compatible a b → Integrity.compatible b a.
Proof.
  intros (H1 & H2 & H3 & H4). repeat split; try congruence.
  intros e Hb Ha. by apply (H4 e).
Qed.

Lemma update_compatible id (upd : Student.t → Student.t) l :
  (∀ s, Student.id (upd s) = Student.id s) →
  ForallOrdPairs Integrity.compatible l →
  (∀ s o, In s l → Store.is_id id s = true →
          In o l → Store.is_id id o = false → Integrity.compatible o (upd s)) →
  ForallOrdPairs Integrity.compatible
    (List.map (λ s, if Store.is_id id s then upd s else s) l).
Proof.
  intros Hid Hl. induction Hl as [|a l Ha Hl IH]; intros Hupd; simpl; [constructor|].
  constructor.
  - rewrite List.Forall_forall in *. intros x (b & <- & Hb)%List.in_map_iff.
    specialize (Ha b Hb).
    destruct (Store.is_id id a) eqn:Ea, (Store.is_id id b) eqn:Eb.
    + exfalso. unfold Store.is_id in Ea, Eb. apply String.eqb_eq in Ea, Eb.
      destruct Ha as [Ha _]. congruence.
    + apply compatible_sym. apply (Hupd a b); simpl; auto.
    + apply (Hupd b a); simpl; auto.
    + exact Ha.
  - apply IH. intros s o Hs Es Ho Eo. apply Hupd; simpl; auto.
Qed.

Lemma semestre_check_range n : Store.semestre_check n = true ↔ 1 <= n <= 6.
Proof. unfold Store.semestre_check. rewrite andb_true_iff, !Z.leb_le. reflexivity. Qed.

Lemma student_violation_None others s :
  Store.student_violation others s = None →
  1 <= Student.semestre s <= 6 ∧ ∀ o, In o others → Integrity.compatible o s.
Proof.
  intros H. pose proof (student_violation_cases others s) as Hc. rewrite H in Hc.
  destruct Hc as [Hc1 Hc2]. split; [by apply semestre_check_range|exact Hc2].
Qed.

Lemma exec_students_ok uuid now req st :
  Integrity.students_ok st →
  Integrity.students_ok (fst (Store.exec uuid now req st)).
Proof.
  intros [Hp Hs]. destruct req as [d|d id|id|d|d id|id]; simpl.
  - destruct (Store.student_violation _ _) eqn:Hv; simpl; [by split|].
    apply student_violation_None in Hv as [Hv1 Hv2]. split.
    + apply FOP_snoc; [exact Hp|]. by apply List.Forall_forall.
    + apply Forall_app. split; [exact Hs|]. constructor; [exact Hv1|constructor].
  - destruct (Store.first_violation _ _) eqn:Hv; simpl; [by split|].
    assert (Hrow : ∀ s, In s (Store.students st) → Store.is_id id s = true →
                        1 <= StudentForm.d_semestre d <= 6
                        ∧ ∀ o, In o (Store.students st) → Store.is_id id o = false →
                               Integrity.compatible o (Store.set_student now d s)).
    { intros s Hin Hid.
      assert (Hr : In (Store.set_student now d s)
                     (List.map (Store.set_student now d)
                        (List.filter (Store.is_id id) (Store.students st)))).
      { apply List.in_map, List.filter_In. auto. }
      apply (first_violation_None _ _ Hv) in Hr.
      apply student_violation_None in Hr as [Hr1 Hr2]. split; [exact Hr1|].
      intros o Ho Eo. apply Hr2, List.filter_In. split; [exact Ho|].
      unfold Store.not_id. by rewrite Eo. }
    split.
    + apply update_compatible; [reflexivity|exact Hp|].
      intros s o Hin Hid Ho Eo. by apply (Hrow s Hin Hid).
    + rewrite List.Forall_forall in *. intros x (s & <- & Hin)%List.in_map_iff.
      destruct (Store.is_id id s) eqn:Hid; [|by apply Hs].
      simpl. by apply (Hrow s Hin Hid).
  - split.
    + by apply FOP_filter.
    + rewrite List.Forall_forall in *. intros x [Hx _]%List.filter_In. by apply Hs.
  - destruct (Store.attendance_violation _ _ _); simpl; by split.
  - destruct (Store.first_violation _ _); simpl; by split.
  - by split.
Qed.

Lemma attendance_violation_None st others a :
  Store.attendance_violation st others a = None →
  Integrity.validEstado (Attendance.estado a)
  ∧ ∀ o, In o others → Attendance.id o ≠ Attendance.id a.
Proof.
  unfold Store.attendance_violation.
  destruct (Store.estado_check _) eqn:He; [|discriminate]. simpl.
  destruct (existsb _ others) eqn:Hpk; [discriminate|]. intros _.
  split; [by apply estado_check_valid|].
  intros o Ho. apply (proj1 (existsb_false _ _) Hpk) in Ho. by apply String.eqb_neq.
Qed.

Lemma exec_attendance_ok uuid now req st :
  Integrity.attendance_ok st →
  Integrity.attendance_ok (fst (Store.exec uuid now req st)).
Proof.
  intros [Hp Hs]. destruct req as [d|d id|id|d|d id|id]; simpl.
  - destruct (Store.student_violation _ _); simpl; by split.
  - destruct (Store.first_violation _ _); simpl; by split.
  - split.
    + by apply FOP_filter.
    + rewrite List.Forall_forall in *. intros x [Hx _]%List.filter_In. by apply Hs.
  - destruct (Store.attendance_violation _ _ _) eqn:Hv; simpl; [by split|].
    apply attendance_violation_None in Hv as [Hv1 Hv2]. split.
    + apply FOP_snoc; [exact Hp|]. by apply List.Forall_forall.
    + apply Forall_app. split; [exact Hs|]. constructor; [exact Hv1|constructor].
  - destruct (Store.first_violation _ _) eqn:Hv; simpl; [by split|]. split.
    + apply (FOP_map _ (λ a, if Store.a_is_id id a then Store.set_attendance d a else a));
        [|exact Hp].
      intros a b Hab. by destruct (Store.a_is_id id a), (Store.a_is_id id b).
    + rewrite List.Forall_forall in *. intros x (a & <- & Hin)%List.in_map_iff.
      destruct (Store.a_is_id id a) eqn:Hid; [|by apply Hs].
      assert (Hr : In (Store.set_attendance d a)
                     (List.map (Store.set_attendance d)
                        (List.filter (Store.a_is_id id) (Store.attendance st)))).
      { apply List.in_map, List.filter_In. auto. }
      apply (first_violation_None _ _ Hv) in Hr.
      by apply attendance_violation_None in Hr as [Hr _].
  - split.
    + by apply FOP_filter.
    + rewrite List.Forall_forall in *. intros x [Hx _]%List.filter_In. by apply Hs.
Qed.

Lemma replay_reachable history st :
  Store.reachable st → Store.reachable (replay history st).
Proof.
  revert st. induction history as [|[[uuid now] req] history IH]; intros st H.
  - exact H.
  - apply IH. by apply Store.reachable_exec.
Qed.

Lemma students_ok_invariant st :
  Store.reachable st → Integrity.students_ok st.
Proof.
  induction 1 as [|uuid now req st _ IH].
  - split; constructor.
  - by apply exec_students_ok.
Qed.

(** X10: in every state the store can reach, any two student rows differ
    in key, code and national ID and do not share a non-null email, and
    every term is between 1 and 6. *)
Theorem reachable_students_ok st :
  Store.reachable st → Integrity.students_ok st.
Proof. apply students_ok_invariant. Qed.

(** X10 for the class after its enrolment: three students, any two of
    them compatible. *)
Lemma reachable_students_ok_witness :
  Store.students Sample.classroom = [Sample.juan_row; Sample.ana_row; Sample.zoila_row]
  ∧ Integrity.students_ok Sample.classroom
  ∧ Integrity.compatible Sample.juan_row Sample.ana_row
  ∧ Integrity.compatible Sample.juan_row Sample.zoila_row
  ∧ Integrity.compatible Sample.ana_row Sample.zoila_row.
Proof.
  assert (H : Integrity.students_ok Sample.classroom).
  { apply (reachable_students_ok Sample.classroom).
    apply replay_reachable, Store.reachable_empty. }
  split; [reflexivity|]. split; [exact H|].
  destruct H as [H _].
  change (Store.students Sample.classroom)
    with [Sample.juan_row; Sample.ana_row; Sample.zoila_row] in H.
  inversion H as [|a l Ha Hl]; subst. inversion Hl as [|b l' Hb Hl']; subst.
  inversion Ha as [|x y Hab Ha']; subst. inversion Ha' as [|x y Hac _]; subst.
  inversion Hb as [|x y Hbc _]; subst.
  auto.
Defined.

Lemma attendance_ok_invariant st :
  Store.reachable st → Integrity.attendance_ok st.
Proof.
  induction 1 as [|uuid now req st _ IH].
  - split; constructor.
  - by apply exec_attendance_ok.
Qed.

(** X11: in every state the store can reach, any two attendance rows
    differ in key and every status is one of [presente], [ausente],
    [tardanza], [justificado]. *)
Theorem reachable_attendance_ok st :
  Store.reachable st → Integrity.attendance_ok st.
Proof. apply attendance_ok_invariant. Qed.

(** X11 for the class after a day of the register: two rows, with
    different keys, one [presente] and one [tardanza]. *)
Lemma reachable_attendance_ok_witness :
  List.map (λ a, (Attendance.id a, Attendance.estado a)) (Store.attendance Sample.day)
  = [(Sample.key4, "presente"); (Sample.key5, "tardanza")]
  ∧ Integrity.attendance_ok Sample.day.
Proof.
  split; [reflexivity|].
  apply (reachable_attendance_ok Sample.day).
  apply replay_reachable, replay_reachable, Store.reachable_empty.
Defined.

End StoreInvariants.

(** ** Editing a stored record *)

Section EditFlows.

Lemma orNull_default o : Js.orNull (default EmptyString o) = Integrity.nullIfEmpty o.
Proof. destruct o as [[|c m]|]; reflexivity. Qed.

(** X12: opening a student for editing and saving without a change
    writes the row back as it was, except that [updated_at] becomes the
    time of the update and an empty email or phone becomes null. *)
Theorem edit_unchanged_student now s fd :
  Store.set_student now (StudentForm.buildData (StudentForm.prefill (Some s) fd)) s =
  {| Student.id := Student.id s;
     Student.codigo := Student.codigo s;
     Student.nombres := Student.nombres s;
     Student.apellidos := Student.apellidos s;
     Student.dni := Student.dni s;
     Student.carrera := Student.carrera s;
     Student.semestre := Student.semestre s;
     Student.email := Integrity.nullIfEmpty (Student.email s);
     Student.telefono := Integrity.nullIfEmpty (Student.telefono s);
     Student.activo := Student.activo s;
     Student.created_at := Student.created_at s;
     Student.updated_at := now |}.
Proof.
  unfold Store.set_student, StudentForm.buildData, StudentForm.prefill. simpl.
  rewrite !orNull_default. reflexivity.
Qed.

(** X13: opening an attendance entry for editing selects its student, and
    saving without a change writes the row back as it was, except that an
    empty time of entry or note becomes null. *)
Theorem edit_unchanged_attendance a st0 :
  AttendanceForm.selectedStudent (AttendanceForm.prefill (Some a) st0)
  = AttendanceWithStudent.students a
  ∧ Store.set_attendance
      (AttendanceForm.buildData (AttendanceForm.form (AttendanceForm.prefill (Some a) st0)))
      (AttendanceWithStudent.row a)
    = {| Attendance.id := Attendance.id (AttendanceWithStudent.row a);
         Attendance.student_id := Attendance.student_id (AttendanceWithStudent.row a);
         Attendance.fecha := Attendance.fecha (AttendanceWithStudent.row a);
         Attendance.estado := Attendance.estado (AttendanceWithStudent.row a);
         Attendance.hora_entrada :=
           Integrity.nullIfEmpty (Attendance.hora_entrada (AttendanceWithStudent.row a));
         Attendance.curso := Attendance.curso (AttendanceWithStudent.row a);
         Attendance.observaciones :=
           Integrity.nullIfEmpty (Attendance.observaciones (AttendanceWithStudent.row a));
         Attendance.created_at := Attendance.created_at (AttendanceWithStudent.row a) |}.
Proof.
  split; [reflexivity|].
  unfold Store.set_attendance, AttendanceForm.buildData, AttendanceForm.prefill. simpl.
  rewrite !orNull_default. reflexivity.
Qed.

Lemma map_untouched {A} (f : A → bool) (g : A → A) l :
  (∀ x, In x l → f x = false) → List.map (λ x, if f x then g x else x) l = l.
Proof.
  induction l as [|x l IH]; intros H; simpl; [reflexivity|].
  rewrite (H x) by (left; reflexivity). rewrite IH; [reflexivity|].
  intros y Hy. apply H. by right.
Qed.

Lemma filter_none {A} (f : A → bool) l :
  (∀ x, In x l → f x = false) → List.filter f l = [].
Proof.
  induction l as [|x l IH]; intros H; simpl; [reflexivity|].
  rewrite (H x) by (left; reflexivity). apply IH. intros y Hy. apply H. by right.
Qed.

Lemma has_student_false st id :
  Store.has_student st id = false → ∀ s, In s (Store.students st) → Store.is_id id s = false.
Proof. intros H. by apply existsb_false. Qed.

(** X14: saving the edit form of a student who is no longer in the store
    (the key of the edited record is a uuid no row has) writes nothing and
    raises no error: the form reports the save as done. *)
Theorem edit_of_deleted_student uuid now s fd st :
  Pg.isUuid (Student.id s) = true →
  snd (StudentForm.validate fd) = true →
  Store.has_student st (Student.id s) = false →
  fst (App.submitStudent uuid now (Some s) fd st) = st
  ∧ In StudentForm.OnSave (snd (App.submitStudent uuid now (Some s) fd st)).
Proof.
  intros _ Hv Hs. rewrite submitStudent_eq by exact Hv. cbv zeta.
  pose proof (has_student_false st _ Hs) as Hno.
  cbn [Store.exec]. rewrite (filter_none _ _ Hno). cbn [List.map Store.first_violation
    List.fold_right fst snd].
  rewrite (map_untouched _ _ _ Hno). split; [by destruct st|].
  apply student_outcome_cases. auto.
Qed.

(** X14 for Pedro, whose row the class does not hold. *)
Lemma edit_of_deleted_student_witness :
  Pg.isUuid (Student.id Sample.pedro_row) = true
  ∧ snd (StudentForm.validate
           (StudentForm.prefill (Some Sample.pedro_row) StudentForm.initialFormData)) = true
  ∧ Store.has_student Sample.classroom (Student.id Sample.pedro_row) = false
  ∧ fst (App.submitStudent Sample.key5 1500 (Some Sample.pedro_row)
           (StudentForm.prefill (Some Sample.pedro_row) StudentForm.initialFormData)
           Sample.classroom)
    = Sample.classroom
  ∧ In StudentForm.OnSave
      (snd (App.submitStudent Sample.key5 1500 (Some Sample.pedro_row)
              (StudentForm.prefill (Some Sample.pedro_row) StudentForm.initialFormData)
              Sample.classroom)).
Proof.
  split; [reflexivity|]. split; [reflexivity|]. split; [reflexivity|].
  apply (edit_of_deleted_student Sample.key5 1500 Sample.pedro_row
           (StudentForm.prefill (Some Sample.pedro_row) StudentForm.initialFormData)
           Sample.classroom eq_refl eq_refl eq_refl).
Defined.

(** X15: an update of a student, accepted or refused, never adds or
    removes a row, never changes a key or a creation time, leaves every
    row with another key as it is, and does not touch the attendance
    table; accepted, it writes the data into the row of that key and
    stamps it with the time of the update. *)
Theorem update_student_frame uuid now d id st :
  Store.attendance (fst (Store.exec uuid now (Store.UpdateStudent d id) st))
  = Store.attendance st
  ∧ Forall2 (λ old new,
               Student.id new = Student.id old
               ∧ Student.created_at new = Student.created_at old
               ∧ (Student.id old ≠ id → new = old)
               ∧ (Student.id old = id →
                  snd (Store.exec uuid now (Store.UpdateStudent d id) st) = None →
                  new = Store.set_student now d old))
      (Store.students st)
      (Store.students (fst (Store.exec uuid now (Store.UpdateStudent d id) st))).
Proof.
  cbn [Store.exec]. destruct (Store.first_violation _ _); cbn [fst snd Store.attendance
    Store.students].
  - split; [reflexivity|]. induction (Store.students st); constructor; auto.
    repeat split; auto. discriminate.
  - split; [reflexivity|]. induction (Store.students st) as [|s l IH]; simpl;
      constructor; [|exact IH].
    unfold Store.is_id. destruct (String.eqb_spec (Student.id s) id); simpl.
    + repeat split; auto. congruence.
    + repeat split; auto. congruence.
Qed.



End EditFlows.

(** ** Searching as one types *)

Section SearchMore.
Import SearchRules.

Lemma append_assoc a b c : (a +:+ b) +:+ c = a +:+ (b +:+ c).
Proof. induction a as [|x a IH]; [reflexivity|]. rewrite !app_String. by rewrite IH. Qed.

Lemma substring_trans t1 t2 s :
  Spec.substring t1 t2 → Spec.substring t2 s → Spec.substring t1 s.
Proof.
  intros (b1 & a1 & ->) (b2 & a2 & ->).
  exists (b2 +:+ b1), (a1 +:+ a2). by rewrite !append_assoc.
Qed.

Lemma includes_narrows s t1 t2 :
  Spec.substring t1 t2 → Js.includes s t2 = true → Js.includes s t1 = true.
Proof.
  rewrite !includes_spec. intros H12 H2. by apply (substring_trans t1 t2).
Qed.

Lemma list_matches_narrows t1 t2 s :
  Spec.ciSubstring t1 t2 →
  StudentList.matchesSearch t2 s = true → StudentList.matchesSearch t1 s = true.
Proof.
  intros H. unfold StudentList.matchesSearch. cbv zeta.
  rewrite !orb_true_iff. intuition eauto using includes_narrows.
Qed.

Lemma form_matches_narrows t1 t2 s :
  Spec.ciSubstring t1 t2 →
  AttendanceForm.matchesSearch t2 s = true → AttendanceForm.matchesSearch t1 s = true.
Proof.
  intros H. unfold AttendanceForm.matchesSearch. cbv zeta.
  rewrite !orb_true_iff. intuition eauto using includes_narrows.
Qed.

Lemma filter_filter_narrow {A} (f g : A → bool) l :
  (∀ x, g x = true → f x = true) →
  List.filter g (List.filter f l) = List.filter g l.
Proof.
  intros H. induction l as [|x l IH]; simpl; [reflexivity|].
  destruct (f x) eqn:Hf; simpl.
  - destruct (g x); by rewrite IH.
  - destruct (g x) eqn:Hg; [|exact IH]. apply H in Hg. congruence.
Qed.

(** X17: typing further narrows the search.  When the old term, put in
    lower case as the filter puts it, occurs in the new term put in lower
    case, searching the previous results gives exactly the results of the
    new term, and no student appears who was not shown before - in the
    student list and in the roster search.  The proof reads nothing of
    the case mapping but that both filters apply it to the term. *)
Theorem search_narrows students t1 t2 :
  Spec.ciSubstring t1 t2 →
  (StudentList.filteredStudents (StudentList.filteredStudents students t1) t2
   = StudentList.filteredStudents students t2
   ∧ ∀ s, In s (StudentList.filteredStudents students t2) →
          In s (StudentList.filteredStudents students t1))
  ∧ (AttendanceForm.filteredStudents (AttendanceForm.filteredStudents students t1) t2
     = AttendanceForm.filteredStudents students t2
     ∧ ∀ s, In s (AttendanceForm.filteredStudents students t2) →
            In s (AttendanceForm.filteredStudents students t1)).
Proof.
  intros H. split; split.
  - apply filter_filter_narrow. intros s. by apply list_matches_narrows.
  - intros s [Hs Hm]%List.filter_In. apply List.filter_In. split; [exact Hs|].
    by apply (list_matches_narrows t1 t2).
  - apply filter_filter_narrow. intros s. by apply form_matches_narrows.
  - intros s [Hs Hm]%List.filter_In. apply List.filter_In. split; [exact Hs|].
    by apply (form_matches_narrows t1 t2).
Qed.

(** X17 in the class: [A] finds Juan, Ana and Zoila (Alva), [AL] only
    Zoila, among all of them and among those found for [A]. *)
Lemma search_narrows_witness :
  Spec.ciSubstring "A" "AL"
  ∧ StudentList.filteredStudents (Store.students Sample.classroom) "A"
    = [Sample.juan_row; Sample.ana_row; Sample.zoila_row]
  ∧ StudentList.filteredStudents (Store.students Sample.classroom) "AL"
    = [Sample.zoila_row]
  ∧ StudentList.filteredStudents
      (StudentList.filteredStudents (Store.students Sample.classroom) "A") "AL"
    = StudentList.filteredStudents (Store.students Sample.classroom) "AL"
  ∧ AttendanceForm.filteredStudents
      (AttendanceForm.filteredStudents (Store.students Sample.classroom) "A") "AL"
    = AttendanceForm.filteredStudents (Store.students Sample.classroom) "AL".
Proof.
  assert (H : Spec.ciSubstring "A" "AL") by (exists "", "l"; reflexivity).
  split; [exact H|]. split; [reflexivity|]. split; [reflexivity|].
  destruct (search_narrows (Store.students Sample.classroom) "A" "AL" H)
    as [[H1 _] [H2 _]].
  split; [exact H1|exact H2].
Defined.

End SearchMore.

(** ** The rosters the lists load *)

Section RosterFacts.

(** X18: the roster loaded by the attendance form holds exactly the
    active students of the store, so neither the roster nor its search
    ever offers an inactive student; the student list loads all of them.
    Both come ordered by family name in the order of the collation. *)
Theorem loaded_rosters collate st :
  (∀ x y, collate y x = CompOpp (collate x y)) →
  (Permutation (StudentQuery.all collate st) (Store.students st)
   ∧ Sorted (notAfter (StudentQuery.byApellidos collate)) (StudentQuery.all collate st))
  ∧ (Permutation (StudentQuery.active collate st)
       (List.filter Student.activo (Store.students st))
     ∧ Sorted (notAfter (StudentQuery.byApellidos collate)) (StudentQuery.active collate st)
     ∧ ∀ term s,
         In s (AttendanceForm.filteredStudents (StudentQuery.active collate st) term) →
         In s (Store.students st) ∧ Student.activo s = true).
Proof.
  intros Hc.
  assert (Ha : ∀ a b, StudentQuery.byApellidos collate b a
                      = CompOpp (StudentQuery.byApellidos collate a b)).
  { intros a b. apply Hc. }
  split; [split|split; [|split]].
  - apply sortBy_perm.
  - by apply sortBy_sorted.
  - apply sortBy_perm.
  - by apply sortBy_sorted.
  - intros term s [Hs _]%List.filter_In.
    apply (Permutation_in _ (sortBy_perm _ _)) in Hs. by apply List.filter_In in Hs.
Qed.

(** X18 for the class, held in the order Juan (Perez), Ana (Ruiz),
    Zoila (Alva), of whom Zoila is not active: the student list shows
    Alva, Perez, Ruiz and the roster Perez, Ruiz. *)
Lemma loaded_rosters_witness :
  StudentQuery.all String.compare Sample.classroom
  = [Sample.zoila_row; Sample.juan_row; Sample.ana_row]
  ∧ StudentQuery.active String.compare Sample.classroom
    = [Sample.juan_row; Sample.ana_row]
  ∧ Permutation (StudentQuery.active String.compare Sample.classroom)
      (List.filter Student.activo (Store.students Sample.classroom))
  ∧ Sorted (notAfter (StudentQuery.byApellidos String.compare))
      (StudentQuery.active String.compare Sample.classroom)
  ∧ ∀ term s,
      In s (AttendanceForm.filteredStudents
              (StudentQuery.active String.compare Sample.classroom) term) →
      In s (Store.students Sample.classroom) ∧ Student.activo s = true.
Proof.
  split; [reflexivity|]. split; [reflexivity|].
  destruct (loaded_rosters String.compare Sample.classroom) as (_ & H).
  - intros x y. apply String.compare_antisym.
  - exact H.
Defined.

End RosterFacts.

(** ** Typing into the attendance form *)

Section HandleChangeFacts.
Import AttendanceForm.

Lemma getField_setField name value fd k :
  getField k (setField name value fd) =
  if String.eqb k name
  then match getField k fd with Some _ => Some value | None => None end
  else getField k fd.
Proof.
  unfold getField, setField. simpl.
  destruct (String.eqb_spec k name) as [->|Hne].
  - repeat (destruct (String.eqb name _); [reflexivity|]). reflexivity.
  - repeat match goal with
           | |- context [String.eqb k ?c] =>
               destruct (String.eqb_spec k c) as [->|?];
               [apply String.eqb_neq in Hne; rewrite String.eqb_sym in Hne;
                rewrite Hne; reflexivity|]
           end.
    reflexivity.
Qed.

Lemma clearError_shown errs name k :
  shown (clearError name errs) k ↔ k ≠ name ∧ shown errs k.
Proof.
  unfold shown, clearError.
  destruct (errs !! name) as [m|] eqn:Hm.
  - destruct (Js.truthy m) eqn:Ht.
    + split.
      * intros (m' & Hl & Hne). destruct (decide (k = name)) as [->|Hk].
        -- rewrite lookup_insert_eq in Hl. congruence.
        -- rewrite lookup_insert_ne in Hl by congruence. eauto.
      * intros (Hk & m' & Hl & Hne). exists m'.
        rewrite lookup_insert_ne by congruence. auto.
    + apply truthy_false in Ht. subst m. split.
      * intros (m' & Hl & Hne). split; [|eauto]. intros ->. congruence.
      * intros (_ & H). exact H.
  - split.
    + intros (m' & Hl & Hne). split; [|eauto]. intros ->. congruence.
    + intros (_ & H). exact H.
Qed.

(** X19: a change of an input of the attendance form sets the member of
    that name to the new value and leaves the other members as they are;
    it takes the message of that field from the screen and leaves the
    messages of the other fields; the roster, the search and the selected
    student are not touched. *)
Theorem handleChange_effect name value st :
  (∀ k, getField k (form (handleChange name value st)) =
        if String.eqb k name
        then match getField k (form st) with Some _ => Some value | None => None end
        else getField k (form st))
  ∧ (∀ k, shown (errors (handleChange name value st)) k ↔ k ≠ name ∧ shown (errors st) k)
  ∧ students (handleChange name value st) = students st
  ∧ searchTerm (handleChange name value st) = searchTerm st
  ∧ selectedStudent (handleChange name value st) = selectedStudent st.
Proof.
  split; [|split; [|repeat split]].
  - intros k. apply getField_setField.
  - intros k. apply clearError_shown.
Qed.

End HandleChangeFacts.

(** ** The attendance list under any filters *)

Section AttendanceListMore.
Import ListRules.

Lemma matches_filters filterDate filterCurso a :
  Query.matches (Query.filters (AttendanceList.query filterDate filterCurso)) a = true
  ↔ (filterDate = EmptyString ∨ Attendance.fecha a = filterDate)
    ∧ (filterCurso = EmptyString ∨ Attendance.curso a = filterCurso).
Proof.
  rewrite query_filters. unfold Query.matches. rewrite List.forallb_app, andb_true_iff.
  assert (H : ∀ c v (get : Attendance.t → string),
             Query.get c a = Query.Text (get a) →
             forallb (λ f, Query.value_eqb (Query.get (fst f) a) (Query.Text (snd f)))
               (if Js.truthy v then [(c, v)] else []) = true
             ↔ v = EmptyString ∨ get a = v).
  { intros c v get Hg. destruct v as [|x v]; simpl; [tauto|].
    rewrite Hg. simpl. rewrite andb_true_r, String.eqb_eq.
    split; [auto|]. intros [H|H]; [discriminate|exact H]. }
  rewrite (H Query.fecha filterDate Attendance.fecha eq_refl).
  rewrite (H Query.curso filterCurso Attendance.curso eq_refl). reflexivity.
Qed.

Lemma load_filters_rows st s :
  (∀ a, In a (List.map AttendanceWithStudent.row
                (AttendanceList.attendances (AttendanceList.load st s)))
        ↔ In a (Store.attendance st)
          ∧ (AttendanceList.filterDate s = EmptyString
             ∨ Attendance.fecha a = AttendanceList.filterDate s)
          ∧ (AttendanceList.filterCurso s = EmptyString
             ∨ Attendance.curso a = AttendanceList.filterCurso s))
  ∧ (length (AttendanceList.attendances (AttendanceList.load st s))
     <= length (Store.attendance st))%nat
  ∧ StronglySorted newestFirst
      (List.map AttendanceWithStudent.row
         (AttendanceList.attendances (AttendanceList.load st s))).
Proof.
  rewrite load_attendances.
  pose proof (run_rows_perm st (AttendanceList.query (AttendanceList.filterDate s)
                                  (AttendanceList.filterCurso s))) as Hp.
  split; [|split].
  - intros a. rewrite <- matches_filters, <- List.filter_In.
    split; apply Permutation_in; [exact Hp|symmetry; exact Hp].
  - rewrite <- (List.length_map AttendanceWithStudent.row).
    rewrite (Permutation_length Hp). apply List.filter_length_le.
  - apply run_newestFirst.
Qed.


Lemma setOf_const c l :
  (∀ x, In x l → x = c) →
  AttendanceList.setOf l = match l with [] => [] | _ => [c] end.
Proof.
  induction l as [|x l IH]; intros H; [reflexivity|].
  cbn [AttendanceList.setOf]. rewrite (H x) by (left; reflexivity).
  rewrite IH by (intros y Hy; apply H; by right).
  destruct l; simpl; [reflexivity|]. by rewrite String.eqb_refl.
Qed.

(** X21: while a course is selected in the course filter, the filter
    offers that course alone - or no course at all when no row is loaded. *)
Theorem options_under_course_filter st s :
  AttendanceList.filterCurso s ≠ EmptyString →
  AttendanceList.courseOptions (AttendanceList.load st s) =
  match AttendanceList.attendances (AttendanceList.load st s) with
  | [] => []
  | _ => [AttendanceList.filterCurso s]
  end.
Proof.
  intros Hc. unfold AttendanceList.courseOptions, AttendanceList.load,
    AttendanceList.loadAttendances. cbn [AttendanceList.cursos AttendanceList.attendances].
  unfold AttendanceList.uniqueCursos.
  set (data := Query.run st _).
  rewrite (setOf_const (AttendanceList.filterCurso s)).
  - destruct data; reflexivity.
  - intros c (r & <- & Hr)%List.in_map_iff.
    assert (Ha : In (AttendanceWithStudent.row r) (List.map AttendanceWithStudent.row data))
      by (by apply List.in_map).
    apply (proj1 (load_filters_rows st s)) in Ha as (_ & _ & [H|H]); congruence.
Qed.

Lemma options_under_course_filter_witness :
  AttendanceList.courseOptions (AttendanceList.load Sample.january Sample.jan15_mate)
  = [Sample.mate].
Proof.
  apply (options_under_course_filter Sample.january Sample.jan15_mate). discriminate.
Defined.





Lemma isoDate_not_empty now : JsDate.isoDate now ≠ EmptyString.
Proof.
  unfold JsDate.isoDate. destruct (JsDate.isoYear (JsDate.year now)); discriminate.
Qed.

(** X23: when the attendance list is opened its date filter is the
    calendar date of the clock and no course is selected, so the first
    load shows exactly the entries of that date, of every course. *)
Theorem first_load now st a :
  In a (List.map AttendanceWithStudent.row
          (AttendanceList.attendances
             (AttendanceList.load st (AttendanceList.initialState now))))
  ↔ In a (Store.attendance st) ∧ Attendance.fecha a = JsDate.isoDate now.
Proof.
  rewrite (proj1 (load_filters_rows st (AttendanceList.initialState now)) a).
  cbn [AttendanceList.initialState AttendanceList.filterDate AttendanceList.filterCurso].
  rewrite today_isoDate. pose proof (isoDate_not_empty now). intuition.
Qed.

End AttendanceListMore.

(** ** Deleting from the lists *)

Section DeleteFlows.

(** X24: both delete handlers ask first; declined, they do nothing more.
    Confirmed, they issue the one delete of that key, reload the list
    exactly when the gateway answers without error, and otherwise log the
    error and raise the alert without reloading. *)
Theorem delete_handlers id name confirmed reply :
  (confirmed = false →
   StudentList.handleDelete id name confirmed reply = [StudentList.Confirm name]
   ∧ AttendanceList.handleDelete id name confirmed reply = [AttendanceList.Confirm name])
  ∧ (∀ id', In (StudentList.Delete id') (StudentList.handleDelete id name confirmed reply)
            ↔ confirmed = true ∧ id' = id)
  ∧ (In StudentList.LoadStudents (StudentList.handleDelete id name confirmed reply)
     ↔ confirmed = true ∧ reply = None)
  ∧ (In (StudentList.Alert StudentList.msg_alert)
       (StudentList.handleDelete id name confirmed reply)
     ↔ confirmed = true ∧ reply ≠ None)
  ∧ (In AttendanceList.LoadAttendances (AttendanceList.handleDelete id name confirmed reply)
     ↔ confirmed = true ∧ reply = None)
  ∧ (In (AttendanceList.Alert AttendanceList.msg_alert)
       (AttendanceList.handleDelete id name confirmed reply)
     ↔ confirmed = true ∧ reply ≠ None)
  ∧ (∀ id', In (AttendanceList.Delete id')
              (AttendanceList.handleDelete id name confirmed reply)
            ↔ confirmed = true ∧ id' = id).
Proof.
  destruct confirmed, reply as [e|]; simpl; repeat split;
    intuition (try discriminate; try congruence).
Qed.

(** X25: after a confirmed delete the student list reloads, and what it
    then shows is every stored student but the deleted one, with the
    search term kept; a reload that fails keeps the rows shown before. *)
Theorem delete_then_reload collate id st s :
  (∀ x, In x (StudentList.students
                (StudentList.loadStudents
                   (inl (StudentQuery.all collate (App.deleteStudent id st))) s))
        ↔ In x (Store.students st) ∧ Student.id x ≠ id)
  ∧ StudentList.searchTerm
      (StudentList.loadStudents
         (inl (StudentQuery.all collate (App.deleteStudent id st))) s)
    = StudentList.searchTerm s
  ∧ ∀ e, StudentList.students (StudentList.loadStudents (inr e) s)
         = StudentList.students s.
Proof.
  split; [|split; reflexivity].
  intros x. cbn [StudentList.loadStudents StudentList.students].
  unfold StudentQuery.all. rewrite sortBy_In. apply deleteStudent_students.
Qed.

End DeleteFlows.

(** ** The shell *)

Section ShellFacts.
Import Shell.

Lemma run_snoc events e s : run (events ++ [e]) s = handle e (run events s).
Proof. unfold run. by rewrite List.fold_left_app. Qed.

(** X26: whatever happens to the shell, a form that is not shown holds no
    record to edit, and each refresh counter counts the saves of its
    form. *)
Theorem shell_invariant events :
  (showStudentForm (run events initialState) = false →
   editingStudent (run events initialState) = None)
  ∧ (showAttendanceForm (run events initialState) = false →
     editingAttendance (run events initialState) = None)
  ∧ refreshStudents (run events initialState)
    = Z.of_nat (length (List.filter isSaveStudent events))
  ∧ refreshAttendance (run events initialState)
    = Z.of_nat (length (List.filter isSaveAttendance events)).
Proof.
  induction events as [|e events IH] using rev_ind.
  - repeat split.
  - rewrite run_snoc, !List.filter_app, !List.length_app.
    destruct IH as (H1 & H2 & H3 & H4).
    destruct e; simpl; rewrite ?H3, ?H4; repeat split;
      try assumption; try discriminate; try lia.
Qed.

End ShellFacts.
